(** * Retell AI webhook processor: classification, validation and dispatch

    A shallow embedding of [RetellWebhookProcessor.ts]: the signature gate,
    the event filter, the call classifier ([isIrCall], [isNonIrCall]), the
    field validators ([validateIrCallData], [validateNonIrCallData]), the
    configuration loader and the notification dispatcher with its channel
    tasks, followed by the properties of the specification that concern
    them.

    Conventions.
    - A JavaScript string is a [string]; each character stands for one
      UTF-16 code unit below 256.
    - A JavaScript number is given by an integer and stands for the double
      nearest to it; numbers with a fractional part are not modelled.
    - [process.env] and the request headers are finite maps ([gmap]).
    - The collaborators (signature check, JSON parser, ticket tracker, mail
      providers, chat webhook, SMS client) are not part of the program: what
      they answer is read from a [World] record, and every call the program
      makes to one of them is recorded in a trace of [Event]s.
    - [context.log], [context.warn] and [context.error] lines and the
      construction of message bodies have no influence on control flow and
      are left out. *)

From Stdlib Require Import ZArith Ascii String List Bool Lia DecimalString.
From stdpp Require Import base option list strings gmap.

Open Scope string_scope.
Open Scope Z_scope.

(** ** JavaScript strings *)

Module JS.

(** Code units that [String.prototype.trim] removes (WhiteSpace and
    LineTerminator of ECMA-262) in the modelled range: TAB, LF, VT, FF, CR,
    SPACE and NO-BREAK SPACE. *)
Definition isWhiteSpace (c : ascii) : bool :=
  let n := N_of_ascii c in
  ((9 <=? n)%N && (n <=? 13)%N) || (n =? 32)%N || (n =? 160)%N.

Fixpoint trimStart (s : string) : string :=
  match s with
  | EmptyString => EmptyString
  | String c r => if isWhiteSpace c then trimStart r else s
  end.

Fixpoint trimEnd (s : string) : string :=
  match s with
  | EmptyString => EmptyString
  | String c r =>
      match trimEnd r with
      | EmptyString => if isWhiteSpace c then EmptyString else String c EmptyString
      | r' => String c r'
      end
  end.

(** [s.trim()] *)
Definition trim (s : string) : string := trimEnd (trimStart s).

(** Lower-case mapping of one code unit: A-Z, and the Latin-1 capitals
    U+00C0..U+00DE without the multiplication sign U+00D7. *)
Definition toLowerChar (c : ascii) : ascii :=
  let n := N_of_ascii c in
  if ((65 <=? n)%N && (n <=? 90)%N)
     || ((192 <=? n)%N && (n <=? 222)%N && negb (n =? 215)%N)
  then ascii_of_N (n + 32) else c.

(** [s.toLowerCase()] *)
Fixpoint toLowerCase (s : string) : string :=
  match s with
  | EmptyString => EmptyString
  | String c r => String (toLowerChar c) (toLowerCase r)
  end.

(** [s.includes(",")] *)
Fixpoint includesComma (s : string) : bool :=
  match s with
  | EmptyString => false
  | String c r => Ascii.eqb c "," || includesComma r
  end.

(** [s.split(",")]: the pieces between commas; never the empty list. *)
Fixpoint splitComma (s : string) : list string :=
  match s with
  | EmptyString => [EmptyString]
  | String c r =>
      if Ascii.eqb c "," then EmptyString :: splitComma r
      else match splitComma r with
           | p :: ps => String c p :: ps
           | [] => [String c EmptyString]
           end
  end.

(** [xs.join(sep)] *)
Fixpoint join (sep : string) (xs : list string) : string :=
  match xs with
  | [] => EmptyString
  | [x] => x
  | x :: rest => x +:+ sep +:+ join sep rest
  end.

(** *** Numbers

    A number of the program is an IEEE 754 double. The numbers modelled are
    those without fractional part: [Num n] below is the double nearest to the
    integer [n], which is what [JSON.parse] yields for the numeral of [n]. *)

(** The decimal numeral of an integer. *)
Definition decimal (n : Z) : string :=
  NilZero.string_of_int (Z.to_int n).

(** [Number.MAX_SAFE_INTEGER], 2^53 - 1: up to it every integer is a double. *)
Definition MAX_SAFE_INTEGER : Z := 9007199254740991.

(** The value of the double nearest to [a], for [0 <= a]: 53 significant
    bits, round to nearest, ties to even. A result of 2^1024 or more stands
    for [Infinity]. *)
Definition nearestDouble (a : Z) : Z :=
  let e := Z.log2 a - 52 in
  if e <=? 0 then a
  else
    let q := Z.shiftr a e in
    let r := a - Z.shiftl q e in
    let half := Z.shiftl 1 (e - 1) in
    let q' :=
      if r <? half then q
      else if half <? r then q + 1
      else if Z.even q then q else q + 1 in
    Z.shiftl q' e.

(** The multiple of [p] that reads back as the double [x], if there is one:
    the neighbour of [x] below or above, the closer of the two when both do,
    the even one at equal distance. *)
Definition roundTrip (x p : Z) : option Z :=
  let s := x / p in
  let lo := s * p in
  let hi := lo + p in
  match nearestDouble lo =? x, nearestDouble hi =? x with
  | true, true =>
      if x - lo <? hi - x then Some lo
      else if hi - x <? x - lo then Some hi
      else if Z.even s then Some lo else Some hi
  | true, false => Some lo
  | false, true => Some hi
  | false, false => None
  end.

(** The integer with the fewest significant digits that reads back as the
    double [x] (Number::toString, step 5 of ECMA-262): tried with [zeros]
    trailing zeros, then with one less, down to [x] itself. *)
Fixpoint shortest (x : Z) (zeros : nat) : Z :=
  match roundTrip x (10 ^ Z.of_nat zeros) with
  | Some v => v
  | None =>
      match zeros with
      | O => x
      | S z => shortest x z
      end
  end.

Fixpoint dropTrailingZeros (s : string) : string :=
  match s with
  | EmptyString => EmptyString
  | String c r =>
      match dropTrailingZeros r with
      | EmptyString => if Ascii.eqb c "0" then EmptyString else String c EmptyString
      | r' => String c r'
      end
  end.

(** Exponent notation, as used from 1e21 on: [d.ddde+n] or [de+n]. *)
Definition scientific (v : Z) : string :=
  let digits := decimal v in
  let exponent := decimal (Z.of_nat (String.length digits) - 1) in
  match dropTrailingZeros digits with
  | String c EmptyString => String c EmptyString +:+ "e+" +:+ exponent
  | String c r => String c ("." +:+ r) +:+ "e+" +:+ exponent
  | EmptyString => "0"
  end.

(** [String(x)] for the double nearest to [a], [0 <= a]: every digit of a
    safe integer; beyond, the shortest digits that read back as the same
    double, padded with zeros below 1e21 and in exponent notation from there
    on. *)
Definition stringOfMagnitude (a : Z) : string :=
  if a <=? MAX_SAFE_INTEGER then decimal a
  else
    let x := nearestDouble a in
    if 2 ^ 1024 <=? x then "Infinity"
    else
      let v := shortest x (String.length (decimal x) - 1) in
      if (String.length (decimal v) <=? 21)%nat then decimal v else scientific v.

(** [String(n)] *)
Definition stringOfNumber (n : Z) : string :=
  if n <? 0 then "-" +:+ stringOfMagnitude (- n) else stringOfMagnitude n.

(** A value of TypeScript type [string | number]. *)
Inductive scalar : Type :=
| Str (s : string)
| Num (n : Z).

(** [!!v]: the empty string and the number zero are falsy. *)
Definition truthy (v : scalar) : bool :=
  match v with
  | Str s => negb (String.eqb s "")
  | Num n => negb (n =? 0)
  end.

(** [String(v)] *)
Definition toString (v : scalar) : string :=
  match v with
  | Str s => s
  | Num n => stringOfNumber n
  end.

(** [!!o] for an optional string ([undefined] and [""] are falsy). *)
Definition truthyStr (o : option string) : bool :=
  match o with
  | Some s => negb (String.eqb s "")
  | None => false
  end.

(** [o || d] on optional strings. *)
Definition orDefault (o : option string) (d : string) : string :=
  match o with
  | Some s => if String.eqb s "" then d else s
  | None => d
  end.

(** [o1 || o2] where both may be [undefined]. *)
Definition orElse (o1 o2 : option string) : option string :=
  if truthyStr o1 then o1 else o2.

End JS.

(** ** The call object (interface [RetellCallObject]) *)

(** The analysis fields read by classification, validation and dispatch.
    A field that is [undefined] (or JSON [null]) is [None]. *)
Record Analysis : Type := {
  caller_name : option string;
  company_name : option string;
  caller_phone_number : option JS.scalar;
  caller_email_address : option string;
  IR_call_description : option string;
  non_IR_inquiry_reason : option string;
  non_IR_call_description : option string;
  is_security_incident : option bool
}.

Record CallAnalysis : Type := {
  custom_analysis_data : option Analysis
}.

Record RetellCallObject : Type := {
  call_id : string;
  analysis : option Analysis;
  call_analysis : option CallAnalysis
}.

(** The literal [{}]. *)
Definition emptyAnalysis : Analysis :=
  {| caller_name := None; company_name := None; caller_phone_number := None;
     caller_email_address := None; IR_call_description := None;
     non_IR_inquiry_reason := None; non_IR_call_description := None;
     is_security_incident := None |}.

(** [payload.analysis || payload.call_analysis?.custom_analysis_data || {}]:
    objects are truthy, so the first shape that is present wins. *)
Definition analysisOf (payload : RetellCallObject) : Analysis :=
  match analysis payload with
  | Some a => a
  | None =>
      match call_analysis payload with
      | Some ca =>
          match custom_analysis_data ca with
          | Some a => a
          | None => emptyAnalysis
          end
      | None => emptyAnalysis
      end
  end.

(** [analysis.is_security_incident === true] *)
Definition flagIsTrue (a : Analysis) : bool :=
  match is_security_incident a with
  | Some true => true
  | _ => false
  end.

(** [!!(x && x.length > 0)] where [x = field?.trim()]. *)
Definition nonEmptyTrimmed (field : option string) : bool :=
  match option_map JS.trim field with
  | Some x => negb (String.eqb x "") && (0 <? Z.of_nat (String.length x))
  | None => false
  end.

(** ** Call classifier *)

Definition isIrCall (payload : RetellCallObject) : bool :=
  let analysis := analysisOf payload in
  let irDescription := IR_call_description analysis in
  let isSecurityIncident := flagIsTrue analysis in
  nonEmptyTrimmed irDescription || isSecurityIncident.

Definition isNonIrCall (payload : RetellCallObject) : bool :=
  let analysis := analysisOf payload in
  let nonIrReason := non_IR_inquiry_reason analysis in
  let nonIrDescription := non_IR_call_description analysis in
  let isSecurityIncident := flagIsTrue analysis in
  if isSecurityIncident then false
  else nonEmptyTrimmed nonIrReason || nonEmptyTrimmed nonIrDescription.

Inductive Classification : Type := Incident | Inquiry | Unclassified.

(** The branch taken by the handler: [if (isIr) .. else if (isNonIr) ..
    else ..]. *)
Definition classify (payload : RetellCallObject) : Classification :=
  if isIrCall payload then Incident
  else if isNonIrCall payload then Inquiry
  else Unclassified.

(** ** Field validator *)

Record ValidationResult : Type := {
  valid : bool;
  missingFields : list string
}.

(** [!v || String(v).trim() === '' ||
     String(v).trim().toLowerCase() === 'not provided'] *)
Definition isMissing (v : option JS.scalar) : bool :=
  match v with
  | None => true
  | Some x =>
      negb (JS.truthy x)
      || String.eqb (JS.trim (JS.toString x)) ""
      || String.eqb (JS.toLowerCase (JS.trim (JS.toString x))) "not provided"
  end.

(** [v && String(v).trim() !== '' &&
     String(v).trim().toLowerCase() !== 'not provided'], as a boolean. *)
Definition hasValue (v : option JS.scalar) : bool :=
  match v with
  | None => false
  | Some x =>
      JS.truthy x
      && negb (String.eqb (JS.trim (JS.toString x)) "")
      && negb (String.eqb (JS.toLowerCase (JS.trim (JS.toString x))) "not provided")
  end.

(** A field of type [string] seen as a [string | number] value. *)
Definition ofStr (o : option string) : option JS.scalar := option_map JS.Str o.

(** [cond ? missingFields.push(descr)] *)
Definition pushIf (cond : bool) (descr : string) (acc : list string) : list string :=
  if cond then (acc ++ [descr])%list else acc.

Definition validateIrCallData (payload : RetellCallObject) : ValidationResult :=
  let analysis := analysisOf payload in
  let missingFields := [] in
  let missingFields :=
    pushIf (negb (flagIsTrue analysis))
      "confirmed security incident (is_security_incident must be true)" missingFields in
  let callerName := ofStr (caller_name analysis) in
  let missingFields := pushIf (isMissing callerName) "caller first and last name" missingFields in
  let companyName := ofStr (company_name analysis) in
  let missingFields := pushIf (isMissing companyName) "company name" missingFields in
  let phoneNumber := caller_phone_number analysis in
  let missingFields := pushIf (isMissing phoneNumber) "phone number" missingFields in
  {| valid := (length missingFields =? 0)%nat; missingFields := missingFields |}.

Definition validateNonIrCallData (payload : RetellCallObject) : ValidationResult :=
  let analysis := analysisOf payload in
  let missingFields := [] in
  let missingFields :=
    pushIf (flagIsTrue analysis)
      "call must not be a security incident (is_security_incident must be false or not set)"
      missingFields in
  let callerName := ofStr (caller_name analysis) in
  let missingFields := pushIf (isMissing callerName) "caller name" missingFields in
  let phoneNumber := caller_phone_number analysis in
  let emailAddress := ofStr (caller_email_address analysis) in
  let hasPhone := hasValue phoneNumber in
  let hasEmail := hasValue emailAddress in
  let missingFields :=
    pushIf (negb hasPhone && negb hasEmail)
      "contact information (phone number OR email address)" missingFields in
  {| valid := (length missingFields =? 0)%nat; missingFields := missingFields |}.

(** ** Errors, outcomes and traces *)

(** A thrown JavaScript value: an [Error] instance with its message, or any
    other value with its [String(value)] text. *)
Inductive JsError : Type :=
| Error (message : string)
| ThrownValue (text : string).

(** [error instanceof Error ? error.message : String(error)] *)
Definition errorText (e : JsError) : string :=
  match e with
  | Error m => m
  | ThrownValue t => t
  end.

Inductive Outcome (A : Type) : Type :=
| Returns (a : A)
| Throws (e : JsError).
Arguments Returns {A} a.
Arguments Throws {A} e.

Inductive Provider : Type := SendGrid | Azure.

(** Which of the three mails of the program a provider call carries. *)
Inductive EmailKind : Type := IncidentAlert | TicketFailureAlert | InquirySummary.

(** The calls the program makes to its collaborators. *)
Inductive Event : Type :=
| ReadBody                                          (* request.text() *)
| VerifySignature (body key signature : string)     (* Retell.verify *)
| ParseJson (text : string)                         (* JSON.parse *)
| TicketRequest (endpoint : string)                 (* fetch(.../rest/api/3/issue) *)
| NewEmailClient (k : EmailKind) (connection : string) (* new EmailClient(..) *)
| EmailSend (p : Provider) (k : EmailKind) (to : list string)
                                                    (* sgMail.send / beginSend *)
| ChatPost (url : string)                           (* fetch(teams.webhookUrl) *)
| SmsCreate (from to : string).                     (* client.messages.create *)

Definition Trace : Type := list Event.

(** The webhook envelope (interface [RetellWebhookPayload]); [call] may be
    missing at run time, which the handler allows for with [call?.call_id]. *)
Record RetellWebhookPayload : Type := {
  event : string;
  call : option RetellCallObject
}.

(** What [fetch] gives: a rejection, or a response with [ok], [status],
    [statusText] and the results of reading it with [text()] and [json()]. *)
Inductive FetchResult : Type :=
| FetchRejects (e : JsError)
| FetchResponse (ok : bool) (status : Z) (statusText : string)
                (text : Outcome string) (json : Outcome unit).

(** What a mail provider gives: a rejection, or completion with the send
    status (Azure reports one; SendGrid just resolves). *)
Inductive SendResult : Type :=
| SendThrows (e : JsError)
| SendStatus (status : string).

(** The answers of the collaborators during one invocation. *)
Record World : Type := {
  Retell_verify : string -> string -> string -> bool;
  JSON_parse : string -> Outcome RetellWebhookPayload;
  jiraFetch : FetchResult;
  teamsFetch : FetchResult;
  newEmailClient : Outcome unit;
  mailSend : EmailKind -> SendResult;
  twilioClient : Outcome unit;
  smsCreate : Outcome unit
}.

(** Computations: the collaborator calls made so far, and a result or a
    thrown error. *)
Definition Js (A : Type) : Type := (Trace * Outcome A)%type.

Definition ret {A} (a : A) : Js A := ([], Returns a).

Definition throw {A} (e : JsError) : Js A := ([], Throws e).

Definition bind {A B} (m : Js A) (f : A -> Js B) : Js B :=
  match m with
  | (t, Returns a) => let '(t', r) := f a in ((t ++ t')%list, r)
  | (t, Throws e) => (t, Throws e)
  end.

(** [try { m } catch (e) { h e }] *)
Definition tryCatch {A} (m : Js A) (h : JsError -> Js A) : Js A :=
  match m with
  | (t, Throws e) => let '(t', r) := h e in ((t ++ t')%list, r)
  | (t, Returns a) => (t, Returns a)
  end.

Definition emit (ev : Event) : Js unit := ([ev], Returns tt).

Definition liftOutcome {A} (o : Outcome A) : Js A := ([], o).

Notation "'let*' x ':=' m 'in' k" := (bind m (fun x => k))
  (at level 10, x name, m at level 100, k at level 200).
Notation "m ';;;' k" := (bind m (fun _ => k))
  (at level 100, k at level 200, right associativity).

(** ** Configuration (interface [ServiceConfig], [loadConfiguration]) *)

Record SendgridConfig : Type := {
  sendgrid_apiKey : string;
  sendgrid_fromEmail : string;
  sendgrid_fromEmailIr : string;
  sendgrid_fromEmailNonIr : string;
  sendgrid_toEmail : string
}.

Record AzureEmailConfig : Type := {
  azureEmail_connectionString : string;
  azureEmail_senderEmail : string;
  azureEmail_senderEmailIr : string;
  azureEmail_senderEmailNonIr : string;
  azureEmail_recipientEmail : string
}.

Record TwilioConfig : Type := {
  twilio_accountSid : string;
  twilio_authToken : string;
  twilio_fromNumber : string;
  twilio_toNumber : string
}.

Record JiraConfig : Type := {
  jira_apiUrl : string;
  jira_userEmail : string;
  jira_apiToken : string;
  jira_projectKey : string;
  jira_requestTypeDev : string;
  jira_requestTypeProd : string;
  jira_issueType : string;
  jira_toEmail : string;
  jira_failureNotificationRecipients : string
}.

Record EmailConfig : Type := {
  email_fromNameIr : string;
  email_fromNameNonIr : string;
  email_unsubscribeEmail : string
}.

Record FeatureFlags : Type := {
  enableEmail : bool;
  enableTeams : bool;
  enableSms : bool;
  enableJira : bool
}.

Record ServiceConfig : Type := {
  emailProvider : Provider;
  sendgrid : SendgridConfig;
  azureEmail : AzureEmailConfig;
  teams_webhookUrl : string;
  twilio : TwilioConfig;
  jira : JiraConfig;
  nonIrEmail_recipientEmail : string;
  email : EmailConfig;
  featureFlags : FeatureFlags
}.

(** [process.env.NAME?.toLowerCase() === value] *)
Definition envIs (env : gmap string string) (name value : string) : bool :=
  match env !! name with
  | Some v => String.eqb (JS.toLowerCase v) value
  | None => false
  end.

(** [!process.env[varName]] *)
Definition envMissing (env : gmap string string) (varName : string) : bool :=
  negb (JS.truthyStr (env !! varName)).

Definition emailProviderOf (env : gmap string string) : Provider :=
  if envIs env "EMAIL_PROVIDER" "azure" then Azure else SendGrid.

(** The list [requiredEnvVars] after the four [if (enable..)] blocks. *)
Definition requiredEnvVars (env : gmap string string) : list string :=
  let enableEmail := envIs env "ENABLE_EMAIL_NOTIFICATIONS" "true" in
  let enableTeams := envIs env "ENABLE_TEAMS_NOTIFICATIONS" "true" in
  let enableSms := envIs env "ENABLE_SMS_NOTIFICATIONS" "true" in
  let enableJira := envIs env "ENABLE_JIRA_NOTIFICATIONS" "true" in
  ((if enableEmail then
     match emailProviderOf env with
     | SendGrid => ["SENDGRID_API_KEY"; "SENDGRID_FROM_EMAIL"; "IRT_EMAIL_ADDRESS"]
     | Azure => ["AZURE_COMMUNICATION_CONNECTION_STRING";
                 "AZURE_COMMUNICATION_SENDER_EMAIL"; "IRT_EMAIL_ADDRESS"]
     end
   else [])
  ++ (if enableTeams then ["TEAMS_WEBHOOK_URL"] else [])
  ++ (if enableSms then ["TWILIO_ACCOUNT_SID"; "TWILIO_AUTH_TOKEN";
                         "TWILIO_FROM_NUMBER"; "ONCALL_PHONE_NUMBER"] else [])
  ++ (if enableJira then ["JIRA_API_URL"; "JIRA_USER_EMAIL"; "JIRA_API_TOKEN";
                          "JIRA_PROJECT_KEY"] else []))%list.

Definition loadConfiguration (env : gmap string string) : Outcome ServiceConfig :=
  let enableEmail := envIs env "ENABLE_EMAIL_NOTIFICATIONS" "true" in
  let enableTeams := envIs env "ENABLE_TEAMS_NOTIFICATIONS" "true" in
  let enableSms := envIs env "ENABLE_SMS_NOTIFICATIONS" "true" in
  let enableJira := envIs env "ENABLE_JIRA_NOTIFICATIONS" "true" in
  let emailProvider := emailProviderOf env in
  let missing := List.filter (envMissing env) (requiredEnvVars env) in
  if (0 <? length missing)%nat then
    Throws (Error ("Missing required environment variables for enabled features: "
                   +:+ JS.join ", " missing))
  else
    let var (n : string) := env !! n in
    let fallback := "DONOTREPLY@procircular.com" in
    Returns
      {| emailProvider := emailProvider;
         sendgrid :=
           {| sendgrid_apiKey := JS.orDefault (var "SENDGRID_API_KEY") "";
              sendgrid_fromEmail := JS.orDefault (var "SENDGRID_FROM_EMAIL") fallback;
              sendgrid_fromEmailIr :=
                JS.orDefault (JS.orElse (var "SENDGRID_FROM_EMAIL_IR")
                                        (var "SENDGRID_FROM_EMAIL")) fallback;
              sendgrid_fromEmailNonIr :=
                JS.orDefault (JS.orElse (var "SENDGRID_FROM_EMAIL_NON_IR")
                                        (var "SENDGRID_FROM_EMAIL")) fallback;
              sendgrid_toEmail := JS.orDefault (var "IRT_EMAIL_ADDRESS") "" |};
         azureEmail :=
           {| azureEmail_connectionString :=
                JS.orDefault (var "AZURE_COMMUNICATION_CONNECTION_STRING") "";
              azureEmail_senderEmail :=
                JS.orDefault (var "AZURE_COMMUNICATION_SENDER_EMAIL") fallback;
              azureEmail_senderEmailIr :=
                JS.orDefault (JS.orElse (var "AZURE_COMMUNICATION_SENDER_EMAIL_IR")
                                        (var "AZURE_COMMUNICATION_SENDER_EMAIL")) fallback;
              azureEmail_senderEmailNonIr :=
                JS.orDefault (JS.orElse (var "AZURE_COMMUNICATION_SENDER_EMAIL_NON_IR")
                                        (var "AZURE_COMMUNICATION_SENDER_EMAIL")) fallback;
              azureEmail_recipientEmail := JS.orDefault (var "IRT_EMAIL_ADDRESS") "" |};
         teams_webhookUrl := JS.orDefault (var "TEAMS_WEBHOOK_URL") "";
         twilio :=
           {| twilio_accountSid := JS.orDefault (var "TWILIO_ACCOUNT_SID") "";
              twilio_authToken := JS.orDefault (var "TWILIO_AUTH_TOKEN") "";
              twilio_fromNumber := JS.orDefault (var "TWILIO_FROM_NUMBER") "";
              twilio_toNumber := JS.orDefault (var "ONCALL_PHONE_NUMBER") "" |};
         jira :=
           {| jira_apiUrl := JS.orDefault (var "JIRA_API_URL") "";
              jira_userEmail := JS.orDefault (var "JIRA_USER_EMAIL") "";
              jira_apiToken := JS.orDefault (var "JIRA_API_TOKEN") "";
              jira_projectKey := JS.orDefault (var "JIRA_PROJECT_KEY") "IRT";
              jira_requestTypeDev := JS.orDefault (var "JIRA_REQUEST_TYPE_DEV") "250";
              jira_requestTypeProd := JS.orDefault (var "JIRA_REQUEST_TYPE_PROD") "151";
              jira_issueType := JS.orDefault (var "JIRA_ISSUE_TYPE") "[System] Incident";
              jira_toEmail :=
                JS.orDefault (JS.orElse (var "JIRA_TO_EMAIL") (var "IRT_EMAIL_ADDRESS"))
                             "IRT@procircular.com";
              jira_failureNotificationRecipients :=
                JS.orDefault (var "JIRA_FAILURE_NOTIFICATION_RECIPIENTS")
                             "csirt@procircular.com,jsherlock@procircular.com" |};
         nonIrEmail_recipientEmail :=
           JS.orDefault (JS.orElse (var "NON_IR_EMAIL_RECIPIENT") (var "IRT_EMAIL_ADDRESS")) "";
         email :=
           {| email_fromNameIr :=
                JS.orDefault (var "EMAIL_FROM_NAME_IR") "ProCircular Incident Response";
              email_fromNameNonIr :=
                JS.orDefault (var "EMAIL_FROM_NAME_NON_IR") "Procircular General Inquiry";
              email_unsubscribeEmail :=
                JS.orDefault (var "UNSUBSCRIBE_EMAIL") "unsubscribe@procircular.com" |};
         featureFlags :=
           {| enableEmail := enableEmail; enableTeams := enableTeams;
              enableSms := enableSms; enableJira := enableJira |} |}.

(** ** HTTP request and response *)

Record HttpRequest : Type := {
  headers : gmap string string;
  body : string
}.

Record NotificationsAttempted : Type := {
  attempted_jira : bool;
  attempted_email : bool;
  attempted_teams : bool;
  attempted_sms : bool
}.

Record NotificationStatus : Type := {
  total : nat;
  successful : nat;
  failed : nat
}.

(** The four shapes of [jsonBody] the handler produces. *)
Inductive JsonBody : Type :=
| ErrorBody (error : string)
    (* { success: false, error } *)
| MessageBody (message : string)
    (* { success: true, message } *)
| SkippedBody (message : string) (missing : list string) (callId : string)
    (* { success: false, message, missingFields, call_id } *)
| ProcessedBody (message : string) (callId : string) (call_type : string)
                (notifications_attempted : NotificationsAttempted)
                (notification_results : NotificationStatus).
    (* { success: true, message, call_id, call_type, notifications_attempted,
         notification_results } *)

Definition success (b : JsonBody) : bool :=
  match b with
  | ErrorBody _ => false
  | MessageBody _ => true
  | SkippedBody _ _ _ => false
  | ProcessedBody _ _ _ _ _ => true
  end.

Record HttpResponseInit : Type := {
  status : Z;
  jsonBody : JsonBody
}.

Inductive PromiseSettledResult : Type :=
| fulfilled
| rejected (reason : JsError).

Definition isFulfilled (r : PromiseSettledResult) : bool :=
  match r with fulfilled => true | rejected _ => false end.

Definition isRejected (r : PromiseSettledResult) : bool :=
  match r with fulfilled => false | rejected _ => true end.

(** How the promise of an [async] function settles. *)
Definition settled (t : Js unit) : PromiseSettledResult :=
  match snd t with
  | Returns _ => fulfilled
  | Throws e => rejected e
  end.

(** [await Promise.allSettled(tasks)]: every promise is awaited and reported
    at its own position; the join itself never rejects. The collaborator
    calls of the tasks are listed task by task: how the calls of different
    tasks interleave at run time is not modelled, and no property below
    depends on it. Every collaborator call is taken to return or throw. *)
Definition Promise_allSettled (tasks : list (Js unit)) : Js (list PromiseSettledResult) :=
  (concat (map fst tasks), Returns (map settled tasks)).

(** ** Channel tasks *)

Section Channels.

Variable w : World.

(** [s.includes(',') ? s.split(',').map(email => email.trim()) : [s]] *)
Definition recipientList (s : string) : list string :=
  if JS.includesComma s then map JS.trim (JS.splitComma s) else [s].

(** [new EmailClient(connectionString)] *)
Definition new_EmailClient (k : EmailKind) (connection : string) : Js unit :=
  emit (NewEmailClient k connection) ;;; liftOutcome (newEmailClient w).

(** [await sgMail.send(msg)] *)
Definition sgMail_send (k : EmailKind) (to : list string) : Js unit :=
  emit (EmailSend SendGrid k to) ;;;
  match mailSend w k with
  | SendThrows e => throw e
  | SendStatus _ => ret tt
  end.

(** [(await (await emailClient.beginSend(message)).pollUntilDone()).status] *)
Definition emailClient_send (k : EmailKind) (to : list string) : Js string :=
  emit (EmailSend Azure k to) ;;;
  match mailSend w k with
  | SendThrows e => throw e
  | SendStatus st => ret st
  end.

(** [KnownEmailSendStatus.Succeeded] *)
Definition Succeeded : string := "Succeeded".

Definition sendEmailViaAzure (payload : RetellCallObject) (config : ServiceConfig) : Js unit :=
  let validation := validateIrCallData payload in
  if negb (valid validation) then ret tt
  else
    new_EmailClient IncidentAlert (azureEmail_connectionString (azureEmail config)) ;;;
    let to := map JS.trim (recipientList (azureEmail_recipientEmail (azureEmail config))) in
    tryCatch
      (let* st := emailClient_send IncidentAlert to in
       if String.eqb st Succeeded then ret tt
       else throw (Error ("Azure email send failed: " +:+ st)))
      (fun error => throw error).

Definition sendEmailViaSendGrid (payload : RetellCallObject) (config : ServiceConfig) : Js unit :=
  let validation := validateIrCallData payload in
  if negb (valid validation) then ret tt
  else
    let recipients := recipientList (sendgrid_toEmail (sendgrid config)) in
    sgMail_send IncidentAlert recipients.

Definition sendEmail (payload : RetellCallObject) (config : ServiceConfig) : Js unit :=
  match emailProvider config with
  | Azure => sendEmailViaAzure payload config
  | SendGrid => sendEmailViaSendGrid payload config
  end.

(** [fetch(url, ..)] followed by the [response.ok] test of the caller. *)
Definition sendTeamsMessage (payload : RetellCallObject) (config : ServiceConfig) : Js unit :=
  match analysis payload with
  | None => throw (Error "Cannot read properties of undefined (reading 'company_name')")
  | Some _ =>
      emit (ChatPost (teams_webhookUrl config)) ;;;
      match teamsFetch w with
      | FetchRejects e => throw e
      | FetchResponse ok st statusText _ _ =>
          if negb ok then
            throw (Error ("Teams webhook failed: " +:+ JS.stringOfNumber st
                          +:+ " " +:+ statusText))
          else ret tt
      end
  end.

Definition sendSms (payload : RetellCallObject) (config : ServiceConfig) : Js unit :=
  liftOutcome (twilioClient w) ;;;
  match analysis payload with
  | None => throw (Error "Cannot read properties of undefined (reading 'caller_name')")
  | Some _ =>
      emit (SmsCreate (twilio_fromNumber (twilio config)) (twilio_toNumber (twilio config))) ;;;
      liftOutcome (smsCreate w)
  end.

(** Both provider branches swallow what the send throws; only the
    construction of the Azure client lies outside their [try]. *)
Definition sendJiraFailureNotificationEmail
    (payload : RetellCallObject) (error : JsError) (config : ServiceConfig) : Js unit :=
  let recipients := recipientList (jira_failureNotificationRecipients (jira config)) in
  match emailProvider config with
  | Azure =>
      new_EmailClient TicketFailureAlert (azureEmail_connectionString (azureEmail config)) ;;;
      tryCatch
        (let* st := emailClient_send TicketFailureAlert (map JS.trim recipients) in ret tt)
        (fun emailError => ret tt)
  | SendGrid =>
      tryCatch (sgMail_send TicketFailureAlert recipients) (fun emailError => ret tt)
  end.

(** [error instanceof Error ? error : new Error(String(error))] *)
Definition asError (e : JsError) : JsError := Error (errorText e).

(** The [try] block of [createJiraTicketViaApi]: the value of
    [emailNotificationSent] when the block is left, and how it is left. *)
Definition jiraTryBlock (payload : RetellCallObject) (config : ServiceConfig)
    : Js (bool * Outcome unit) :=
  emit (TicketRequest (jira_apiUrl (jira config) +:+ "/rest/api/3/issue")) ;;;
  match jiraFetch w with
  | FetchRejects e => ret (false, Throws e)
  | FetchResponse ok st _ text json =>
      if negb ok then
        match text with
        | Throws e => ret (false, Throws e)
        | Returns errorText =>
            let error := Error ("Jira API request failed: " +:+ JS.stringOfNumber st
                                +:+ " - " +:+ errorText) in
            let* emailNotificationSent :=
              if enableEmail (featureFlags config) then
                tryCatch
                  (sendJiraFailureNotificationEmail payload error config ;;; ret true)
                  (fun emailError => ret false)
              else ret false in
            ret (emailNotificationSent, Throws error)
        end
      else
        match json with
        | Throws e => ret (false, Throws e)
        | Returns _ => ret (false, Returns tt)
        end
  end.

Definition createJiraTicketViaApi (payload : RetellCallObject) (config : ServiceConfig) : Js unit :=
  let validation := validateIrCallData payload in
  if negb (valid validation) then ret tt
  else
    let* r := jiraTryBlock payload config in
    match r with
    | (_, Returns _) => ret tt
    | (emailNotificationSent, Throws error) =>
        (if enableEmail (featureFlags config) && negb emailNotificationSent then
           tryCatch
             (sendJiraFailureNotificationEmail payload (asError error) config)
             (fun emailError => ret tt)
         else ret tt) ;;;
        throw error
    end.

Definition sendNonIrEmail (payload : RetellCallObject) (config : ServiceConfig) : Js unit :=
  let validation := validateNonIrCallData payload in
  if negb (valid validation) then ret tt
  else
    let recipients := recipientList (nonIrEmail_recipientEmail config) in
    match emailProvider config with
    | Azure =>
        new_EmailClient InquirySummary (azureEmail_connectionString (azureEmail config)) ;;;
        let* st := emailClient_send InquirySummary (map JS.trim recipients) in
        if String.eqb st Succeeded then ret tt
        else throw (Error ("Azure email send failed: " +:+ st))
    | SendGrid => sgMail_send InquirySummary recipients
    end.

End Channels.

(** ** The dispatcher and the handler *)

(** The entries of [notificationTasks], named after the call that creates
    the promise. *)
Inductive NotificationTask : Type :=
| TicketTask         (* createJiraTicketViaApi(payload, config, context) *)
| IncidentEmailTask  (* sendEmail(payload, config, context) *)
| ChatTask           (* sendTeamsMessage(payload, config, context) *)
| SmsTask            (* sendSms(payload, config, context) *)
| InquiryEmailTask.  (* sendNonIrEmail(payload, config, context) *)

(** What the classification block of the handler leaves behind: an early
    [return], or [callType] and the queued tasks. *)
Inductive Plan : Type :=
| EarlyReturn (response : HttpResponseInit)
| Queued (callType : string) (notificationTasks : list NotificationTask).

(** [if (flag) notificationTasks.push(task)] *)
Definition pushTask (flag : bool) (task : NotificationTask)
    (queue : list NotificationTask) : list NotificationTask :=
  if flag then (queue ++ [task])%list else queue.

(** The [if (isIr) .. else if (isNonIr) .. else ..] block. The [.catch]
    handlers attached in the first two branches log and rethrow, so they
    leave the promise as it is. *)
Definition buildNotificationTasks (payload : RetellCallObject) (config : ServiceConfig) : Plan :=
  let isIr := isIrCall payload in
  let isNonIr := isNonIrCall payload in
  let flags := featureFlags config in
  let notificationTasks := [] in
  if isIr then
    let irValidation := validateIrCallData payload in
    if negb (valid irValidation) then
      EarlyReturn
        {| status := 200;
           jsonBody := SkippedBody "IR call processing skipped - missing required data"
                                   (missingFields irValidation) (call_id payload) |}
    else
      let notificationTasks := pushTask (enableJira flags) TicketTask notificationTasks in
      let notificationTasks := pushTask (enableEmail flags) IncidentEmailTask notificationTasks in
      let notificationTasks := pushTask (enableTeams flags) ChatTask notificationTasks in
      let notificationTasks := pushTask (enableSms flags) SmsTask notificationTasks in
      Queued "IR" notificationTasks
  else if isNonIr then
    let nonIrValidation := validateNonIrCallData payload in
    if negb (valid nonIrValidation) then
      EarlyReturn
        {| status := 200;
           jsonBody := SkippedBody "Non-IR call processing skipped - missing required data"
                                   (missingFields nonIrValidation) (call_id payload) |}
    else
      let notificationTasks := (notificationTasks ++ [InquiryEmailTask])%list in
      Queued "NON-IR" notificationTasks
  else
    let notificationTasks := pushTask (enableJira flags) TicketTask notificationTasks in
    let notificationTasks := pushTask (enableEmail flags) IncidentEmailTask notificationTasks in
    let notificationTasks := pushTask (enableTeams flags) ChatTask notificationTasks in
    let notificationTasks := pushTask (enableSms flags) SmsTask notificationTasks in
    Queued "UNCLASSIFIED (defaulting to IR)" notificationTasks.

Section Handler.

Variable w : World.

(** The promise behind a queued task. *)
Definition startTask (payload : RetellCallObject) (config : ServiceConfig)
    (task : NotificationTask) : Js unit :=
  match task with
  | TicketTask => createJiraTicketViaApi w payload config
  | IncidentEmailTask => sendEmail w payload config
  | ChatTask => sendTeamsMessage w payload config
  | SmsTask => sendSms w payload config
  | InquiryEmailTask => sendNonIrEmail w payload config
  end.

(** [request.text()] *)
Definition request_text (request : HttpRequest) : Js string :=
  emit ReadBody ;;; ret (body request).

(** A string that is present and not empty ([!x] is false). *)
Definition whenTruthy (o : option string) : option string :=
  match o with
  | Some s => if String.eqb s "" then None else Some s
  | None => None
  end.

(** The body of the outer [try] of [RetellWebhookProcessor]. *)
Definition processWebhook (env : gmap string string) (request : HttpRequest)
    : Js HttpResponseInit :=
  let retellApiKey := env !! "RETELL_API_KEY" in
  let signature := headers request !! "x-retell-signature" in
  match whenTruthy retellApiKey with
  | None =>
      ret {| status := 500; jsonBody := ErrorBody "Server configuration error." |}
  | Some retellApiKey =>
  match whenTruthy signature with
  | None =>
      ret {| status := 400; jsonBody := ErrorBody "Missing x-retell-signature header." |}
  | Some signature =>
      let* rawBody := request_text request in
      let* verified :=
        emit (VerifySignature rawBody retellApiKey signature) ;;;
        ret (Retell_verify w rawBody retellApiKey signature) in
      if negb verified then
        ret {| status := 401; jsonBody := ErrorBody "Invalid signature." |}
      else
        let* webhookPayload := emit (ParseJson rawBody) ;;; liftOutcome (JSON_parse w rawBody) in
        let eventType := event webhookPayload in
        if negb (String.eqb eventType "call_analyzed") then
          ret {| status := 200;
                 jsonBody := MessageBody ("Event type " +:+ eventType
                                          +:+ " acknowledged but not processed") |}
        else
          let* payload :=
            match call webhookPayload with
            | Some c => ret c
            | None => throw (Error "Cannot read properties of undefined (reading 'call_id')")
            end in
          let* config := liftOutcome (loadConfiguration env) in
          let isIr := isIrCall payload in
          let isNonIr := isNonIrCall payload in
          match buildNotificationTasks payload config with
          | EarlyReturn response => ret response
          | Queued callType notificationTasks =>
              let* results :=
                if (0 <? length notificationTasks)%nat then
                  Promise_allSettled (map (startTask payload config) notificationTasks)
                else ret [] in
              let notificationStatus :=
                if (0 <? length notificationTasks)%nat then
                  {| total := length notificationTasks;
                     successful := length (List.filter isFulfilled results);
                     failed := length (List.filter isRejected results) |}
                else {| total := 0; successful := 0; failed := 0 |} in
              let flags := featureFlags config in
              ret {| status := 200;
                     jsonBody :=
                       ProcessedBody "Webhook processed successfully"
                         (call_id payload) callType
                         {| attempted_jira := isIr && enableJira flags;
                            attempted_email := (isIr && enableEmail flags) || isNonIr;
                            attempted_teams := isIr && enableTeams flags;
                            attempted_sms := isIr && enableSms flags |}
                         notificationStatus |}
          end
  end
  end.

(** [error instanceof Error ? error.message : 'Unknown error occurred'] *)
Definition unexpectedMessage (e : JsError) : string :=
  match e with
  | Error m => m
  | ThrownValue _ => "Unknown error occurred"
  end.

(** The handler: the outer [try] with its [catch]. It always answers. *)
Definition RetellWebhookProcessor (env : gmap string string) (request : HttpRequest)
    : Trace * HttpResponseInit :=
  match processWebhook env request with
  | (t, Returns response) => (t, response)
  | (t, Throws error) =>
      (t, {| status := 500; jsonBody := ErrorBody (unexpectedMessage error) |})
  end.

End Handler.

(** * The specification's wording *)

(** Definitions written from the text of the specification, to be compared
    with the program above. *)
Module Policy.

(** Every character is white space (the empty text included). *)
Fixpoint whitespaceOnly (s : string) : bool :=
  match s with
  | EmptyString => true
  | String c r => JS.isWhiteSpace c && whitespaceOnly r
  end.

(** "a non-empty ... field is present", the emptiness being judged after
    trimming: the field is supplied and is not white space only. *)
Definition nonEmptyText (field : option string) : bool :=
  match field with
  | Some s => negb (whitespaceOnly s)
  | None => false
  end.

(** Section 4.3, "Algorithm". *)
Definition classify (a : Analysis) : Classification :=
  let hasIncidentText := nonEmptyText (IR_call_description a) in
  let isFlaggedIncident := bool_decide (is_security_incident a = Some true) in
  if hasIncidentText || isFlaggedIncident then Incident
  else
    let hasInquiryText :=
      nonEmptyText (non_IR_inquiry_reason a) || nonEmptyText (non_IR_call_description a) in
    if hasInquiryText && negb isFlaggedIncident then Inquiry
    else Unclassified.

Definition placeholder : string := "not provided".

(** Equal up to the case of letters. *)
Definition equalIgnoringCase (s t : string) : bool :=
  String.eqb (JS.toLowerCase s) (JS.toLowerCase t).

(** An empty value: its text is the empty text. *)
Definition isEmpty (x : JS.scalar) : bool :=
  String.eqb (JS.toString x) "".

(** Section 4.4: "A value that is empty, whitespace-only, or textually
    equal (case-insensitive) to a known placeholder string ("not provided")
    is treated as absent." A value that is not supplied is absent. *)
Definition absent (v : option JS.scalar) : bool :=
  match v with
  | None => true
  | Some x =>
      isEmpty x
      || whitespaceOnly (JS.toString x)
      || equalIgnoringCase (JS.toString x) placeholder
  end.

Definition present (v : option JS.scalar) : bool := negb (absent v).

(** The absence test with two additions to the wording of section 4.4: the
    number zero is treated as absent, and the comparison with the
    placeholder ignores white space around the value. *)
Definition absentAfterTrimming (v : option JS.scalar) : bool :=
  match v with
  | None => true
  | Some x =>
      match x with
      | JS.Num n => n =? 0
      | JS.Str _ => false
      end
      || isEmpty x
      || whitespaceOnly (JS.toString x)
      || equalIgnoringCase (JS.trim (JS.toString x)) placeholder
  end.

Definition presentAfterTrimming (v : option JS.scalar) : bool :=
  negb (absentAfterTrimming v).

(** The descriptors of the requirements that are not met, in the order
    in which the requirements are listed. *)
Definition unmet (requirements : list (bool * string)) : list string :=
  map snd (List.filter (fun r => negb (fst r)) requirements).

(** Section 4.4, Incident: (a) flag, (b) caller name, (c) company name,
    (d) phone number, for a given test of presence. *)
Definition incidentRequirements (present : option JS.scalar -> bool) (a : Analysis)
    : list (bool * string) :=
  [ (bool_decide (is_security_incident a = Some true),
     "confirmed security incident (is_security_incident must be true)");
    (present (ofStr (caller_name a)), "caller first and last name");
    (present (ofStr (company_name a)), "company name");
    (present (caller_phone_number a), "phone number") ].

(** Section 4.4, Inquiry: (a) flag not true, (b) caller name, (c) phone
    number or email address, for a given test of presence. *)
Definition inquiryRequirements (present : option JS.scalar -> bool) (a : Analysis)
    : list (bool * string) :=
  [ (negb (bool_decide (is_security_incident a = Some true)),
     "call must not be a security incident (is_security_incident must be false or not set)");
    (present (ofStr (caller_name a)), "caller name");
    (present (caller_phone_number a) || present (ofStr (caller_email_address a)),
     "contact information (phone number OR email address)") ].

End Policy.


(** ** Vocabulary of the properties *)

(** The four notification channels and their feature flags. *)
Inductive Channel : Type := Ticketing | Email | Chat | Sms.

Definition channelEnabled (flags : FeatureFlags) (c : Channel) : bool :=
  match c with
  | Ticketing => enableJira flags
  | Email => enableEmail flags
  | Chat => enableTeams flags
  | Sms => enableSms flags
  end.

(** The channel a queued task sends through. *)
Definition taskChannel (task : NotificationTask) : Channel :=
  match task with
  | TicketTask => Ticketing
  | IncidentEmailTask => Email
  | ChatTask => Chat
  | SmsTask => Sms
  | InquiryEmailTask => Email
  end.

(** The channel a collaborator call belongs to, if any. The alert mail sent
    when the ticket request fails goes through the email channel. *)
Definition eventChannel (ev : Event) : option Channel :=
  match ev with
  | ReadBody | VerifySignature _ _ _ | ParseJson _ => None
  | TicketRequest _ => Some Ticketing
  | NewEmailClient _ _ | EmailSend _ _ _ => Some Email
  | ChatPost _ => Some Chat
  | SmsCreate _ _ => Some Sms
  end.

(** The calls each task can make. *)
Definition emittedBy (task : NotificationTask) (ev : Event) : bool :=
  match task, ev with
  | TicketTask, TicketRequest _ => true
  | TicketTask, NewEmailClient TicketFailureAlert _ => true
  | TicketTask, EmailSend _ TicketFailureAlert _ => true
  | IncidentEmailTask, NewEmailClient IncidentAlert _ => true
  | IncidentEmailTask, EmailSend _ IncidentAlert _ => true
  | ChatTask, ChatPost _ => true
  | SmsTask, SmsCreate _ _ => true
  | InquiryEmailTask, NewEmailClient InquirySummary _ => true
  | InquiryEmailTask, EmailSend _ InquirySummary _ => true
  | _, _ => false
  end.

(** A task that leaves early because the validation it re-runs fails. *)
Definition skipsItsWork (payload : RetellCallObject) (task : NotificationTask) : bool :=
  match task with
  | TicketTask | IncidentEmailTask => negb (valid (validateIrCallData payload))
  | InquiryEmailTask => negb (valid (validateNonIrCallData payload))
  | ChatTask | SmsTask => false
  end.

(** The first three collaborator calls of a request that passes the gate. *)
Definition gateTrace (request : HttpRequest) (key signature : string) : Trace :=
  [ReadBody; VerifySignature (body request) key signature; ParseJson (body request)].

(** A verified [call_analyzed] event: secret and signature are present, the
    signature verifies against the raw body, the body parses to an envelope
    of kind [call_analyzed] carrying [payload]. *)
Definition VerifiedCall (w : World) (env : gmap string string) (request : HttpRequest)
    (key signature : string) (payload : RetellCallObject) : Prop :=
  whenTruthy (env !! "RETELL_API_KEY") = Some key
  /\ whenTruthy (headers request !! "x-retell-signature") = Some signature
  /\ Retell_verify w (body request) key signature = true
  /\ JSON_parse w (body request)
     = Returns {| event := "call_analyzed"; call := Some payload |}.

(** The original error of a failed ticket request, as the ticket tracker's
    answer determines it: the rejection of [fetch], what reading the answer
    throws, or the [Jira API request failed] error built from a non-2xx
    answer. *)
Definition ticketFailure (f : FetchResult) : option JsError :=
  match f with
  | FetchRejects e => Some e
  | FetchResponse ok st _ text json =>
      if ok then
        match json with
        | Throws e => Some e
        | Returns _ => None
        end
      else
        match text with
        | Throws e => Some e
        | Returns errorText =>
            Some (Error ("Jira API request failed: " +:+ JS.stringOfNumber st
                         +:+ " - " +:+ errorText))
        end
  end.

(** The alert mail about a failed ticket request has been attempted in a
    trace: SendGrid was asked to send it to the failure-notification
    recipients; or, with Azure, the mail client was requested and, if it
    could be built, asked to send it to these recipients. *)
Definition alertAttempted (w : World) (config : ServiceConfig) (tr : Trace) : Prop :=
  let recipients := recipientList (jira_failureNotificationRecipients (jira config)) in
  match emailProvider config with
  | SendGrid => In (EmailSend SendGrid TicketFailureAlert recipients) tr
  | Azure =>
      In (NewEmailClient TicketFailureAlert (azureEmail_connectionString (azureEmail config))) tr
      /\ (forall u, newEmailClient w = Returns u ->
           In (EmailSend Azure TicketFailureAlert (map JS.trim recipients)) tr)
  end.

(** The environment variables a channel needs, by email provider
    ([loadConfiguration], the four [if (enable..)] blocks). *)
Definition channelVariables (p : Provider) (c : Channel) : list string :=
  match c with
  | Email =>
      match p with
      | SendGrid => ["SENDGRID_API_KEY"; "SENDGRID_FROM_EMAIL"; "IRT_EMAIL_ADDRESS"]
      | Azure => ["AZURE_COMMUNICATION_CONNECTION_STRING";
                  "AZURE_COMMUNICATION_SENDER_EMAIL"; "IRT_EMAIL_ADDRESS"]
      end
  | Chat => ["TEAMS_WEBHOOK_URL"]
  | Sms => ["TWILIO_ACCOUNT_SID"; "TWILIO_AUTH_TOKEN"; "TWILIO_FROM_NUMBER";
            "ONCALL_PHONE_NUMBER"]
  | Ticketing => ["JIRA_API_URL"; "JIRA_USER_EMAIL"; "JIRA_API_TOKEN"; "JIRA_PROJECT_KEY"]
  end.

(** The variable that switches a channel on. *)
Definition channelSwitch (c : Channel) : string :=
  match c with
  | Email => "ENABLE_EMAIL_NOTIFICATIONS"
  | Chat => "ENABLE_TEAMS_NOTIFICATIONS"
  | Sms => "ENABLE_SMS_NOTIFICATIONS"
  | Ticketing => "ENABLE_JIRA_NOTIFICATIONS"
  end.

(** The analysis with the company name replaced (or removed). *)
Definition withCompany (c : option string) (a : Analysis) : Analysis :=
  {| caller_name := caller_name a; company_name := c;
     caller_phone_number := caller_phone_number a;
     caller_email_address := caller_email_address a;
     IR_call_description := IR_call_description a;
     non_IR_inquiry_reason := non_IR_inquiry_reason a;
     non_IR_call_description := non_IR_call_description a;
     is_security_incident := is_security_incident a |}.

(** A call object that carries its analysis in the flat [analysis] shape. *)
Definition flatCall (callId : string) (a : Analysis) : RetellCallObject :=
  {| call_id := callId; analysis := Some a; call_analysis := None |}.

(** The counts reported for a list of settled promises. *)
Definition statusOf (results : list PromiseSettledResult) : NotificationStatus :=
  {| total := length results;
     successful := length (List.filter isFulfilled results);
     failed := length (List.filter isRejected results) |}.

(** The answer of the handler once the queued tasks have settled. *)
Definition processedResponse (w : World) (payload : RetellCallObject) (config : ServiceConfig)
    (callType : string) (notificationTasks : list NotificationTask) : HttpResponseInit :=
  {| status := 200;
     jsonBody :=
       ProcessedBody "Webhook processed successfully" (call_id payload) callType
         {| attempted_jira := isIrCall payload && enableJira (featureFlags config);
            attempted_email :=
              (isIrCall payload && enableEmail (featureFlags config)) || isNonIrCall payload;
            attempted_teams := isIrCall payload && enableTeams (featureFlags config);
            attempted_sms := isIrCall payload && enableSms (featureFlags config) |}
         (statusOf (map (fun task => settled (startTask w payload config task))
                        notificationTasks)) |}.

(** The collaborator calls of the queued tasks, task by task. *)
Definition dispatchTrace (w : World) (payload : RetellCallObject) (config : ServiceConfig)
    (notificationTasks : list NotificationTask) : Trace :=
  concat (map (fun task => fst (startTask w payload config task)) notificationTasks).

(** *** Three statements of the specification, as written *)

(** Section 4.4 with its absence test as worded: a value is absent when it
    is not supplied, empty, whitespace-only or equal to the placeholder up to
    the case of letters. Incident validation lists the unmet requirements in
    the order flag, caller name, company name, phone number and succeeds
    exactly when all four are met; Inquiry validation succeeds exactly when
    the flag is not true, the caller name is present and the phone number or
    the email address is present. *)
Definition validation_follows_worded_policy : Prop :=
  forall payload : RetellCallObject,
    let a := analysisOf payload in
    let ir := validateIrCallData payload in
    let nonIr := validateNonIrCallData payload in
    missingFields ir = Policy.unmet (Policy.incidentRequirements Policy.present a)
    /\ (valid ir = true <->
        is_security_incident a = Some true
        /\ Policy.present (ofStr (caller_name a)) = true
        /\ Policy.present (ofStr (company_name a)) = true
        /\ Policy.present (caller_phone_number a) = true)
    /\ missingFields nonIr = Policy.unmet (Policy.inquiryRequirements Policy.present a)
    /\ (valid nonIr = true <->
        is_security_incident a <> Some true
        /\ Policy.present (ofStr (caller_name a)) = true
        /\ (Policy.present (caller_phone_number a) = true
            \/ Policy.present (ofStr (caller_email_address a)) = true))
    /\ (valid ir = true <-> missingFields ir = [])
    /\ (valid nonIr = true <-> missingFields nonIr = []).

(** Sections 4.4 and 4.5 on Unclassified calls: Incident validation is
    applied before dispatch and, when it is unmet, the pipeline answers with
    the skipped outcome carrying the missing fields and calls no channel. *)
Definition unclassified_calls_are_gated : Prop :=
  forall w env request key signature payload config,
    VerifiedCall w env request key signature payload ->
    loadConfiguration env = Returns config ->
    classify payload = Unclassified ->
    valid (validateIrCallData payload) = false ->
    (exists message,
        jsonBody (snd (RetellWebhookProcessor w env request))
        = SkippedBody message (missingFields (validateIrCallData payload)) (call_id payload))
    /\ Forall (fun ev => eventChannel ev = None) (fst (RetellWebhookProcessor w env request)).

(** Section 3, NotificationTask: a task for a channel whose flag is off is
    never put on the task list. *)
Definition disabled_channels_have_no_task : Prop :=
  forall payload config callType notificationTasks task,
    buildNotificationTasks payload config = Queued callType notificationTasks ->
    In task notificationTasks ->
    channelEnabled (featureFlags config) (taskChannel task) = true.

(** ** Sample inputs *)

Module Sample.

(** Scenario A: a complete incident report. *)
Definition janeDoe : Analysis :=
  {| caller_name := Some "Jane Doe"; company_name := Some "Acme";
     caller_phone_number := Some (JS.Str "5551234567");
     caller_email_address := None;
     IR_call_description := Some "Ransomware note on the file server";
     non_IR_inquiry_reason := None; non_IR_call_description := None;
     is_security_incident := Some true |}.

(** Scenario C: an inquiry with an email address only. *)
Definition bob : Analysis :=
  {| caller_name := Some "Bob"; company_name := None;
     caller_phone_number := None;
     caller_email_address := Some "bob@x.com";
     IR_call_description := None;
     non_IR_inquiry_reason := Some "Asked for the office address";
     non_IR_call_description := None;
     is_security_incident := None |}.

Definition incidentCall : RetellCallObject :=
  {| call_id := "call_A"; analysis := None;
     call_analysis := Some {| custom_analysis_data := Some janeDoe |} |}.

Definition inquiryCall : RetellCallObject :=
  {| call_id := "call_C"; analysis := None;
     call_analysis := Some {| custom_analysis_data := Some bob |} |}.

(** A call whose analysis says nothing (legacy shape, no field set). *)
Definition silentCall : RetellCallObject :=
  {| call_id := "call_U"; analysis := Some emptyAnalysis; call_analysis := None |}.

Definition secret : string := "key_0123456789".

(** Only the webhook secret is configured: every channel is off. *)
Definition envAllOff : gmap string string :=
  {[ "RETELL_API_KEY" := secret ]}.

(** Ticketing and email on, with their variables. *)
Definition envTicketAndEmail : gmap string string :=
  list_to_map
    [ ("RETELL_API_KEY", secret);
      ("ENABLE_JIRA_NOTIFICATIONS", "true");
      ("ENABLE_EMAIL_NOTIFICATIONS", "TRUE");
      ("SENDGRID_API_KEY", "SG.x"); ("SENDGRID_FROM_EMAIL", "ir@procircular.com");
      ("IRT_EMAIL_ADDRESS", "irt@procircular.com");
      ("JIRA_API_URL", "https://jira.example"); ("JIRA_USER_EMAIL", "bot@procircular.com");
      ("JIRA_API_TOKEN", "tok"); ("JIRA_PROJECT_KEY", "IRT") ].

(** Every channel on, with all variables (scenario A). *)
Definition envAllOn : gmap string string :=
  list_to_map
    [ ("RETELL_API_KEY", secret);
      ("ENABLE_JIRA_NOTIFICATIONS", "true"); ("ENABLE_EMAIL_NOTIFICATIONS", "true");
      ("ENABLE_TEAMS_NOTIFICATIONS", "true"); ("ENABLE_SMS_NOTIFICATIONS", "true");
      ("SENDGRID_API_KEY", "SG.x"); ("SENDGRID_FROM_EMAIL", "ir@procircular.com");
      ("IRT_EMAIL_ADDRESS", "irt@procircular.com");
      ("JIRA_API_URL", "https://jira.example"); ("JIRA_USER_EMAIL", "bot@procircular.com");
      ("JIRA_API_TOKEN", "tok"); ("JIRA_PROJECT_KEY", "IRT");
      ("TEAMS_WEBHOOK_URL", "https://teams.example/hook");
      ("TWILIO_ACCOUNT_SID", "AC1"); ("TWILIO_AUTH_TOKEN", "tok");
      ("TWILIO_FROM_NUMBER", "+15550001"); ("ONCALL_PHONE_NUMBER", "+15550002") ].

(** SMS on, with its variables. *)
Definition envSms : gmap string string :=
  list_to_map
    [ ("RETELL_API_KEY", secret);
      ("ENABLE_SMS_NOTIFICATIONS", "true");
      ("TWILIO_ACCOUNT_SID", "AC1"); ("TWILIO_AUTH_TOKEN", "tok");
      ("TWILIO_FROM_NUMBER", "+15550001"); ("ONCALL_PHONE_NUMBER", "+15550002") ].

(** Chat on, but its webhook address is not configured. *)
Definition envChatUnconfigured : gmap string string :=
  list_to_map
    [ ("RETELL_API_KEY", secret); ("ENABLE_TEAMS_NOTIFICATIONS", "true") ].

Definition request : HttpRequest :=
  {| headers := {[ "x-retell-signature" := "v=1,d=abc" ]};
     body := "{'event':'call_analyzed','call':{}}" |}.

Definition requestWithoutSignature : HttpRequest :=
  {| headers := ∅; body := body request |}.

(** A world in which the signature [goodSignature] verifies, the body
    parses to a [call_analyzed] envelope around [payload], the ticket
    tracker answers [ticket] and every other collaborator succeeds, except
    that mails are answered by [mail]. *)
Definition world (goodSignature : string) (payload : RetellCallObject)
    (ticket : FetchResult) (mail : EmailKind -> SendResult) : World :=
  {| Retell_verify := fun _ _ signature => String.eqb signature goodSignature;
     JSON_parse := fun _ => Returns {| event := "call_analyzed"; call := Some payload |};
     jiraFetch := ticket;
     teamsFetch := FetchResponse true 200 "OK" (Returns "1") (Returns tt);
     newEmailClient := Returns tt;
     mailSend := mail;
     twilioClient := Returns tt;
     smsCreate := Returns tt |}.

Definition ticketCreated : FetchResult :=
  FetchResponse true 201 "Created" (Returns "") (Returns tt).

Definition ticketRefused : FetchResult :=
  FetchResponse false 400 "Bad Request" (Returns "project is required") (Returns tt).

Definition mailDelivered : EmailKind -> SendResult := fun _ => SendStatus "Succeeded".

(** The alert mail is refused, the other mails go through. *)
Definition alertRefused : EmailKind -> SendResult :=
  fun k => match k with
           | TicketFailureAlert => SendThrows (Error "Unauthorized")
           | _ => SendStatus "Succeeded"
           end.

Definition signature : string := "v=1,d=abc".

(** The incident of scenario A; the ticket tracker refuses the ticket and
    the alert mail about it is refused as well. *)
Definition worldTicketRefused : World :=
  world signature incidentCall ticketRefused alertRefused.

(** The inquiry of scenario C. *)
Definition worldInquiry : World :=
  world signature inquiryCall ticketCreated mailDelivered.

(** Scenario B: the incident of scenario A without a phone number. *)
Definition janeDoeNoPhone : Analysis :=
  {| caller_name := Some "Jane Doe"; company_name := Some "Acme";
     caller_phone_number := None;
     caller_email_address := None;
     IR_call_description := Some "Ransomware note on the file server";
     non_IR_inquiry_reason := None; non_IR_call_description := None;
     is_security_incident := Some true |}.

(** Scenario A with blanks around a placeholder as the caller's name. *)
Definition paddedPlaceholder : Analysis :=
  {| caller_name := Some " not provided "; company_name := Some "Acme";
     caller_phone_number := Some (JS.Str "5551234567");
     caller_email_address := None;
     IR_call_description := Some "Ransomware note on the file server";
     non_IR_inquiry_reason := None; non_IR_call_description := None;
     is_security_incident := Some true |}.

Definition paddedPlaceholderCall : RetellCallObject :=
  {| call_id := "call_P"; analysis := Some paddedPlaceholder; call_analysis := None |}.

(** Scenario A with the number zero as phone number. *)
Definition zeroPhone : Analysis :=
  {| caller_name := Some "Jane Doe"; company_name := Some "Acme";
     caller_phone_number := Some (JS.Num 0);
     caller_email_address := None;
     IR_call_description := Some "Ransomware note on the file server";
     non_IR_inquiry_reason := None; non_IR_call_description := None;
     is_security_incident := Some true |}.

Definition zeroPhoneCall : RetellCallObject :=
  {| call_id := "call_Z"; analysis := Some zeroPhone; call_analysis := None |}.

Definition incidentCallNoPhone : RetellCallObject :=
  {| call_id := "call_B"; analysis := Some janeDoeNoPhone; call_analysis := None |}.

(** Scenario D: the body parses to a [call_started] envelope. *)
Definition worldStarted : World :=
  {| Retell_verify := fun _ _ s => String.eqb s signature;
     JSON_parse := fun _ => Returns {| event := "call_started"; call := None |};
     jiraFetch := ticketCreated;
     teamsFetch := FetchResponse true 200 "OK" (Returns "1") (Returns tt);
     newEmailClient := Returns tt;
     mailSend := mailDelivered;
     twilioClient := Returns tt;
     smsCreate := Returns tt |}.

(** A call without any analysis. *)
Definition worldSilent : World :=
  world signature silentCall ticketCreated mailDelivered.

End Sample.

(** ** Further helpers of the source *)

(** [getString(value, defaultValue)]: [null], [undefined] and the empty
    string give the default, anything else its [String(value)]. *)
Definition getString (value : option JS.scalar) (defaultValue : string) : string :=
  match value with
  | None => defaultValue
  | Some x =>
      if match x with
         | JS.Str s => String.eqb s ""
         | JS.Num _ => false
         end
      then defaultValue
      else JS.toString x
  end.

(** The default of the second parameter of [getString]. *)
Definition getStringDefault : string := "Not provided".

(** [s.split(sep)] for a separator of one character: the pieces between
    the separators; never the empty list. *)
Fixpoint splitOn (sep : ascii) (s : string) : list string :=
  match s with
  | EmptyString => [EmptyString]
  | String c r =>
      if Ascii.eqb c sep then EmptyString :: splitOn sep r
      else match splitOn sep r with
           | p :: ps => String c p :: ps
           | [] => [String c EmptyString]
           end
  end.

(** The line feed character. *)
Definition newline : ascii := ascii_of_N 10.

(** A document in Atlassian Document Format as the program builds it:
    [{ type: 'doc', version, content }] with paragraphs
    [{ type: 'paragraph', content }] of text nodes [{ type: 'text', text }]. *)
Record AdfText : Type := { text_text : string }.

Record AdfParagraph : Type := { paragraph_content : list AdfText }.

Record AdfDoc : Type := {
  doc_version : Z;
  doc_content : list AdfParagraph
}.

Definition convertTextToAtlassianDocumentFormat (text : string) : AdfDoc :=
  let lines :=
    List.filter (fun line => negb (String.eqb (JS.trim line) "")) (splitOn newline text) in
  if (length lines =? 0)%nat then
    {| doc_version := 1;
       doc_content :=
         [ {| paragraph_content := [ {| text_text := "No description provided" |} ] |} ] |}
  else
    let content :=
      map (fun line => {| paragraph_content := [ {| text_text := JS.trim line |} ] |}) lines in
    {| doc_version := 1; doc_content := content |}.

(** The entries of [jiraPayload.fields] that [createJiraTicketViaApi] builds
    from the caller's contact values and the incident description.
    [summaryCompany] is the part of [summary] before [" - Incident <date>"]. *)
Record JiraFields : Type := {
  summaryCompany : string;
  customfield_10106 : string;   (* Company *)
  customfield_10109 : string;   (* FirstLastName *)
  customfield_10110 : string;   (* Email Address *)
  customfield_10111 : string;   (* Phone Number *)
  fields_description : AdfDoc
}.

Definition jiraFields (payload : RetellCallObject) : JiraFields :=
  let analysis := analysisOf payload in
  let briefDescription :=
    getString (ofStr (IR_call_description analysis)) "No description provided" in
  {| summaryCompany := getString (ofStr (company_name analysis)) "Unknown Company";
     customfield_10106 := getString (ofStr (company_name analysis)) getStringDefault;
     customfield_10109 := getString (ofStr (caller_name analysis)) getStringDefault;
     customfield_10110 := getString (ofStr (caller_email_address analysis)) getStringDefault;
     customfield_10111 := getString (caller_phone_number analysis) getStringDefault;
     fields_description := convertTextToAtlassianDocumentFormat briefDescription |}.

(** ** Vocabulary of the further properties *)

(** A character occurs in a string. *)
Fixpoint hasChar (c : ascii) (s : string) : bool :=
  match s with
  | EmptyString => false
  | String d r => Ascii.eqb d c || hasChar c r
  end.


(** The texts of a document, paragraph by paragraph. *)
Definition docTexts (d : AdfDoc) : list string :=
  concat (map (fun p => map text_text (paragraph_content p)) (doc_content d)).

(** The validation a call is subject to before dispatch: the Inquiry policy
    for an Inquiry call, the Incident policy otherwise. *)
Definition validationFor (payload : RetellCallObject) : ValidationResult :=
  match classify payload with
  | Inquiry => validateNonIrCallData payload
  | Incident | Unclassified => validateIrCallData payload
  end.

(** What [notifications_attempted] says about a channel. *)
Definition attemptedOn (a : NotificationsAttempted) (c : Channel) : bool :=
  match c with
  | Ticketing => attempted_jira a
  | Email => attempted_email a
  | Chat => attempted_teams a
  | Sms => attempted_sms a
  end.

(** The call by which a task delivers its notification. *)
Definition deliveryOf (task : NotificationTask) (ev : Event) : bool :=
  match task, ev with
  | TicketTask, TicketRequest _ => true
  | IncidentEmailTask, EmailSend _ IncidentAlert _ => true
  | ChatTask, ChatPost _ => true
  | SmsTask, SmsCreate _ _ => true
  | InquiryEmailTask, EmailSend _ InquirySummary _ => true
  | _, _ => false
  end.

(** The tasks that read [payload.analysis] directly, without the fallback
    to [call_analysis.custom_analysis_data]. *)
Definition readsFlatAnalysis (task : NotificationTask) : bool :=
  match task with
  | ChatTask | SmsTask => true
  | TicketTask | IncidentEmailTask | InquiryEmailTask => false
  end.

(** A provider is asked to send the alert about a failed ticket request. *)
Definition isAlertSend (ev : Event) : bool :=
  match ev with
  | EmailSend _ TicketFailureAlert _ => true
  | _ => false
  end.

(** Every collaborator of the channels answers well: the ticket tracker and
    the chat webhook answer 2xx with a readable body, the mail client can be
    built, every mail is reported [Succeeded], the SMS client can be built
    and accepts the message. *)
Definition healthy (w : World) : Prop :=
  (exists st stText text, jiraFetch w = FetchResponse true st stText text (Returns tt))
  /\ (exists st stText text json, teamsFetch w = FetchResponse true st stText text json)
  /\ newEmailClient w = Returns tt
  /\ (forall k, mailSend w k = SendStatus Succeeded)
  /\ twilioClient w = Returns tt
  /\ smsCreate w = Returns tt.

(** The configuration values the tasks of a channel work with. *)
Definition credentials (config : ServiceConfig) (c : Channel) : list string :=
  match c with
  | Email =>
      match emailProvider config with
      | SendGrid => [sendgrid_apiKey (sendgrid config); sendgrid_fromEmail (sendgrid config);
                     sendgrid_toEmail (sendgrid config)]
      | Azure => [azureEmail_connectionString (azureEmail config);
                  azureEmail_senderEmail (azureEmail config);
                  azureEmail_recipientEmail (azureEmail config)]
      end
  | Chat => [teams_webhookUrl config]
  | Sms => [twilio_accountSid (twilio config); twilio_authToken (twilio config);
            twilio_fromNumber (twilio config); twilio_toNumber (twilio config)]
  | Ticketing => [jira_apiUrl (jira config); jira_userEmail (jira config);
                  jira_apiToken (jira config); jira_projectKey (jira config)]
  end.

(** The analysis with the four contact values trimmed. *)
Definition trimmedContact (a : Analysis) : Analysis :=
  {| caller_name := option_map JS.trim (caller_name a);
     company_name := option_map JS.trim (company_name a);
     caller_phone_number :=
       option_map (fun v => match v with
                            | JS.Str s => JS.Str (JS.trim s)
                            | JS.Num n => JS.Num n
                            end) (caller_phone_number a);
     caller_email_address := option_map JS.trim (caller_email_address a);
     IR_call_description := IR_call_description a;
     non_IR_inquiry_reason := non_IR_inquiry_reason a;
     non_IR_call_description := non_IR_call_description a;
     is_security_incident := is_security_incident a |}.

(** ** Further sample inputs *)

Module Cases.

(** An incident reported by its description only: the flag is not set. *)
Definition describedOnly : Analysis :=
  {| caller_name := Some "Jane Doe"; company_name := Some "Acme";
     caller_phone_number := Some (JS.Num 5551234567);
     caller_email_address := None;
     IR_call_description := Some "Suspicious logins since Monday";
     non_IR_inquiry_reason := None; non_IR_call_description := None;
     is_security_incident := None |}.

Definition describedOnlyCall : RetellCallObject :=
  {| call_id := "call_G"; analysis := Some describedOnly; call_analysis := None |}.

(** A flagged incident with a numeric phone number and a blank description. *)
Definition numericPhoneCall : RetellCallObject :=
  {| call_id := "call_N";
     analysis :=
       Some {| caller_name := Some "Jane Doe"; company_name := Some "Acme";
               caller_phone_number := Some (JS.Num 5551234567);
               caller_email_address := None;
               IR_call_description := Some "   ";
               non_IR_inquiry_reason := None; non_IR_call_description := None;
               is_security_incident := Some true |};
     call_analysis := None |}.

(** Scenario A's incident in the flat shape. *)
Definition flatIncidentCall : RetellCallObject :=
  {| call_id := "call_H"; analysis := Some Sample.janeDoe; call_analysis := None |}.

Definition worldDescribedOnly : World :=
  Sample.world Sample.signature describedOnlyCall Sample.ticketCreated Sample.mailDelivered.


(** Scenario A, nested shape, every collaborator well. *)
Definition worldNested : World :=
  Sample.world Sample.signature Sample.incidentCall Sample.ticketCreated Sample.mailDelivered.

(** Scenario A, flat shape, every collaborator well. *)
Definition worldFlat : World :=
  Sample.world Sample.signature flatIncidentCall Sample.ticketCreated Sample.mailDelivered.

(** The ticket tracker refuses the ticket and the Azure mail client cannot
    be built. *)
Definition worldRefusedNoClient : World :=
  {| Retell_verify := fun _ _ s => String.eqb s Sample.signature;
     JSON_parse := fun _ => Returns {| event := "call_analyzed"; call := Some flatIncidentCall |};
     jiraFetch := Sample.ticketRefused;
     teamsFetch := FetchResponse true 200 "OK" (Returns "1") (Returns tt);
     newEmailClient := Throws (Error "Invalid connection string");
     mailSend := Sample.mailDelivered;
     twilioClient := Returns tt;
     smsCreate := Returns tt |}.

(** The body does not parse. *)
Definition worldBadJson : World :=
  {| Retell_verify := fun _ _ s => String.eqb s Sample.signature;
     JSON_parse := fun _ => Throws (Error "Unexpected token } in JSON at position 1");
     jiraFetch := Sample.ticketCreated;
     teamsFetch := FetchResponse true 200 "OK" (Returns "1") (Returns tt);
     newEmailClient := Returns tt;
     mailSend := Sample.mailDelivered;
     twilioClient := Returns tt;
     smsCreate := Returns tt |}.

(** Ticketing and email on, mail through Azure Communication Services. *)
Definition envAzure : gmap string string :=
  list_to_map
    [ ("RETELL_API_KEY", Sample.secret);
      ("EMAIL_PROVIDER", "Azure");
      ("ENABLE_JIRA_NOTIFICATIONS", "true");
      ("ENABLE_EMAIL_NOTIFICATIONS", "true");
      ("AZURE_COMMUNICATION_CONNECTION_STRING", "endpoint=https://acs.example/;accesskey=k");
      ("AZURE_COMMUNICATION_SENDER_EMAIL", "DoNotReply@procircular.com");
      ("IRT_EMAIL_ADDRESS", "irt@procircular.com, soc@procircular.com");
      ("JIRA_API_URL", "https://jira.example"); ("JIRA_USER_EMAIL", "bot@procircular.com");
      ("JIRA_API_TOKEN", "tok"); ("JIRA_PROJECT_KEY", "IRT") ].

(** A description of three lines, one of them blank. *)
Definition description : string :=
  "  Ransomware note found. " +:+ String newline ("   " +:+ String newline "Backups encrypted").

End Cases.
(** * Properties *)

(** ** Strings *)

Lemma trimStart_empty (s : string) :
  JS.trimStart s = "" <-> Policy.whitespaceOnly s = true.
Proof.
  induction s as [|c r IH]; simpl.
  - split; reflexivity.
  - destruct (JS.isWhiteSpace c); simpl.
    + exact IH.
    + split; discriminate.
Qed.

Lemma trimStart_head (s : string) (c : ascii) (r : string) :
  JS.trimStart s = String c r -> JS.isWhiteSpace c = false.
Proof.
  induction s as [|d q IH]; simpl.
  - discriminate.
  - destruct (JS.isWhiteSpace d) eqn:Hd.
    + exact IH.
    + intros [= <- _]. exact Hd.
Qed.

Lemma trimEnd_empty (s : string) :
  JS.trimEnd s = "" <-> Policy.whitespaceOnly s = true.
Proof.
  induction s as [|c r IH]; simpl.
  - split; reflexivity.
  - destruct (JS.trimEnd r) eqn:Hr.
    + destruct (JS.isWhiteSpace c); simpl.
      * split; intros _; [apply IH|]; reflexivity.
      * split; discriminate.
    + split; [discriminate|].
      intros H. apply andb_true_iff in H as [_ H].
      apply IH in H. discriminate.
Qed.

Lemma trim_empty (s : string) :
  JS.trim s = "" <-> Policy.whitespaceOnly s = true.
Proof.
  unfold JS.trim. rewrite trimEnd_empty. split.
  - intros H. apply trimStart_empty.
    destruct (JS.trimStart s) as [|c r] eqn:Hs; [reflexivity|].
    apply trimStart_head in Hs. simpl in H. rewrite Hs in H. discriminate.
  - intros H. apply trimStart_empty in H. rewrite H. reflexivity.
Qed.

Lemma trim_eqb_empty (s : string) :
  String.eqb (JS.trim s) "" = Policy.whitespaceOnly s.
Proof.
  destruct (Policy.whitespaceOnly s) eqn:H.
  - apply trim_empty in H. rewrite H. reflexivity.
  - apply String.eqb_neq. intros E. apply trim_empty in E. congruence.
Qed.

(** The emptiness test of the classifier, [!!(x && x.length > 0)] on the
    trimmed field, holds exactly for a field with some text in it. *)
Lemma nonEmptyTrimmed_spec (field : option string) :
  nonEmptyTrimmed field = Policy.nonEmptyText field.
Proof.
  destruct field as [s|]; [|reflexivity].
  unfold nonEmptyTrimmed, Policy.nonEmptyText, option_map.
  rewrite trim_eqb_empty.
  destruct (Policy.whitespaceOnly s) eqn:H; [reflexivity|].
  destruct (JS.trim s) eqn:Ht.
  - apply trim_empty in Ht. congruence.
  - reflexivity.
Qed.

Lemma flagIsTrue_spec (a : Analysis) :
  flagIsTrue a = bool_decide (is_security_incident a = Some true).
Proof.
  unfold flagIsTrue. destruct (is_security_incident a) as [[|]|]; reflexivity.
Qed.

(** ** C1: classification *)

(** C1. For every analysis-field mapping the branch taken by the handler is
    the classification of the specification's algorithm: Incident when the
    incident description is non-empty after trimming or the flag is exactly
    true, otherwise Inquiry when an inquiry reason or description is
    non-empty and the flag is not true, otherwise Unclassified. In
    particular a true flag always gives Incident, and incident text together
    with inquiry text and no true flag (absent or false) gives Incident. *)
Theorem classify_follows_spec (payload : RetellCallObject) :
  classify payload = Policy.classify (analysisOf payload)
  /\ (is_security_incident (analysisOf payload) = Some true ->
      classify payload = Incident)
  /\ (Policy.nonEmptyText (IR_call_description (analysisOf payload)) = true ->
      Policy.nonEmptyText (non_IR_inquiry_reason (analysisOf payload)) = true
      \/ Policy.nonEmptyText (non_IR_call_description (analysisOf payload)) = true ->
      is_security_incident (analysisOf payload) <> Some true ->
      classify payload = Incident).
Proof.
  assert (E : classify payload = Policy.classify (analysisOf payload)).
  { unfold classify, isIrCall, isNonIrCall, Policy.classify.
    rewrite !nonEmptyTrimmed_spec, flagIsTrue_spec.
    destruct (Policy.nonEmptyText (IR_call_description _)),
      (bool_decide (is_security_incident _ = Some true)),
      (Policy.nonEmptyText (non_IR_inquiry_reason _)),
      (Policy.nonEmptyText (non_IR_call_description _)); reflexivity. }
  split; [exact E|]. rewrite E. unfold Policy.classify. split.
  - intros ->. rewrite bool_decide_eq_true_2 by reflexivity.
    rewrite orb_true_r. reflexivity.
  - intros -> _ _. reflexivity.
Qed.

(** ** C3: validation *)

(** The absence test of the validators: the wording of section 4.4 with the
    number zero absent and the placeholder compared after trimming. *)
Lemma isMissing_spec (v : option JS.scalar) : isMissing v = Policy.absentAfterTrimming v.
Proof.
  destruct v as [x|]; [|reflexivity].
  unfold isMissing, Policy.absentAfterTrimming, Policy.equalIgnoringCase, Policy.isEmpty.
  rewrite trim_eqb_empty.
  change (JS.toLowerCase Policy.placeholder) with "not provided".
  destruct x as [s|n]; cbn [JS.truthy JS.toString]; rewrite negb_involutive.
  - cbn [orb]. destruct (String.eqb_spec s "") as [->|_]; reflexivity.
  - destruct (String.eqb_spec (JS.stringOfNumber n) "") as [E|_].
    + rewrite E. cbn. rewrite !orb_true_r. reflexivity.
    + rewrite orb_false_r. reflexivity.
Qed.

Lemma hasValue_spec (v : option JS.scalar) : hasValue v = Policy.presentAfterTrimming v.
Proof.
  unfold Policy.presentAfterTrimming. rewrite <- isMissing_spec.
  destruct v as [x|]; [|reflexivity].
  unfold hasValue, isMissing. rewrite !negb_orb, negb_involutive. reflexivity.
Qed.

(** C3, as amended. For every field mapping: Incident validation lists, in
    the order flag, caller name, company name, phone number, the requirements
    that are not met, and succeeds exactly when the flag is exactly true and
    the three values are present; Inquiry validation succeeds exactly when
    the flag is not true, the caller name is present and the phone number or
    the email address is present. A value is present when it is supplied, is
    not the number zero, is not empty or white space only, and is not, once
    the white space around it is removed, the placeholder "not provided" in
    any letter case. In both validations [valid] is true exactly when
    [missingFields] is empty, and replacing or removing the company name
    leaves the result of Inquiry validation unchanged. *)
Theorem validation_follows_policy (payload : RetellCallObject) :
  let a := analysisOf payload in
  let ir := validateIrCallData payload in
  let nonIr := validateNonIrCallData payload in
  missingFields ir
  = Policy.unmet (Policy.incidentRequirements Policy.presentAfterTrimming a)
  /\ (valid ir = true <->
      is_security_incident a = Some true
      /\ Policy.presentAfterTrimming (ofStr (caller_name a)) = true
      /\ Policy.presentAfterTrimming (ofStr (company_name a)) = true
      /\ Policy.presentAfterTrimming (caller_phone_number a) = true)
  /\ missingFields nonIr
     = Policy.unmet (Policy.inquiryRequirements Policy.presentAfterTrimming a)
  /\ (valid nonIr = true <->
      is_security_incident a <> Some true
      /\ Policy.presentAfterTrimming (ofStr (caller_name a)) = true
      /\ (Policy.presentAfterTrimming (caller_phone_number a) = true
          \/ Policy.presentAfterTrimming (ofStr (caller_email_address a)) = true))
  /\ (valid ir = true <-> missingFields ir = [])
  /\ (valid nonIr = true <-> missingFields nonIr = [])
  /\ (forall company,
        validateNonIrCallData (flatCall (call_id payload) (withCompany company a)) = nonIr).
Proof.
  cbv zeta.
  assert (C : forall company,
             validateNonIrCallData (flatCall (call_id payload)
                                      (withCompany company (analysisOf payload)))
             = validateNonIrCallData payload) by reflexivity.
  revert C.
  unfold validateIrCallData, validateNonIrCallData, pushIf,
    Policy.unmet, Policy.incidentRequirements, Policy.inquiryRequirements.
  rewrite !hasValue_spec, !isMissing_spec, flagIsTrue_spec.
  unfold Policy.presentAfterTrimming.
  destruct (bool_decide_reflect (is_security_incident (analysisOf payload) = Some true)) as [F|F],
    (Policy.absentAfterTrimming (ofStr (caller_name (analysisOf payload)))),
    (Policy.absentAfterTrimming (ofStr (company_name (analysisOf payload)))),
    (Policy.absentAfterTrimming (caller_phone_number (analysisOf payload))),
    (Policy.absentAfterTrimming (ofStr (caller_email_address (analysisOf payload))));
    simpl; intros C; repeat split; try discriminate; try tauto;
    try (intros; intuition discriminate); try exact C.
Qed.

(** C3, as stated, fails: with the absence test as worded, a caller name
    that is the placeholder with a blank on either side is present, so that
    Incident validation would succeed; the validators trim before they
    compare and report the caller name as missing. *)
Lemma validation_follows_worded_policy_fails : ~ validation_follows_worded_policy.
Proof.
  intros H.
  destruct (H Sample.paddedPlaceholderCall) as (_ & [_ V] & _).
  assert (E : valid (validateIrCallData Sample.paddedPlaceholderCall) = true).
  { apply V. repeat split; vm_compute; reflexivity. }
  vm_compute in E. discriminate E.
Qed.

(** The two values on which the validators and the wording of section 4.4
    differ: the padded placeholder, and the number zero as phone number. *)
Example worded_policy_differences :
  Policy.present (Some (JS.Str " not provided ")) = true
  /\ isMissing (Some (JS.Str " not provided ")) = true
  /\ missingFields (validateIrCallData Sample.paddedPlaceholderCall)
     = ["caller first and last name"]
  /\ Policy.present (Some (JS.Num 0)) = true
  /\ isMissing (Some (JS.Num 0)) = true
  /\ missingFields (validateIrCallData Sample.zeroPhoneCall) = ["phone number"].
Proof. repeat split; vm_compute; reflexivity. Qed.

(** ** The handler, case by case *)

Lemma handler_no_secret w env request :
  whenTruthy (env !! "RETELL_API_KEY") = None ->
  RetellWebhookProcessor w env request
  = ([], {| status := 500; jsonBody := ErrorBody "Server configuration error." |}).
Proof.
  intros H. unfold RetellWebhookProcessor, processWebhook. rewrite H. reflexivity.
Qed.

Lemma handler_no_signature w env request key :
  whenTruthy (env !! "RETELL_API_KEY") = Some key ->
  whenTruthy (headers request !! "x-retell-signature") = None ->
  RetellWebhookProcessor w env request
  = ([], {| status := 400; jsonBody := ErrorBody "Missing x-retell-signature header." |}).
Proof.
  intros H1 H2. unfold RetellWebhookProcessor, processWebhook. rewrite H1, H2. reflexivity.
Qed.

Lemma handler_bad_signature w env request key signature :
  whenTruthy (env !! "RETELL_API_KEY") = Some key ->
  whenTruthy (headers request !! "x-retell-signature") = Some signature ->
  Retell_verify w (body request) key signature = false ->
  RetellWebhookProcessor w env request
  = ([ReadBody; VerifySignature (body request) key signature],
     {| status := 401; jsonBody := ErrorBody "Invalid signature." |}).
Proof.
  intros H1 H2 H3. unfold RetellWebhookProcessor, processWebhook.
  rewrite H1, H2. cbn. rewrite H3. reflexivity.
Qed.

Lemma handler_parsed w env request key signature :
  whenTruthy (env !! "RETELL_API_KEY") = Some key ->
  whenTruthy (headers request !! "x-retell-signature") = Some signature ->
  Retell_verify w (body request) key signature = true ->
  exists rest response,
    RetellWebhookProcessor w env request = ((gateTrace request key signature ++ rest)%list, response)
    /\ match JSON_parse w (body request) with
       | Throws e =>
           rest = [] /\ response = {| status := 500; jsonBody := ErrorBody (unexpectedMessage e) |}
       | Returns webhookPayload =>
           if negb (String.eqb (event webhookPayload) "call_analyzed") then
             rest = []
             /\ response = {| status := 200;
                              jsonBody := MessageBody ("Event type " +:+ event webhookPayload
                                                       +:+ " acknowledged but not processed") |}
           else
             match call webhookPayload with
             | None => rest = [] /\ status response = 500 /\ success (jsonBody response) = false
             | Some payload =>
                 match loadConfiguration env with
                 | Throws e =>
                     rest = []
                     /\ response = {| status := 500; jsonBody := ErrorBody (unexpectedMessage e) |}
                 | Returns config =>
                     match buildNotificationTasks payload config with
                     | EarlyReturn r => rest = [] /\ response = r
                     | Queued callType notificationTasks =>
                         rest = dispatchTrace w payload config notificationTasks
                         /\ response = processedResponse w payload config callType notificationTasks
                     end
                 end
             end
       end.
Proof.
  intros H1 H2 H3. unfold RetellWebhookProcessor, processWebhook.
  rewrite H1, H2. cbn. rewrite H3. cbn.
  destruct (JSON_parse w (body request)) as [wp|e]; cbn.
  2:{ exists [], {| status := 500; jsonBody := ErrorBody (unexpectedMessage e) |}. auto. }
  destruct (String.eqb (event wp) "call_analyzed"); cbn.
  2:{ eexists [], _. split; [reflexivity|]. auto. }
  destruct (call wp) as [payload|]; cbn.
  2:{ eexists [], _. split; [reflexivity|]. auto. }
  destruct (loadConfiguration env) as [config|e]; cbn.
  2:{ eexists [], _. split; [reflexivity|]. auto. }
  destruct (buildNotificationTasks payload config) as [r|callType tasks]; cbn.
  { eexists [], _. split; [reflexivity|]. auto. }
  destruct tasks as [|t ts]; cbn.
  { eexists [], _. split; [reflexivity|]. auto. }
  eexists _, _. split; [reflexivity|].
  unfold dispatchTrace, processedResponse, statusOf. cbn.
  rewrite !length_map, !app_nil_r, !map_map. auto.
Qed.

Lemma handler_dispatch w env request key signature payload config :
  VerifiedCall w env request key signature payload ->
  loadConfiguration env = Returns config ->
  RetellWebhookProcessor w env request
  = match buildNotificationTasks payload config with
    | EarlyReturn r => (gateTrace request key signature, r)
    | Queued callType notificationTasks =>
        ((gateTrace request key signature
          ++ dispatchTrace w payload config notificationTasks)%list,
         processedResponse w payload config callType notificationTasks)
    end.
Proof.
  intros (H1 & H2 & H3 & H4) H5.
  destruct (handler_parsed w env request key signature H1 H2 H3) as (rest & response & E & H).
  rewrite E. rewrite H4 in H. cbn in H. rewrite H5 in H.
  destruct (buildNotificationTasks payload config); destruct H as [-> ->];
    rewrite ?app_nil_r; reflexivity.
Qed.

(** ** The channel tasks *)

Ltac break_inner :=
  match goal with
  | |- context [match ?x with _ => _ end] =>
      lazymatch x with
      | context [match _ with _ => _ end] => fail
      | negb ?b => destruct b
      | _ => destruct x
      end
  end.

Ltac run_task :=
  unfold startTask, createJiraTicketViaApi, jiraTryBlock, sendJiraFailureNotificationEmail,
    sendEmail, sendEmailViaAzure, sendEmailViaSendGrid, sendTeamsMessage, sendSms,
    sendNonIrEmail, new_EmailClient, sgMail_send, emailClient_send, liftOutcome,
    tryCatch, bind, emit, ret, throw;
  repeat (break_inner; cbn [fst snd app negb andb orb]).

(** Each task only calls its own collaborators. *)
Lemma task_events w payload config task :
  Forall (fun ev => emittedBy task ev = true) (fst (startTask w payload config task)).
Proof.
  destruct task; run_task; cbn; repeat constructor.
Qed.

Lemma emittedBy_channel task ev :
  emittedBy task ev = true ->
  eventChannel ev = Some (taskChannel task)
  \/ (task = TicketTask /\ eventChannel ev = Some Email).
Proof.
  destruct task, ev; cbn; try discriminate; auto;
    destruct k; cbn; (discriminate || auto).
Qed.

Lemma dispatch_events w payload config notificationTasks ev :
  In ev (dispatchTrace w payload config notificationTasks) ->
  exists task, In task notificationTasks /\ emittedBy task ev = true.
Proof.
  unfold dispatchTrace. intros H. apply in_concat in H as (tr & Htr & Hev).
  apply in_map_iff in Htr as (task & <- & Htask).
  exists task. split; [exact Htask|].
  pose proof (task_events w payload config task) as F.
  rewrite List.Forall_forall in F. exact (F ev Hev).
Qed.

(** A task whose own validation fails leaves at once: it calls nobody and
    its promise is fulfilled. *)
Lemma task_skips w payload config task :
  skipsItsWork payload task = true ->
  startTask w payload config task = ([], Returns tt).
Proof.
  destruct task; cbn [skipsItsWork startTask]; intros H; try discriminate;
    unfold createJiraTicketViaApi, sendEmail, sendEmailViaAzure, sendEmailViaSendGrid,
      sendNonIrEmail;
    rewrite ?H; try reflexivity.
  destruct (emailProvider config); reflexivity.
Qed.

(** ** C7: the signature gate *)

(** Whatever follows the gate in the trace is a channel call. *)
Lemma handler_after_gate w env request key signature :
  whenTruthy (env !! "RETELL_API_KEY") = Some key ->
  whenTruthy (headers request !! "x-retell-signature") = Some signature ->
  Retell_verify w (body request) key signature = true ->
  exists rest,
    fst (RetellWebhookProcessor w env request) = (gateTrace request key signature ++ rest)%list
    /\ forall ev, In ev rest -> eventChannel ev <> None.
Proof.
  intros H1 H2 H3.
  destruct (handler_parsed w env request key signature H1 H2 H3) as (rest & response & E & H).
  exists rest. rewrite E. split; [reflexivity|].
  assert (N : rest = [] \/ exists payload config tasks, rest = dispatchTrace w payload config tasks).
  { destruct (JSON_parse w (body request)) as [wp|e]; [|left; tauto].
    destruct (negb (String.eqb (event wp) "call_analyzed")); [left; tauto|].
    destruct (call wp) as [payload|]; [|left; tauto].
    destruct (loadConfiguration env) as [config|e]; [|left; tauto].
    destruct (buildNotificationTasks payload config) as [r|ct tasks]; [left; tauto|].
    right. exists payload, config, tasks. tauto. }
  destruct N as [->|(payload & config & tasks & ->)]; intros ev Hev; [destruct Hev|].
  apply dispatch_events in Hev as (task & _ & Hev).
  apply emittedBy_channel in Hev as [Hev|[_ Hev]]; congruence.
Qed.

(** C7. For every inbound request: without a secret the handler answers 500
    "server configuration error" and has read nothing; with a secret but
    without a signature header it answers 400, a different error, and has
    read nothing (and without a signature header it never accepts, secret or
    not); with a signature that does not verify against the raw body
    text it answers 401 and has not parsed the body; and whenever the body is
    parsed, this is the third call of the run, after the raw body was read and
    its signature verified successfully, and the text parsed is that raw
    body. *)
Theorem signature_gate w env request :
  let run := RetellWebhookProcessor w env request in
  (whenTruthy (env !! "RETELL_API_KEY") = None ->
   run = ([], {| status := 500; jsonBody := ErrorBody "Server configuration error." |}))
  /\ (forall key,
       whenTruthy (env !! "RETELL_API_KEY") = Some key ->
       whenTruthy (headers request !! "x-retell-signature") = None ->
       run = ([], {| status := 400;
                     jsonBody := ErrorBody "Missing x-retell-signature header." |}))
  /\ (whenTruthy (headers request !! "x-retell-signature") = None ->
      fst run = [] /\ success (jsonBody (snd run)) = false
      /\ (status (snd run) = 400 \/ status (snd run) = 500))
  /\ (forall key signature,
       whenTruthy (env !! "RETELL_API_KEY") = Some key ->
       whenTruthy (headers request !! "x-retell-signature") = Some signature ->
       Retell_verify w (body request) key signature = false ->
       run = ([ReadBody; VerifySignature (body request) key signature],
              {| status := 401; jsonBody := ErrorBody "Invalid signature." |}))
  /\ (forall text,
       In (ParseJson text) (fst run) ->
       text = body request
       /\ exists key signature rest,
           fst run = (ReadBody :: VerifySignature (body request) key signature
                      :: ParseJson (body request) :: rest)
           /\ Retell_verify w (body request) key signature = true
           /\ forall text', ~ In (ParseJson text') rest).
Proof.
  cbv zeta. split; [apply handler_no_secret|].
  split; [apply handler_no_signature|].
  split.
  { intros H2. destruct (whenTruthy (env !! "RETELL_API_KEY")) as [key|] eqn:H1.
    - rewrite (handler_no_signature w env request key H1 H2). cbn. auto.
    - rewrite (handler_no_secret w env request H1). cbn. auto. }
  split; [apply handler_bad_signature|].
  intros text Hin.
  destruct (whenTruthy (env !! "RETELL_API_KEY")) as [key|] eqn:H1.
  2:{ rewrite handler_no_secret in Hin by exact H1. destruct Hin. }
  destruct (whenTruthy (headers request !! "x-retell-signature")) as [signature|] eqn:H2.
  2:{ rewrite (handler_no_signature _ _ _ key) in Hin by assumption. destruct Hin. }
  destruct (Retell_verify w (body request) key signature) eqn:H3.
  2:{ rewrite (handler_bad_signature _ _ _ key signature) in Hin by assumption.
      cbn in Hin. destruct Hin as [?|[?|[]]]; discriminate. }
  destruct (handler_after_gate w env request key signature H1 H2 H3) as (rest & E & Hrest).
  assert (Hno : forall text', ~ In (ParseJson text') rest).
  { intros text' Hin'. apply Hrest in Hin'. apply Hin'. reflexivity. }
  rewrite E in Hin. cbn in Hin.
  destruct Hin as [?|[?|[Heq|Hin]]]; try discriminate.
  - injection Heq as <-. split; [reflexivity|].
    exists key, signature, rest. rewrite E. auto.
  - exfalso. exact (Hno text Hin).
Qed.

(** ** C10: configuration that cannot be loaded *)

Lemma channel_variable_required env c varName :
  envIs env (channelSwitch c) "true" = true ->
  In varName (channelVariables (emailProviderOf env) c) ->
  In varName (requiredEnvVars env).
Proof.
  intros Hon Hin. unfold requiredEnvVars.
  destruct c; cbn [channelSwitch channelVariables] in Hon, Hin; rewrite Hon;
    rewrite !in_app_iff; auto.
Qed.

Lemma loadConfiguration_missing env varName :
  In varName (requiredEnvVars env) ->
  envMissing env varName = true ->
  loadConfiguration env
  = Throws (Error ("Missing required environment variables for enabled features: "
                   +:+ JS.join ", " (List.filter (envMissing env) (requiredEnvVars env)))).
Proof.
  intros Hin Hmiss. unfold loadConfiguration.
  assert (H : In varName (List.filter (envMissing env) (requiredEnvVars env))).
  { apply filter_In. auto. }
  destruct (List.filter (envMissing env) (requiredEnvVars env)) as [|x xs].
  - destruct H.
  - reflexivity.
Qed.

(** C10. For every verified [call_analyzed] event whose payload is well
    formed: if a channel is switched on and one of the variables it requires
    is unset or empty, loading the configuration throws, the request is
    answered 500 with [success: false] and the loader's message, and nothing
    but the three gate calls has happened: no task was built or run. *)
Theorem missing_configuration_fails_request
    w env request key signature payload c varName :
  VerifiedCall w env request key signature payload ->
  envIs env (channelSwitch c) "true" = true ->
  In varName (channelVariables (emailProviderOf env) c) ->
  envMissing env varName = true ->
  exists message,
    loadConfiguration env = Throws (Error message)
    /\ RetellWebhookProcessor w env request
       = (gateTrace request key signature,
          {| status := 500; jsonBody := ErrorBody message |})
    /\ success (ErrorBody message) = false
    /\ forall ev, In ev (fst (RetellWebhookProcessor w env request)) -> eventChannel ev = None.
Proof.
  intros (H1 & H2 & H3 & H4) Hon Hin Hmiss.
  pose proof (loadConfiguration_missing env varName
                (channel_variable_required env c varName Hon Hin) Hmiss) as L.
  eexists. split; [exact L|].
  destruct (handler_parsed w env request key signature H1 H2 H3) as (rest & response & E & H).
  rewrite H4 in H. cbn in H. rewrite L in H. destruct H as [-> ->].
  rewrite E, app_nil_r. split; [reflexivity|]. split; [reflexivity|].
  cbn. intros ev [<-|[<-|[<-|[]]]]; reflexivity.
Qed.

(** ** C4: the settle-all join and its counts *)

Lemma settled_partition (results : list PromiseSettledResult) :
  length results
  = (length (List.filter isFulfilled results) + length (List.filter isRejected results))%nat.
Proof.
  induction results as [|r rs IH]; [reflexivity|].
  destruct r; cbn; rewrite IH; lia.
Qed.

Lemma filter_counts_member {A B} (f : A -> B) (p : B -> bool) (x : A) (l : list A) :
  In x l -> p (f x) = true -> (1 <= length (List.filter p (map f l)))%nat.
Proof.
  induction l as [|y ys IH]; intros Hin Hp; [destruct Hin|].
  cbn. destruct Hin as [->|Hin].
  - rewrite Hp. cbn. lia.
  - specialize (IH Hin Hp). destruct (p (f y)); cbn; lia.
Qed.

(** C4. For every dispatch run: the join reports every queued task at its
    own position with that task's own settlement, and every task's calls are
    made; the reported outcome has [total] equal to the number of queued tasks
    and to [successful + failed], where [successful] and [failed] count the
    tasks that fulfil and reject on their own; when some task rejects and
    some task fulfils, [failed >= 1] and [successful >= 1]; and the answer is
    200 with [success: true] in every case. *)
Theorem dispatch_outcome_counts
    w env request key signature payload config callType notificationTasks :
  VerifiedCall w env request key signature payload ->
  loadConfiguration env = Returns config ->
  buildNotificationTasks payload config = Queued callType notificationTasks ->
  let promises := map (startTask w payload config) notificationTasks in
  let run := RetellWebhookProcessor w env request in
  Promise_allSettled promises = (concat (map fst promises), Returns (map settled promises))
  /\ fst run = (gateTrace request key signature ++ concat (map fst promises))%list
  /\ exists attempted outcome,
      snd run = {| status := 200;
                   jsonBody := ProcessedBody "Webhook processed successfully"
                                 (call_id payload) callType attempted outcome |}
      /\ success (jsonBody (snd run)) = true
      /\ total outcome = length notificationTasks
      /\ total outcome = (successful outcome + failed outcome)%nat
      /\ successful outcome = length (List.filter isFulfilled (map settled promises))
      /\ failed outcome = length (List.filter isRejected (map settled promises))
      /\ ((exists task, In task notificationTasks
                        /\ isRejected (settled (startTask w payload config task)) = true) ->
          (exists task, In task notificationTasks
                        /\ isFulfilled (settled (startTask w payload config task)) = true) ->
          (1 <= failed outcome)%nat /\ (1 <= successful outcome)%nat).
Proof.
  intros V L B. cbv zeta.
  rewrite (handler_dispatch w env request key signature payload config V L), B.
  unfold dispatchTrace, processedResponse. cbn [fst snd jsonBody success].
  split; [reflexivity|]. rewrite !map_map.
  split; [reflexivity|].
  eexists _, _. split; [reflexivity|]. split; [reflexivity|].
  unfold statusOf. cbn [total successful failed].
  split; [apply length_map|]. split; [apply settled_partition|].
  split; [reflexivity|]. split; [reflexivity|].
  intros (t1 & In1 & R1) (t2 & In2 & R2). split.
  - exact (filter_counts_member _ isRejected t1 _ In1 R1).
  - exact (filter_counts_member _ isFulfilled t2 _ In2 R2).
Qed.

(** ** C5 and C6: which tasks are queued *)

Lemma in_pushTask flag t queue task :
  In task (pushTask flag t queue) <-> In task queue \/ (flag = true /\ task = t).
Proof.
  unfold pushTask. destruct flag.
  - rewrite in_app_iff. cbn. intuition congruence.
  - intuition congruence.
Qed.

(** The queue of the Incident workflow, used for Incident and Unclassified
    calls alike. *)
Lemma in_incident_queue flags task :
  In task (pushTask (enableSms flags) SmsTask
            (pushTask (enableTeams flags) ChatTask
              (pushTask (enableEmail flags) IncidentEmailTask
                (pushTask (enableJira flags) TicketTask []))))
  <-> task <> InquiryEmailTask /\ channelEnabled flags (taskChannel task) = true.
Proof.
  rewrite !in_pushTask. cbn [In].
  destruct task; cbn [channelEnabled taskChannel]; intuition (try congruence).
Qed.

Lemma inquiry_plan payload config :
  classify payload = Inquiry ->
  buildNotificationTasks payload config
  = if negb (valid (validateNonIrCallData payload)) then
      EarlyReturn
        {| status := 200;
           jsonBody := SkippedBody "Non-IR call processing skipped - missing required data"
                         (missingFields (validateNonIrCallData payload)) (call_id payload) |}
    else Queued "NON-IR" [InquiryEmailTask].
Proof.
  unfold classify, buildNotificationTasks.
  destruct (isIrCall payload); [discriminate|].
  destruct (isNonIrCall payload); [|discriminate].
  reflexivity.
Qed.

(** C5. For every call classified Inquiry, whatever the configuration: the
    classification block either returns the skipped answer or queues exactly
    the inquiry-email task; and no call to the ticket tracker, the chat
    webhook or the SMS client occurs in the run of the handler. *)
Theorem inquiry_only_email w env request webhookPayload payload :
  JSON_parse w (body request) = Returns webhookPayload ->
  call webhookPayload = Some payload ->
  classify payload = Inquiry ->
  (forall config,
      (exists response, buildNotificationTasks payload config = EarlyReturn response)
      \/ buildNotificationTasks payload config = Queued "NON-IR" [InquiryEmailTask])
  /\ (forall ev, In ev (fst (RetellWebhookProcessor w env request)) ->
        eventChannel ev = None \/ emittedBy InquiryEmailTask ev = true)
  /\ (forall ev, In ev (fst (RetellWebhookProcessor w env request)) ->
        eventChannel ev <> Some Ticketing
        /\ eventChannel ev <> Some Chat
        /\ eventChannel ev <> Some Sms).
Proof.
  intros P C K.
  assert (Plan : forall config,
             (exists response, buildNotificationTasks payload config = EarlyReturn response)
             \/ buildNotificationTasks payload config = Queued "NON-IR" [InquiryEmailTask]).
  { intros config. rewrite (inquiry_plan payload config K).
    destruct (negb _); eauto. }
  assert (Ev : forall ev, In ev (fst (RetellWebhookProcessor w env request)) ->
                 eventChannel ev = None \/ emittedBy InquiryEmailTask ev = true).
  { destruct (whenTruthy (env !! "RETELL_API_KEY")) as [key|] eqn:H1.
    2:{ rewrite handler_no_secret by exact H1. intros ev []. }
    destruct (whenTruthy (headers request !! "x-retell-signature")) as [signature|] eqn:H2.
    2:{ rewrite (handler_no_signature _ _ _ key) by assumption. intros ev []. }
    destruct (Retell_verify w (body request) key signature) eqn:H3.
    2:{ rewrite (handler_bad_signature _ _ _ key signature) by assumption.
        intros ev [<-|[<-|[]]]; auto. }
    destruct (handler_parsed w env request key signature H1 H2 H3) as (rest & response & E & H).
    rewrite E. cbn [fst]. rewrite P, C in H.
    assert (N : rest = [] \/ exists config, rest = dispatchTrace w payload config [InquiryEmailTask]).
    { destruct (negb (String.eqb (event webhookPayload) "call_analyzed")); [left; tauto|].
      destruct (loadConfiguration env) as [config|e]; [|left; tauto].
      destruct (Plan config) as [[r Hr]|Hq]; rewrite ?Hr, ?Hq in H; [left; tauto|].
      right. exists config. tauto. }
    intros ev Hin. apply in_app_iff in Hin as [Hin|Hin].
    - left. destruct Hin as [<-|[<-|[<-|[]]]]; reflexivity.
    - destruct N as [->|(config & ->)]; [destruct Hin|].
      apply dispatch_events in Hin as (task & [<-|[]] & Hev). auto. }
  split; [exact Plan|]. split; [exact Ev|].
  intros ev Hin. destruct (Ev ev Hin) as [H|H].
  - rewrite H. repeat split; discriminate.
  - apply emittedBy_channel in H as [H|[H _]]; [|discriminate].
    rewrite H. repeat split; discriminate.
Qed.

(** C6, as amended. For Incident and Unclassified calls a queued task always
    belongs to a channel whose flag is on. For an Inquiry call the only task
    queued is the inquiry email, and it is queued whenever Inquiry validation
    passes, whatever the flags say. *)
Theorem queued_tasks_and_flags payload config :
  (forall callType notificationTasks task,
      buildNotificationTasks payload config = Queued callType notificationTasks ->
      In task notificationTasks ->
      match classify payload with
      | Inquiry => task = InquiryEmailTask
      | Incident | Unclassified =>
          task <> InquiryEmailTask
          /\ channelEnabled (featureFlags config) (taskChannel task) = true
      end)
  /\ (classify payload = Inquiry ->
      valid (validateNonIrCallData payload) = true ->
      buildNotificationTasks payload config = Queued "NON-IR" [InquiryEmailTask]).
Proof.
  split.
  - intros callType tasks task B Hin.
    destruct (classify payload) eqn:K.
    + unfold classify in K. unfold buildNotificationTasks in B.
      destruct (isIrCall payload); [|destruct (isNonIrCall payload); discriminate].
      destruct (negb (valid (validateIrCallData payload))); [discriminate|].
      injection B as _ <-. apply in_incident_queue. exact Hin.
    + rewrite (inquiry_plan payload config K) in B.
      destruct (negb _); [discriminate|].
      injection B as _ <-. destruct Hin as [<-|[]]. reflexivity.
    + unfold classify in K. unfold buildNotificationTasks in B.
      destruct (isIrCall payload); [discriminate|].
      destruct (isNonIrCall payload); [discriminate|].
      injection B as _ <-. apply in_incident_queue. exact Hin.
  - intros K V. rewrite (inquiry_plan payload config K), V. reflexivity.
Qed.

(** C6, as stated, fails: with every flag off, a valid Inquiry call still
    gets its email task queued. *)
Lemma disabled_channels_have_no_task_fails : ~ disabled_channels_have_no_task.
Proof.
  intros H.
  destruct (loadConfiguration Sample.envAllOff) as [config|e] eqn:E;
    [|vm_compute in E; discriminate].
  specialize (H Sample.inquiryCall config "NON-IR" [InquiryEmailTask] InquiryEmailTask).
  vm_compute in E. injection E as <-.
  assert (F : false = true); [|discriminate F].
  apply H; [reflexivity|left; reflexivity].
Qed.

(** ** C2: Unclassified calls *)

Lemma unclassified_flag payload :
  classify payload = Unclassified -> flagIsTrue (analysisOf payload) = false.
Proof.
  unfold classify, isIrCall.
  destruct (flagIsTrue (analysisOf payload)); [|reflexivity].
  rewrite orb_true_r. discriminate.
Qed.

(** Incident validation cannot pass without the flag. *)
Lemma incident_validation_needs_flag payload :
  flagIsTrue (analysisOf payload) = false -> valid (validateIrCallData payload) = false.
Proof.
  intros F. unfold validateIrCallData, pushIf. rewrite F. cbn [negb].
  destruct (isMissing (ofStr (caller_name _))), (isMissing (ofStr (company_name _))),
    (isMissing (caller_phone_number _)); reflexivity.
Qed.

Lemma unclassified_plan payload config :
  classify payload = Unclassified ->
  buildNotificationTasks payload config
  = Queued "UNCLASSIFIED (defaulting to IR)"
      (pushTask (enableSms (featureFlags config)) SmsTask
        (pushTask (enableTeams (featureFlags config)) ChatTask
          (pushTask (enableEmail (featureFlags config)) IncidentEmailTask
            (pushTask (enableJira (featureFlags config)) TicketTask [])))).
Proof.
  unfold classify, buildNotificationTasks.
  destruct (isIrCall payload); [discriminate|].
  destruct (isNonIrCall payload); [discriminate|].
  reflexivity.
Qed.

Lemma in_dispatchTrace w payload config notificationTasks ev :
  In ev (dispatchTrace w payload config notificationTasks)
  <-> exists task, In task notificationTasks /\ In ev (fst (startTask w payload config task)).
Proof.
  unfold dispatchTrace. rewrite in_concat. split.
  - intros (tr & Htr & Hev). apply in_map_iff in Htr as (task & <- & Htask). eauto.
  - intros (task & Htask & Hev). eexists. split; [|exact Hev].
    apply in_map_iff. eauto.
Qed.

(** C2, as amended. For every Unclassified call that reaches the
    classification block: Incident validation is unmet, yet it is not applied
    before dispatch. The handler queues the tasks of the Incident workflow
    whose channels are on, lets them settle and answers with the processed
    outcome, never the skipped one. The ticket and incident-email tasks
    re-run Incident validation and leave at once, so no ticket or email call
    is made. *)
Theorem unclassified_dispatch_not_gated w env request key signature payload config :
  VerifiedCall w env request key signature payload ->
  loadConfiguration env = Returns config ->
  classify payload = Unclassified ->
  let run := RetellWebhookProcessor w env request in
  valid (validateIrCallData payload) = false
  /\ (exists notificationTasks,
        buildNotificationTasks payload config
        = Queued "UNCLASSIFIED (defaulting to IR)" notificationTasks
        /\ (forall task,
              In task notificationTasks
              <-> task <> InquiryEmailTask
                  /\ channelEnabled (featureFlags config) (taskChannel task) = true)
        /\ run = ((gateTrace request key signature
                   ++ dispatchTrace w payload config notificationTasks)%list,
                  processedResponse w payload config
                    "UNCLASSIFIED (defaulting to IR)" notificationTasks))
  /\ startTask w payload config TicketTask = ([], Returns tt)
  /\ startTask w payload config IncidentEmailTask = ([], Returns tt)
  /\ (forall ev, In ev (fst run) ->
        eventChannel ev <> Some Ticketing /\ eventChannel ev <> Some Email).
Proof.
  intros V L K. cbv zeta.
  pose proof (incident_validation_needs_flag payload (unclassified_flag payload K)) as NV.
  assert (Skip : forall task, task = TicketTask \/ task = IncidentEmailTask ->
                   startTask w payload config task = ([], Returns tt)).
  { intros task [->| ->]; apply task_skips; cbn [skipsItsWork]; rewrite NV; reflexivity. }
  rewrite (handler_dispatch w env request key signature payload config V L).
  rewrite (unclassified_plan payload config K). cbn [fst].
  split; [exact NV|]. split.
  { eexists. split; [reflexivity|]. split; [|reflexivity].
    intros task. apply in_incident_queue. }
  split; [apply Skip; auto|]. split; [apply Skip; auto|].
  - intros ev Hin. apply in_app_iff in Hin as [Hin|Hin].
    { destruct Hin as [<-|[<-|[<-|[]]]]; split; discriminate. }
    apply in_dispatchTrace in Hin as (task & Htask & Hev).
    destruct task.
    + rewrite Skip in Hev by auto. destruct Hev.
    + rewrite Skip in Hev by auto. destruct Hev.
    + pose proof (task_events w payload config ChatTask) as F.
      rewrite List.Forall_forall in F. apply F in Hev.
      apply emittedBy_channel in Hev as [Hev|[? _]]; [|discriminate].
      rewrite Hev. split; discriminate.
    + pose proof (task_events w payload config SmsTask) as F.
      rewrite List.Forall_forall in F. apply F in Hev.
      apply emittedBy_channel in Hev as [Hev|[? _]]; [|discriminate].
      rewrite Hev. split; discriminate.
    + apply in_incident_queue in Htask as [N _]. congruence.
Qed.

(** C2, as stated, fails: an Unclassified call with the SMS channel on is
    answered with the processed outcome, and the SMS is sent. *)
Lemma unclassified_calls_are_gated_fails : ~ unclassified_calls_are_gated.
Proof.
  intros H.
  destruct (loadConfiguration Sample.envSms) as [config|e] eqn:E;
    [|vm_compute in E; discriminate].
  destruct (H Sample.worldSilent Sample.envSms Sample.request Sample.secret
              Sample.signature Sample.silentCall config) as [[message Hm] _].
  - repeat split; vm_compute; reflexivity.
  - exact E.
  - reflexivity.
  - reflexivity.
  - vm_compute in Hm. discriminate Hm.
Qed.

(** ** C8: the alert about a failed ticket request *)

(** How the ticket task ends depends on the validation and on the ticket
    tracker's answer only, not on what happens to the alert mail. *)
Lemma ticket_task_result w payload config :
  snd (createJiraTicketViaApi w payload config)
  = if negb (valid (validateIrCallData payload)) then Returns tt
    else match ticketFailure (jiraFetch w) with
         | Some e => Throws e
         | None => Returns tt
         end.
Proof.
  unfold ticketFailure. run_task; reflexivity.
Qed.

Lemma ticket_task_rejects w payload config e :
  settled (createJiraTicketViaApi w payload config) = rejected e
  <-> valid (validateIrCallData payload) = true /\ ticketFailure (jiraFetch w) = Some e.
Proof.
  unfold settled. rewrite ticket_task_result.
  destruct (valid (validateIrCallData payload)); cbn [negb].
  - destruct (ticketFailure (jiraFetch w)) as [e'|]; split.
    + intros [= ->]. auto.
    + intros [_ [= ->]]. reflexivity.
    + discriminate.
    + intros [_ [=]].
  - split; [discriminate|]. intros [[=] _].
Qed.

Lemma ticket_alert w payload config e :
  valid (validateIrCallData payload) = true ->
  ticketFailure (jiraFetch w) = Some e ->
  enableEmail (featureFlags config) = true ->
  alertAttempted w config (fst (createJiraTicketViaApi w payload config)).
Proof.
  intros V F On. unfold alertAttempted, createJiraTicketViaApi, jiraTryBlock.
  rewrite V, On. cbn [negb]. revert F. unfold ticketFailure.
  run_task; cbn; intros; try discriminate; auto 10.
  all: try (split; [auto 10|intros; try discriminate; auto 10]).
Qed.

Lemma alertAttempted_mono w config (tr tr' : Trace) :
  (forall ev, In ev tr -> In ev tr') ->
  alertAttempted w config tr -> alertAttempted w config tr'.
Proof.
  unfold alertAttempted. intros M. destruct (emailProvider config).
  - apply M.
  - intros [H1 H2]. split; [apply M, H1|]. intros u Hu. apply M, (H2 u Hu).
Qed.

(** C8. Whenever the ticket task of a dispatch rejects and the email channel
    is on: the alert mail to the failure-notification recipients has been
    attempted (within the task, hence within the run); the error the task
    rejects with is the original ticket error, and it is the same whatever
    the mail collaborators do; and the reported outcome counts the task among
    the failures. *)
Theorem ticket_failure_alert
    w env request key signature payload config callType notificationTasks e :
  VerifiedCall w env request key signature payload ->
  loadConfiguration env = Returns config ->
  buildNotificationTasks payload config = Queued callType notificationTasks ->
  In TicketTask notificationTasks ->
  settled (createJiraTicketViaApi w payload config) = rejected e ->
  enableEmail (featureFlags config) = true ->
  let run := RetellWebhookProcessor w env request in
  alertAttempted w config (fst (createJiraTicketViaApi w payload config))
  /\ alertAttempted w config (fst run)
  /\ ticketFailure (jiraFetch w) = Some e
  /\ (forall w', jiraFetch w' = jiraFetch w ->
                 settled (createJiraTicketViaApi w' payload config) = rejected e)
  /\ exists attempted outcome,
      jsonBody (snd run)
      = ProcessedBody "Webhook processed successfully" (call_id payload) callType
          attempted outcome
      /\ (1 <= failed outcome)%nat.
Proof.
  intros V L B Hin R On. cbv zeta.
  pose proof R as R'. apply ticket_task_rejects in R' as [Val F].
  pose proof (ticket_alert w payload config e Val F On) as A.
  rewrite (handler_dispatch w env request key signature payload config V L), B.
  cbn [fst snd]. split; [exact A|]. split.
  { revert A. apply alertAttempted_mono. intros ev Hev.
    apply in_app_iff. right. apply in_dispatchTrace. exists TicketTask. auto. }
  split; [exact F|]. split.
  { intros w' Hw'. apply ticket_task_rejects. rewrite Hw'. auto. }
  unfold processedResponse. cbn [jsonBody]. eexists _, _. split; [reflexivity|].
  unfold statusOf. cbn [failed].
  apply (filter_counts_member (fun task => settled (startTask w payload config task))
           isRejected TicketTask _ Hin).
  cbn [startTask]. rewrite R. reflexivity.
Qed.

(** ** C9: tasks that skip their work *)

Lemma skipped_are_fulfilled w payload config notificationTasks :
  (length (List.filter (skipsItsWork payload) notificationTasks)
   <= length (List.filter isFulfilled
                (map (fun task => settled (startTask w payload config task))
                     notificationTasks)))%nat.
Proof.
  induction notificationTasks as [|t ts IH]; [reflexivity|].
  cbn [List.filter map]. destruct (skipsItsWork payload t) eqn:S.
  - rewrite (task_skips w payload config t S). cbn. lia.
  - destruct (isFulfilled _); cbn; lia.
Qed.

Lemma all_skipped w payload config notificationTasks :
  (forall task, In task notificationTasks -> skipsItsWork payload task = true) ->
  statusOf (map (fun task => settled (startTask w payload config task)) notificationTasks)
  = {| total := length notificationTasks;
       successful := length notificationTasks;
       failed := 0 |}
  /\ dispatchTrace w payload config notificationTasks = [].
Proof.
  unfold statusOf, dispatchTrace.
  induction notificationTasks as [|t ts IH]; intros H; [split; reflexivity|].
  destruct IH as [IH1 IH2]; [intros task Ht; apply H; right; exact Ht|].
  injection IH1 as E1 E2 E3.
  cbn [map List.filter concat length].
  rewrite (task_skips w payload config t (H t (or_introl eq_refl))).
  cbn. rewrite E1, E2, E3, IH2. split; reflexivity.
Qed.

(** C9. In every dispatch, a queued ticket, incident-email or inquiry-email
    task whose own re-validation fails makes no call and is fulfilled, and
    the reported [successful] count includes every such task; when all queued
    tasks are of that kind the outcome reports all of them successful and
    none failed, although the run contains no call to any channel. *)
Theorem skipped_tasks_count_as_successful
    w env request key signature payload config callType notificationTasks :
  VerifiedCall w env request key signature payload ->
  loadConfiguration env = Returns config ->
  buildNotificationTasks payload config = Queued callType notificationTasks ->
  let run := RetellWebhookProcessor w env request in
  (forall task,
      In task notificationTasks -> skipsItsWork payload task = true ->
      fst (startTask w payload config task) = []
      /\ settled (startTask w payload config task) = fulfilled)
  /\ exists attempted outcome,
      snd run = {| status := 200;
                   jsonBody := ProcessedBody "Webhook processed successfully"
                                 (call_id payload) callType attempted outcome |}
      /\ (length (List.filter (skipsItsWork payload) notificationTasks)
          <= successful outcome)%nat
      /\ ((forall task, In task notificationTasks -> skipsItsWork payload task = true) ->
          total outcome = length notificationTasks
          /\ successful outcome = total outcome
          /\ failed outcome = 0%nat
          /\ fst run = gateTrace request key signature).
Proof.
  intros V L B. cbv zeta.
  rewrite (handler_dispatch w env request key signature payload config V L), B.
  cbn [fst snd]. split.
  { intros task _ S. rewrite (task_skips w payload config task S). split; reflexivity. }
  unfold processedResponse. eexists _, _. split; [reflexivity|]. split.
  { apply skipped_are_fulfilled. }
  intros All. destruct (all_skipped w payload config notificationTasks All) as [-> ->].
  cbn [total successful failed]. rewrite ?app_nil_r. auto.
Qed.

(** ** Numbers as phone numbers *)

(** The text of a number starts with a digit, a minus sign or the [I] of
    [Infinity]. *)
Lemma decimal_head (n : Z) :
  exists c r,
    JS.decimal n = String c r
    /\ JS.isWhiteSpace c = false
    /\ JS.toLowerChar c <> "n"%char.
Proof.
  unfold JS.decimal.
  destruct (Z.to_int n) as [d|d]; destruct d; cbn;
    eexists _, _; (split; [reflexivity|split; [reflexivity|discriminate]]).
Qed.

Lemma dropTrailingZeros_head (c : ascii) (r : string) :
  JS.dropTrailingZeros (String c r) = ""
  \/ exists r', JS.dropTrailingZeros (String c r) = String c r'.
Proof.
  cbn. destruct (JS.dropTrailingZeros r); [destruct (Ascii.eqb c "0")|]; eauto.
Qed.

Lemma scientific_head (v : Z) :
  exists c r,
    JS.scientific v = String c r
    /\ JS.isWhiteSpace c = false
    /\ JS.toLowerChar c <> "n"%char.
Proof.
  unfold JS.scientific.
  destruct (decimal_head v) as (c & r & -> & W & L).
  destruct (dropTrailingZeros_head c r) as [->|(r' & ->)].
  - eexists _, _. split; [reflexivity|split; [reflexivity|discriminate]].
  - destruct r'; eexists _, _; (split; [reflexivity|auto]).
Qed.

Lemma stringOfMagnitude_head (a : Z) :
  exists c r,
    JS.stringOfMagnitude a = String c r
    /\ JS.isWhiteSpace c = false
    /\ JS.toLowerChar c <> "n"%char.
Proof.
  unfold JS.stringOfMagnitude.
  destruct (a <=? JS.MAX_SAFE_INTEGER); [apply decimal_head|].
  destruct (2 ^ 1024 <=? JS.nearestDouble a).
  - eexists _, _. split; [reflexivity|split; [reflexivity|discriminate]].
  - match goal with |- context [if ?b then _ else _] => destruct b end;
      [apply decimal_head|apply scientific_head].
Qed.

Lemma stringOfNumber_head (n : Z) :
  exists c r,
    JS.stringOfNumber n = String c r
    /\ JS.isWhiteSpace c = false
    /\ JS.toLowerChar c <> "n"%char.
Proof.
  unfold JS.stringOfNumber. destruct (n <? 0).
  - eexists _, _. split; [reflexivity|split; [reflexivity|discriminate]].
  - apply stringOfMagnitude_head.
Qed.

(** Every digit of a safe integer is printed. *)
Lemma stringOfNumber_safe (n : Z) :
  Z.abs n <= JS.MAX_SAFE_INTEGER -> JS.stringOfNumber n = JS.decimal n.
Proof.
  intros H. unfold JS.stringOfNumber, JS.stringOfMagnitude.
  destruct (Z.ltb_spec n 0) as [N|N].
  - assert (E : ((- n) <=? JS.MAX_SAFE_INTEGER) = true) by (apply Z.leb_le; lia).
    rewrite E. unfold JS.decimal.
    destruct n as [|p|p]; try lia. reflexivity.
  - assert (E : (n <=? JS.MAX_SAFE_INTEGER) = true) by (apply Z.leb_le; lia).
    rewrite E. reflexivity.
Qed.

(** From 1e21 on the exponent notation is used, and beyond the safe
    integers the digits are those of the nearest double. *)
Example stringOfNumber_large :
  JS.stringOfNumber (10 ^ 21) = "1e+21"
  /\ JS.stringOfNumber (10 ^ 21 - 1) = "1e+21"
  /\ JS.stringOfNumber (2 ^ 53 + 1) = "9007199254740992"
  /\ JS.stringOfNumber (2 ^ 64) = "18446744073709552000"
  /\ JS.stringOfNumber (- 123456789012345678901234567890) = "-1.2345678901234568e+29"
  /\ JS.stringOfNumber (2 ^ 1024) = "Infinity".
Proof. repeat split; vm_compute; reflexivity. Qed.

Lemma trimEnd_head (c : ascii) (r : string) :
  JS.isWhiteSpace c = false -> exists r', JS.trimEnd (String c r) = String c r'.
Proof.
  intros H. cbn. destruct (JS.trimEnd r); rewrite ?H; eauto.
Qed.

(** A phone number given as a number is present unless it is zero. *)
Lemma numeric_phone_present (n : Z) :
  Policy.presentAfterTrimming (Some (JS.Num n)) = negb (n =? 0).
Proof.
  unfold Policy.presentAfterTrimming, Policy.absentAfterTrimming, Policy.equalIgnoringCase,
    Policy.isEmpty, JS.trim.
  cbn [JS.toString].
  destruct (stringOfNumber_head n) as (c & r & -> & W & L).
  cbn [JS.trimStart Policy.whitespaceOnly String.eqb]. rewrite W.
  destruct (trimEnd_head c r W) as (r' & ->).
  cbn [JS.toLowerCase andb orb].
  change (JS.toLowerCase Policy.placeholder) with "not provided".
  assert (E : String.eqb (String (JS.toLowerChar c) (JS.toLowerCase r')) "not provided" = false).
  { apply String.eqb_neq. intros [= H _]. exact (L H). }
  rewrite E, !orb_false_r. reflexivity.
Qed.

(** ** Worked scenarios (section 8 of the specification) *)

(** Scenario A: four tasks for a complete incident with every channel on. *)
Example scenario_A :
  exists config,
    loadConfiguration Sample.envAllOn = Returns config
    /\ buildNotificationTasks Sample.incidentCall config
       = Queued "IR" [TicketTask; IncidentEmailTask; ChatTask; SmsTask].
Proof. eexists. split; vm_compute; reflexivity. Qed.

(** Scenario B: a missing phone number is the only missing field. *)
Example scenario_B :
  validateIrCallData Sample.incidentCallNoPhone
  = {| valid := false; missingFields := ["phone number"] |}.
Proof. reflexivity. Qed.

(** Scenario C: an email address alone satisfies the Inquiry policy. *)
Example scenario_C :
  classify Sample.inquiryCall = Inquiry
  /\ validateNonIrCallData Sample.inquiryCall = {| valid := true; missingFields := [] |}.
Proof. split; reflexivity. Qed.

(** Scenario D: another event kind is acknowledged and nothing else runs. *)
Example scenario_D :
  RetellWebhookProcessor Sample.worldStarted Sample.envAllOn Sample.request
  = (gateTrace Sample.request Sample.secret Sample.signature,
     {| status := 200;
        jsonBody := MessageBody "Event type call_started acknowledged but not processed" |}).
Proof. vm_compute. reflexivity. Qed.

(** Scenario F: the ticket is refused and so is the alert mail; the
    incident mail still goes out and the outcome counts one failure. *)
Example scenario_F :
  RetellWebhookProcessor Sample.worldTicketRefused Sample.envTicketAndEmail Sample.request
  = ((gateTrace Sample.request Sample.secret Sample.signature
      ++ [ TicketRequest "https://jira.example/rest/api/3/issue";
           EmailSend SendGrid TicketFailureAlert
             ["csirt@procircular.com"; "jsherlock@procircular.com"];
           EmailSend SendGrid IncidentAlert ["irt@procircular.com"] ])%list,
     {| status := 200;
        jsonBody :=
          ProcessedBody "Webhook processed successfully" "call_A" "IR"
            {| attempted_jira := true; attempted_email := true;
               attempted_teams := false; attempted_sms := false |}
            {| total := 2; successful := 1; failed := 1 |} |}).
Proof. vm_compute. reflexivity. Qed.

(** An Unclassified call with only the SMS channel on: the SMS is sent. *)
Example unclassified_sms_run :
  RetellWebhookProcessor Sample.worldSilent Sample.envSms Sample.request
  = ((gateTrace Sample.request Sample.secret Sample.signature
      ++ [SmsCreate "+15550001" "+15550002"])%list,
     {| status := 200;
        jsonBody :=
          ProcessedBody "Webhook processed successfully" "call_U"
            "UNCLASSIFIED (defaulting to IR)"
            {| attempted_jira := false; attempted_email := false;
               attempted_teams := false; attempted_sms := false |}
            {| total := 1; successful := 1; failed := 0 |} |}).
Proof. vm_compute. reflexivity. Qed.

(** A placeholder with surrounding blanks, and the number zero, count as
    missing; a numeric phone number counts as given. *)
Example missing_values :
  isMissing (Some (JS.Str "  Not Provided ")) = true
  /\ isMissing (Some (JS.Num 0)) = true
  /\ isMissing (Some (JS.Num 5551234567)) = false.
Proof. repeat split; reflexivity. Qed.

(** ** Witnesses *)

Lemma classify_follows_spec_witness : classify Sample.incidentCall = Incident.
Proof.
  apply (proj1 (proj2 (classify_follows_spec Sample.incidentCall))). reflexivity.
Defined.

Lemma signature_gate_witness :
  RetellWebhookProcessor Sample.worldSilent Sample.envAllOff Sample.requestWithoutSignature
  = ([], {| status := 400; jsonBody := ErrorBody "Missing x-retell-signature header." |}).
Proof.
  apply (proj1 (proj2 (signature_gate Sample.worldSilent Sample.envAllOff
                         Sample.requestWithoutSignature)) Sample.secret);
    vm_compute; reflexivity.
Defined.

Lemma unclassified_dispatch_not_gated_witness :
  valid (validateIrCallData Sample.silentCall) = false
  /\ Forall (fun ev => eventChannel ev <> Some Ticketing /\ eventChannel ev <> Some Email)
        (fst (RetellWebhookProcessor Sample.worldSilent Sample.envAllOn Sample.request)).
Proof.
  assert (V : VerifiedCall Sample.worldSilent Sample.envAllOn Sample.request
                Sample.secret Sample.signature Sample.silentCall)
    by (repeat split; vm_compute; reflexivity).
  eassert (E : loadConfiguration Sample.envAllOn = Returns _) by (vm_compute; reflexivity).
  destruct (unclassified_dispatch_not_gated _ _ _ _ _ _ _ V E)
    as (NV & _ & _ & _ & Ev).
  - reflexivity.
  - split; [exact NV|]. apply List.Forall_forall. exact Ev.
Defined.

Lemma dispatch_outcome_counts_witness :
  exists attempted outcome,
    snd (RetellWebhookProcessor Sample.worldTicketRefused Sample.envTicketAndEmail
           Sample.request)
    = {| status := 200;
         jsonBody := ProcessedBody "Webhook processed successfully" "call_A" "IR"
                       attempted outcome |}
    /\ total outcome = 2%nat
    /\ (1 <= failed outcome)%nat
    /\ (1 <= successful outcome)%nat.
Proof.
  assert (V : VerifiedCall Sample.worldTicketRefused Sample.envTicketAndEmail Sample.request
                Sample.secret Sample.signature Sample.incidentCall)
    by (repeat split; vm_compute; reflexivity).
  eassert (E : loadConfiguration Sample.envTicketAndEmail = Returns _)
    by (vm_compute; reflexivity).
  destruct (dispatch_outcome_counts _ _ _ _ _ _ _ "IR" [TicketTask; IncidentEmailTask] V E)
    as (_ & _ & a & o & H1 & _ & H2 & _ & _ & _ & H3).
  - vm_compute; reflexivity.
  - exists a, o. split; [exact H1|]. split; [exact H2|]. apply H3.
    + exists TicketTask. split; [left; reflexivity|vm_compute; reflexivity].
    + exists IncidentEmailTask. split; [right; left; reflexivity|vm_compute; reflexivity].
Defined.

Lemma inquiry_only_email_witness :
  Forall (fun ev => eventChannel ev <> Some Ticketing
                    /\ eventChannel ev <> Some Chat
                    /\ eventChannel ev <> Some Sms)
         (fst (RetellWebhookProcessor Sample.worldInquiry Sample.envAllOn Sample.request)).
Proof.
  apply List.Forall_forall.
  apply (inquiry_only_email Sample.worldInquiry Sample.envAllOn Sample.request
           {| event := "call_analyzed"; call := Some Sample.inquiryCall |}
           Sample.inquiryCall); reflexivity.
Defined.

Lemma queued_tasks_and_flags_witness :
  exists config,
    loadConfiguration Sample.envAllOff = Returns config
    /\ buildNotificationTasks Sample.inquiryCall config = Queued "NON-IR" [InquiryEmailTask].
Proof.
  eexists. split; [vm_compute; reflexivity|].
  apply (proj2 (queued_tasks_and_flags Sample.inquiryCall _)); reflexivity.
Defined.

Lemma ticket_failure_alert_witness :
  ticketFailure (jiraFetch Sample.worldTicketRefused)
  = Some (Error "Jira API request failed: 400 - project is required")
  /\ In (EmailSend SendGrid TicketFailureAlert
           ["csirt@procircular.com"; "jsherlock@procircular.com"])
        (fst (RetellWebhookProcessor Sample.worldTicketRefused Sample.envTicketAndEmail
                Sample.request))
  /\ exists attempted outcome,
      jsonBody (snd (RetellWebhookProcessor Sample.worldTicketRefused
                       Sample.envTicketAndEmail Sample.request))
      = ProcessedBody "Webhook processed successfully" "call_A" "IR" attempted outcome
      /\ (1 <= failed outcome)%nat.
Proof.
  assert (V : VerifiedCall Sample.worldTicketRefused Sample.envTicketAndEmail Sample.request
                Sample.secret Sample.signature Sample.incidentCall)
    by (repeat split; vm_compute; reflexivity).
  eassert (E : loadConfiguration Sample.envTicketAndEmail = Returns _)
    by (vm_compute; reflexivity).
  destruct (ticket_failure_alert _ _ _ _ _ _ _ "IR" [TicketTask; IncidentEmailTask]
              (Error "Jira API request failed: 400 - project is required") V E)
    as (_ & A & F & _ & O).
  - vm_compute; reflexivity.
  - left; reflexivity.
  - vm_compute; reflexivity.
  - reflexivity.
  - split; [exact F|]. split; [exact A|exact O].
Defined.

Lemma skipped_tasks_count_as_successful_witness :
  fst (RetellWebhookProcessor Sample.worldSilent Sample.envTicketAndEmail Sample.request)
  = gateTrace Sample.request Sample.secret Sample.signature
  /\ exists attempted,
      snd (RetellWebhookProcessor Sample.worldSilent Sample.envTicketAndEmail Sample.request)
      = {| status := 200;
           jsonBody := ProcessedBody "Webhook processed successfully" "call_U"
                         "UNCLASSIFIED (defaulting to IR)" attempted
                         {| total := 2; successful := 2; failed := 0 |} |}.
Proof.
  assert (V : VerifiedCall Sample.worldSilent Sample.envTicketAndEmail Sample.request
                Sample.secret Sample.signature Sample.silentCall)
    by (repeat split; vm_compute; reflexivity).
  eassert (E : loadConfiguration Sample.envTicketAndEmail = Returns _)
    by (vm_compute; reflexivity).
  destruct (skipped_tasks_count_as_successful _ _ _ _ _ _ _
              "UNCLASSIFIED (defaulting to IR)" [TicketTask; IncidentEmailTask] V E)
    as (_ & a & [t s f] & H1 & _ & H2).
  - vm_compute; reflexivity.
  - destruct H2 as (T & S & F & Tr).
    + intros task [<-|[<-|[]]]; reflexivity.
    + cbn in T, S, F. subst. split; [exact Tr|]. exists a. exact H1.
Defined.

Lemma missing_configuration_fails_request_witness :
  exists message,
    loadConfiguration Sample.envChatUnconfigured = Throws (Error message)
    /\ RetellWebhookProcessor Sample.worldInquiry Sample.envChatUnconfigured Sample.request
       = (gateTrace Sample.request Sample.secret Sample.signature,
          {| status := 500; jsonBody := ErrorBody message |}).
Proof.
  destruct (missing_configuration_fails_request Sample.worldInquiry
              Sample.envChatUnconfigured Sample.request Sample.secret Sample.signature
              Sample.inquiryCall Chat "TEAMS_WEBHOOK_URL")
    as (message & L & R & _).
  - repeat split; vm_compute; reflexivity.
  - vm_compute; reflexivity.
  - left; reflexivity.
  - vm_compute; reflexivity.
  - exists message. split; [exact L|exact R].
Defined.

(** ** More on strings *)

Lemma trimEnd_idempotent (s : string) : JS.trimEnd (JS.trimEnd s) = JS.trimEnd s.
Proof.
  induction s as [|c r IH]; [reflexivity|].
  cbn [JS.trimEnd]. destruct (JS.trimEnd r) as [|d q] eqn:E.
  - destruct (JS.isWhiteSpace c) eqn:W; [reflexivity|].
    cbn. rewrite W. reflexivity.
  - cbn [JS.trimEnd] in *. rewrite IH. reflexivity.
Qed.

Lemma trim_idempotent (s : string) : JS.trim (JS.trim s) = JS.trim s.
Proof.
  unfold JS.trim.
  destruct (JS.trimStart s) as [|c r] eqn:E; [reflexivity|].
  pose proof (trimStart_head s c r E) as W.
  destruct (trimEnd_head c r W) as (r' & Hr).
  rewrite Hr. cbn [JS.trimStart]. rewrite W, <- Hr.
  apply trimEnd_idempotent.
Qed.

Lemma hasChar_trimStart c s : hasChar c (JS.trimStart s) = true -> hasChar c s = true.
Proof.
  induction s as [|d r IH]; cbn; [auto|].
  destruct (JS.isWhiteSpace d); cbn; [|auto].
  intros H. rewrite (IH H). apply orb_true_r.
Qed.

Lemma hasChar_trimEnd c s : hasChar c (JS.trimEnd s) = true -> hasChar c s = true.
Proof.
  induction s as [|d r IH]; cbn; [auto|].
  destruct (JS.trimEnd r) as [|e q].
  - destruct (JS.isWhiteSpace d); cbn; [discriminate|].
    rewrite orb_false_r. intros ->. reflexivity.
  - cbn [hasChar] in *. intros H. apply orb_true_iff in H as [->|H]; [reflexivity|].
    rewrite (IH H). apply orb_true_r.
Qed.

Lemma hasChar_trim c s : hasChar c s = false -> hasChar c (JS.trim s) = false.
Proof.
  intros H. destruct (hasChar c (JS.trim s)) eqn:E; [|reflexivity].
  apply hasChar_trimEnd, hasChar_trimStart in E. congruence.
Qed.

Lemma splitOn_nonempty sep s : splitOn sep s <> [].
Proof.
  destruct s as [|c r]; cbn; [discriminate|].
  destruct (Ascii.eqb c sep); [discriminate|].
  destruct (splitOn sep r); discriminate.
Qed.

Lemma splitOn_pieces sep s : Forall (fun p => hasChar sep p = false) (splitOn sep s).
Proof.
  induction s as [|c r IH]; cbn.
  - repeat constructor.
  - destruct (Ascii.eqb c sep) eqn:E.
    + constructor; [reflexivity|exact IH].
    + destruct (splitOn sep r) as [|p ps]; [repeat constructor; cbn; rewrite E; reflexivity|].
      inversion IH as [|? ? Hp Hps]; subst.
      constructor; [cbn; rewrite E, Hp; reflexivity|exact Hps].
Qed.


Lemma splitOn_join sep s : JS.join (String sep "") (splitOn sep s) = s.
Proof.
  induction s as [|c r IH]; cbn; [reflexivity|].
  destruct (Ascii.eqb c sep) eqn:E.
  - apply Ascii.eqb_eq in E. subst c.
    pose proof (splitOn_nonempty sep r) as N.
    destruct (splitOn sep r) as [|p ps]; [congruence|].
    rewrite <- IH. reflexivity.
  - destruct (splitOn sep r) as [|p ps] eqn:Er.
    + exfalso. exact (splitOn_nonempty sep r Er).
    + destruct ps as [|p' ps']; cbn in *; rewrite <- IH; reflexivity.
Qed.



Lemma whitespaceOnly_pieces sep s :
  Policy.whitespaceOnly s = true ->
  Forall (fun p => Policy.whitespaceOnly p = true) (splitOn sep s).
Proof.
  induction s as [|c r IH]; cbn; intros H.
  - repeat constructor.
  - apply andb_true_iff in H as [Hc Hr]. specialize (IH Hr).
    destruct (Ascii.eqb c sep).
    + constructor; [reflexivity|exact IH].
    + destruct (splitOn sep r) as [|p ps]; [repeat constructor; cbn; rewrite Hc; reflexivity|].
      inversion IH; subst. constructor; [cbn; rewrite Hc; assumption|assumption].
Qed.

(** ** The description of a ticket *)

(** X1. The document built for the ticket description is always well formed
    for the tracker: it has version 1 and at least one paragraph, every
    paragraph holds exactly one text node, and every text is non-empty,
    carries no blank at either end and contains no line feed. A text made of
    blanks and line feeds only gives the single paragraph "No description
    provided". *)
Theorem adf_document_is_well_formed (text : string) :
  let d := convertTextToAtlassianDocumentFormat text in
  doc_version d = 1
  /\ doc_content d <> []
  /\ Forall (fun p => length (paragraph_content p) = 1%nat) (doc_content d)
  /\ Forall (fun t => t <> "" /\ JS.trim t = t /\ hasChar newline t = false) (docTexts d)
  /\ (Policy.whitespaceOnly text = true -> docTexts d = ["No description provided"]).
Proof.
  cbv zeta. unfold convertTextToAtlassianDocumentFormat, docTexts.
  pose proof (splitOn_pieces newline text) as P.
  pose proof (whitespaceOnly_pieces newline text) as W.
  set (lines := splitOn newline text) in *. clearbody lines.
  revert P W. induction lines as [|l ls IH]; intros P W.
  - cbn. repeat split; try discriminate; repeat constructor; discriminate.
  - inversion P as [|? ? Pl Pls]; subst.
    assert (W' : Policy.whitespaceOnly text = true ->
                 Forall (fun p => Policy.whitespaceOnly p = true) ls).
    { intros H. specialize (W H). inversion W; assumption. }
    specialize (IH Pls W').
    cbn [List.filter]. rewrite trim_eqb_empty.
    destruct (Policy.whitespaceOnly l) eqn:Wl; cbn [negb]; [exact IH|].
    cbn [length Nat.eqb map doc_version doc_content concat paragraph_content text_text app].
    split; [reflexivity|]. split; [discriminate|]. split; [|split].
    + constructor; [reflexivity|].
      apply List.Forall_forall. intros p Hp. apply in_map_iff in Hp as (x & <- & _). reflexivity.
    + constructor.
      { split; [|split].
        - intros E. apply trim_empty in E. congruence.
        - apply trim_idempotent.
        - apply hasChar_trim, Pl. }
      destruct (List.filter _ ls) as [|l' ls'] eqn:F; [constructor|].
      destruct IH as (_ & _ & _ & I4 & _).
      cbn [length Nat.eqb] in I4. exact I4.
    + intros H. specialize (W H). inversion W; subst. congruence.
Qed.

(** ** Recipient lists *)



(** ** [getString] and the validators *)

Lemma stringOfNumber_nonempty n : JS.stringOfNumber n <> "".
Proof.
  destruct (stringOfNumber_head n) as (c & r & -> & _). discriminate.
Qed.

(** X3. The default of [getString] is a value the validators treat as
    missing, and a value they accept is passed through unchanged: for every
    value but the number zero, the text [getString] yields is missing exactly
    when the value is; a value that is not missing is rendered as its own
    text whatever the default; the text yielded with the standard default is
    never empty. *)
Theorem getString_agrees_with_validation (v : option JS.scalar) :
  v <> Some (JS.Num 0) ->
  isMissing (Some (JS.Str (getString v getStringDefault))) = isMissing v
  /\ (forall d, isMissing v = false -> exists x, v = Some x /\ getString v d = JS.toString x)
  /\ getString v getStringDefault <> "".
Proof.
  intros Z. destruct v as [[s|n]|].
  - cbn [getString]. destruct (String.eqb_spec s "") as [->|N].
    + repeat split; [|discriminate]. intros d. cbn. discriminate.
    + repeat split; [|exact N]. intros d _. eauto.
  - assert (Hn : (n =? 0) = false) by (apply Z.eqb_neq; congruence).
    cbn [getString JS.toString]. split; [|split].
    + unfold isMissing. cbn [JS.truthy JS.toString]. rewrite Hn.
      destruct (String.eqb_spec (JS.stringOfNumber n) "") as [E|_]; [|reflexivity].
      destruct (stringOfNumber_nonempty n E).
    + intros d _. eauto.
    + apply stringOfNumber_nonempty.
  - repeat split; [|discriminate]. intros d. cbn. discriminate.
Qed.

Lemma getString_agrees_with_validation_witness :
  isMissing (Some (JS.Str (getString None getStringDefault))) = true
  /\ getString (Some (JS.Num 5551234567)) getStringDefault = "5551234567".
Proof.
  split.
  - apply (proj1 (getString_agrees_with_validation None ltac:(discriminate))).
  - destruct (proj1 (proj2 (getString_agrees_with_validation (Some (JS.Num 5551234567))
                              ltac:(discriminate))) getStringDefault eq_refl)
      as (x & Hx & G).
    injection Hx as <-. exact G.
Defined.

(** The number zero is the exception: [getString] prints it, the
    validators reject it. *)
Example getString_zero :
  getString (Some (JS.Num 0)) getStringDefault = "0"
  /\ isMissing (Some (JS.Num 0)) = true
  /\ isMissing (Some (JS.Str "0")) = false.
Proof. repeat split; reflexivity. Qed.

(** ** Validation and surrounding blanks *)

Lemma isMissing_trim s : isMissing (Some (JS.Str (JS.trim s))) = isMissing (Some (JS.Str s)).
Proof.
  unfold isMissing. cbn [JS.truthy JS.toString]. rewrite !negb_involutive, trim_idempotent.
  destruct (String.eqb_spec s "") as [->|_]; [reflexivity|].
  destruct (String.eqb (JS.trim s) ""); reflexivity.
Qed.

Lemma hasValue_isMissing v : hasValue v = negb (isMissing v).
Proof.
  destruct v as [x|]; [|reflexivity].
  unfold hasValue, isMissing. rewrite !negb_orb, negb_involutive. reflexivity.
Qed.

Lemma isMissing_trimmed_text o :
  isMissing (ofStr (option_map JS.trim o)) = isMissing (ofStr o).
Proof. destruct o as [s|]; [apply isMissing_trim|reflexivity]. Qed.

Lemma isMissing_trimmed_scalar o :
  isMissing (option_map (fun v => match v with
                                  | JS.Str s => JS.Str (JS.trim s)
                                  | JS.Num n => JS.Num n
                                  end) o)
  = isMissing o.
Proof. destruct o as [[s|n]|]; [apply isMissing_trim|reflexivity|reflexivity]. Qed.

(** X4. Both validators judge the contact values up to surrounding blanks:
    trimming the caller name, company name, phone number and email address of
    a call changes neither validation result. *)
Theorem validation_ignores_surrounding_blanks (callId : string) (a : Analysis) :
  validateIrCallData (flatCall callId (trimmedContact a))
  = validateIrCallData (flatCall callId a)
  /\ validateNonIrCallData (flatCall callId (trimmedContact a))
     = validateNonIrCallData (flatCall callId a).
Proof.
  unfold validateIrCallData, validateNonIrCallData, flatCall, analysisOf, trimmedContact,
    flagIsTrue.
  cbn [analysis caller_name company_name caller_phone_number caller_email_address
       is_security_incident].
  rewrite !hasValue_isMissing, !isMissing_trimmed_text, !isMissing_trimmed_scalar.
  split; reflexivity.
Qed.

(** ** The handler: event filter and validation gates *)

Lemma envelope_eta (wp : RetellWebhookPayload) payload :
  String.eqb (event wp) "call_analyzed" = true ->
  call wp = Some payload ->
  wp = {| event := "call_analyzed"; call := Some payload |}.
Proof.
  destruct wp as [e c]. cbn. intros E ->. apply String.eqb_eq in E. subst. reflexivity.
Qed.

Lemma early_return_answer payload config r :
  buildNotificationTasks payload config = EarlyReturn r ->
  status r = 200 /\ success (jsonBody r) = false.
Proof.
  unfold buildNotificationTasks.
  destruct (isIrCall payload).
  - destruct (negb (valid (validateIrCallData payload))); [|discriminate].
    intros [= <-]. split; reflexivity.
  - destruct (isNonIrCall payload); [|discriminate].
    destruct (negb (valid (validateNonIrCallData payload))); [|discriminate].
    intros [= <-]. split; reflexivity.
Qed.

(** The runs of the handler, by the place where they end. *)
Lemma handler_cases w env request :
  let run := RetellWebhookProcessor w env request in
  (fst run = [] /\ (status (snd run) = 500 \/ status (snd run) = 400)
   /\ success (jsonBody (snd run)) = false)
  \/ (exists key signature,
        fst run = [ReadBody; VerifySignature (body request) key signature]
        /\ status (snd run) = 401 /\ success (jsonBody (snd run)) = false)
  \/ (exists key signature,
        fst run = gateTrace request key signature
        /\ status (snd run) = 500 /\ success (jsonBody (snd run)) = false)
  \/ (exists key signature,
        fst run = gateTrace request key signature
        /\ status (snd run) = 200 /\ success (jsonBody (snd run)) = true)
  \/ (exists key signature payload config,
        VerifiedCall w env request key signature payload
        /\ loadConfiguration env = Returns config
        /\ run = match buildNotificationTasks payload config with
                 | EarlyReturn r => (gateTrace request key signature, r)
                 | Queued callType notificationTasks =>
                     ((gateTrace request key signature
                       ++ dispatchTrace w payload config notificationTasks)%list,
                      processedResponse w payload config callType notificationTasks)
                 end).
Proof.
  cbv zeta.
  destruct (whenTruthy (env !! "RETELL_API_KEY")) as [key|] eqn:H1.
  2:{ left. rewrite handler_no_secret by exact H1. cbn. auto. }
  destruct (whenTruthy (headers request !! "x-retell-signature")) as [signature|] eqn:H2.
  2:{ left. rewrite (handler_no_signature _ _ _ key) by assumption. cbn. auto. }
  destruct (Retell_verify w (body request) key signature) eqn:H3.
  2:{ right. left. exists key, signature.
      rewrite (handler_bad_signature _ _ _ key signature) by assumption. cbn. auto. }
  destruct (handler_parsed w env request key signature H1 H2 H3) as (rest & response & E & H).
  destruct (JSON_parse w (body request)) as [wp|e] eqn:P.
  2:{ destruct H as [-> ->]. right. right. left. exists key, signature.
      rewrite E, app_nil_r. cbn. auto. }
  destruct (String.eqb (event wp) "call_analyzed") eqn:Ev; cbn [negb] in H.
  2:{ destruct H as [-> ->]. right. right. right. left. exists key, signature.
      rewrite E, app_nil_r. cbn. auto. }
  destruct (call wp) as [payload|] eqn:C.
  2:{ destruct H as (-> & S & F). right. right. left. exists key, signature.
      rewrite E, app_nil_r. cbn. auto. }
  destruct (loadConfiguration env) as [config|e] eqn:L.
  2:{ destruct H as [-> ->]. right. right. left. exists key, signature.
      rewrite E, app_nil_r. cbn. auto. }
  right. right. right. right. exists key, signature, payload, config.
  assert (V : VerifiedCall w env request key signature payload).
  { repeat split; try assumption. rewrite P. f_equal. apply envelope_eta; assumption. }
  split; [exact V|]. split; [reflexivity|].
  apply (handler_dispatch w env request key signature payload config V L).
Qed.

(** X5. Event filter. A verified request whose event is anything but
    [call_analyzed] (the comparison is exact) is acknowledged with 200 and
    [success: true]; the configuration is not even loaded, so this holds in a
    misconfigured deployment too, and nothing but the three gate calls
    happens. *)
Theorem other_events_are_acknowledged w env request key signature webhookPayload :
  whenTruthy (env !! "RETELL_API_KEY") = Some key ->
  whenTruthy (headers request !! "x-retell-signature") = Some signature ->
  Retell_verify w (body request) key signature = true ->
  JSON_parse w (body request) = Returns webhookPayload ->
  event webhookPayload <> "call_analyzed" ->
  RetellWebhookProcessor w env request
  = (gateTrace request key signature,
     {| status := 200;
        jsonBody := MessageBody ("Event type " +:+ event webhookPayload
                                 +:+ " acknowledged but not processed") |}).
Proof.
  intros H1 H2 H3 P N.
  destruct (handler_parsed w env request key signature H1 H2 H3) as (rest & response & E & H).
  rewrite P in H.
  destruct (String.eqb_spec (event webhookPayload) "call_analyzed") as [Ev|_]; [congruence|].
  cbn [negb] in H. destruct H as [-> ->]. rewrite E, app_nil_r. reflexivity.
Qed.

Lemma other_events_are_acknowledged_witness :
  RetellWebhookProcessor Sample.worldStarted Sample.envChatUnconfigured Sample.request
  = (gateTrace Sample.request Sample.secret Sample.signature,
     {| status := 200;
        jsonBody := MessageBody "Event type call_started acknowledged but not processed" |}).
Proof.
  apply (other_events_are_acknowledged Sample.worldStarted Sample.envChatUnconfigured
           Sample.request Sample.secret Sample.signature
           {| event := "call_started"; call := None |});
    try (vm_compute; reflexivity).
  discriminate.
Defined.

Lemma incident_plan payload config :
  classify payload = Incident ->
  buildNotificationTasks payload config
  = if negb (valid (validateIrCallData payload)) then
      EarlyReturn
        {| status := 200;
           jsonBody := SkippedBody "IR call processing skipped - missing required data"
                         (missingFields (validateIrCallData payload)) (call_id payload) |}
    else
      Queued "IR"
        (pushTask (enableSms (featureFlags config)) SmsTask
          (pushTask (enableTeams (featureFlags config)) ChatTask
            (pushTask (enableEmail (featureFlags config)) IncidentEmailTask
              (pushTask (enableJira (featureFlags config)) TicketTask [])))).
Proof.
  unfold classify, buildNotificationTasks.
  destruct (isIrCall payload); [reflexivity|].
  destruct (isNonIrCall payload); discriminate.
Qed.




(** X7. An incident recognised by its description alone is never
    dispatched: when the flag is not exactly true, the call is answered with
    the skipped outcome whose first missing field is the confirmation of the
    incident, however complete the contact data are. *)
Theorem incident_without_flag_is_skipped w env request key signature payload config :
  VerifiedCall w env request key signature payload ->
  loadConfiguration env = Returns config ->
  isIrCall payload = true ->
  is_security_incident (analysisOf payload) <> Some true ->
  exists rest,
    RetellWebhookProcessor w env request
    = (gateTrace request key signature,
       {| status := 200;
          jsonBody :=
            SkippedBody "IR call processing skipped - missing required data"
              ("confirmed security incident (is_security_incident must be true)" :: rest)
              (call_id payload) |}).
Proof.
  intros V L I N.
  assert (F : flagIsTrue (analysisOf payload) = false).
  { unfold flagIsTrue. destruct (is_security_incident (analysisOf payload)) as [[|]|];
      congruence. }
  assert (C : classify payload = Incident) by (unfold classify; rewrite I; reflexivity).
  rewrite (handler_dispatch w env request key signature payload config V L).
  rewrite (incident_plan payload config C).
  rewrite (incident_validation_needs_flag payload F). cbn [negb].
  unfold validateIrCallData, pushIf. rewrite F. cbn [negb app missingFields].
  destruct (isMissing (ofStr (caller_name _))), (isMissing (ofStr (company_name _))),
    (isMissing (caller_phone_number _)); eexists; reflexivity.
Qed.

Lemma incident_without_flag_is_skipped_witness :
  exists rest,
    RetellWebhookProcessor Cases.worldDescribedOnly Sample.envAllOn Sample.request
    = (gateTrace Sample.request Sample.secret Sample.signature,
       {| status := 200;
          jsonBody :=
            SkippedBody "IR call processing skipped - missing required data"
              ("confirmed security incident (is_security_incident must be true)" :: rest)
              "call_G" |}).
Proof.
  assert (V : VerifiedCall Cases.worldDescribedOnly Sample.envAllOn Sample.request
                Sample.secret Sample.signature Cases.describedOnlyCall)
    by (repeat split; vm_compute; reflexivity).
  eassert (E : loadConfiguration Sample.envAllOn = Returns _) by (vm_compute; reflexivity).
  apply (incident_without_flag_is_skipped _ _ _ _ _ _ _ V E); [reflexivity|discriminate].
Defined.

(** ** What a run of the handler can and cannot do *)

Lemma gate_events_have_no_channel request key signature ev :
  In ev (gateTrace request key signature) -> eventChannel ev = None.
Proof. intros [<-|[<-|[<-|[]]]]; reflexivity. Qed.

Lemma queued_after_validation payload config callType notificationTasks :
  buildNotificationTasks payload config = Queued callType notificationTasks ->
  classify payload = Unclassified \/ valid (validationFor payload) = true.
Proof.
  intros B. unfold validationFor. destruct (classify payload) eqn:C; [| |auto].
  - rewrite (incident_plan payload config C) in B.
    destruct (valid (validateIrCallData payload)); [auto|discriminate].
  - rewrite (inquiry_plan payload config C) in B.
    destruct (valid (validateNonIrCallData payload)); [auto|discriminate].
Qed.

(** X8. Notifications need an authenticated event. Every call to a channel
    collaborator that occurs in a run was made by a queued task of a request
    with secret and signature present, a signature that verified against the
    raw body, an event of kind [call_analyzed], a configuration that loaded,
    and a call that passed the validation of its path or was Unclassified. *)
Theorem channel_calls_need_verification w env request ev :
  In ev (fst (RetellWebhookProcessor w env request)) ->
  eventChannel ev <> None ->
  exists key signature payload config callType notificationTasks task,
    VerifiedCall w env request key signature payload
    /\ loadConfiguration env = Returns config
    /\ (classify payload = Unclassified \/ valid (validationFor payload) = true)
    /\ buildNotificationTasks payload config = Queued callType notificationTasks
    /\ In task notificationTasks
    /\ In ev (fst (startTask w payload config task)).
Proof.
  intros Hin Hch.
  destruct (handler_cases w env request)
    as [(E & _)|[(k & s & E & _)|[(k & s & E & _)|[(k & s & E & _)|
        (k & s & payload & config & V & L & E)]]]].
  - rewrite E in Hin. destruct Hin.
  - rewrite E in Hin. destruct Hin as [<-|[<-|[]]]; cbn in Hch; congruence.
  - rewrite E in Hin. apply gate_events_have_no_channel in Hin. congruence.
  - rewrite E in Hin. apply gate_events_have_no_channel in Hin. congruence.
  - cbv zeta in E. rewrite E in Hin.
    destruct (buildNotificationTasks payload config) as [r|ct tasks] eqn:B; cbn [fst] in Hin.
    + apply gate_events_have_no_channel in Hin. congruence.
    + apply in_app_iff in Hin as [Hin|Hin].
      { apply gate_events_have_no_channel in Hin. congruence. }
      apply in_dispatchTrace in Hin as (task & Ht & Hev).
      exists k, s, payload, config, ct, tasks, task.
      repeat split; try assumption; try apply V.
      apply (queued_after_validation payload config ct tasks B).
Qed.

Lemma channel_calls_need_verification_witness :
  exists key signature payload config callType notificationTasks task,
    VerifiedCall Sample.worldSilent Sample.envSms Sample.request key signature payload
    /\ loadConfiguration Sample.envSms = Returns config
    /\ (classify payload = Unclassified \/ valid (validationFor payload) = true)
    /\ buildNotificationTasks payload config = Queued callType notificationTasks
    /\ In task notificationTasks
    /\ In (SmsCreate "+15550001" "+15550002") (fst (startTask Sample.worldSilent payload config task)).
Proof.
  apply (channel_calls_need_verification Sample.worldSilent Sample.envSms Sample.request
           (SmsCreate "+15550001" "+15550002")).
  - vm_compute. auto.
  - discriminate.
Defined.

(** X9. Errors come before any notification. The handler answers 200, 400,
    401 or 500; [success: true] only goes with 200; and a run that answers
    anything but 200 has called no channel, so that a sender who repeats a
    request after an error answer cannot cause a notification twice. *)
Theorem errors_precede_dispatch w env request :
  let run := RetellWebhookProcessor w env request in
  (status (snd run) = 200 \/ status (snd run) = 400
   \/ status (snd run) = 401 \/ status (snd run) = 500)
  /\ (success (jsonBody (snd run)) = true -> status (snd run) = 200)
  /\ (status (snd run) <> 200 -> forall ev, In ev (fst run) -> eventChannel ev = None).
Proof.
  cbv zeta.
  destruct (handler_cases w env request)
    as [(E & S & F)|[(k & s & E & S & F)|[(k & s & E & S & F)|[(k & s & E & S & F)|
        (k & s & payload & config & V & L & E)]]]].
  - rewrite E, F. split; [tauto|]. split; [discriminate|]. intros _ ev [].
  - rewrite E, F, S. split; [tauto|]. split; [discriminate|].
    intros _ ev [<-|[<-|[]]]; reflexivity.
  - rewrite E, F, S. split; [tauto|]. split; [discriminate|].
    intros _ ev. apply gate_events_have_no_channel.
  - rewrite E, S. split; [tauto|]. split; [reflexivity|]. congruence.
  - cbv zeta in E. rewrite E.
    destruct (buildNotificationTasks payload config) as [r|ct tasks] eqn:B; cbn [fst snd].
    + destruct (early_return_answer payload config r B) as [S F]. rewrite S, F.
      split; [tauto|]. split; [discriminate|]. congruence.
    + cbn. split; [tauto|]. split; [reflexivity|]. congruence.
Qed.

Lemma errors_precede_dispatch_witness :
  status (snd (RetellWebhookProcessor Cases.worldBadJson Sample.envAllOn Sample.request)) = 500
  /\ Forall (fun ev => eventChannel ev = None)
       (fst (RetellWebhookProcessor Cases.worldBadJson Sample.envAllOn Sample.request)).
Proof.
  split; [vm_compute; reflexivity|].
  apply List.Forall_forall.
  apply (proj2 (proj2 (errors_precede_dispatch Cases.worldBadJson Sample.envAllOn
                         Sample.request))).
  vm_compute. discriminate.
Defined.

(** ** Validation and classification together *)

Lemma valid_incident_has_flag payload :
  valid (validateIrCallData payload) = true -> flagIsTrue (analysisOf payload) = true.
Proof.
  intros V. destruct (flagIsTrue (analysisOf payload)) eqn:F; [reflexivity|].
  rewrite (incident_validation_needs_flag payload F) in V. discriminate.
Qed.

Lemma valid_inquiry_has_no_flag payload :
  valid (validateNonIrCallData payload) = true -> flagIsTrue (analysisOf payload) = false.
Proof.
  unfold validateNonIrCallData, pushIf.
  destruct (flagIsTrue (analysisOf payload)); [|reflexivity].
  cbn [app].
  destruct (isMissing (ofStr (caller_name _))),
    (negb (hasValue (caller_phone_number _)) && negb (hasValue (ofStr (caller_email_address _))));
    discriminate.
Qed.

(** X10. The two validations exclude each other and Incident validation
    settles the classification: no call passes both; a call that passes
    Incident validation is classified Incident and is not a non-IR call; a
    call that passes Inquiry validation but carries an incident description
    is classified Incident all the same (and then fails Incident
    validation). *)
Theorem validators_exclude_each_other (payload : RetellCallObject) :
  valid (validateIrCallData payload) && valid (validateNonIrCallData payload) = false
  /\ (valid (validateIrCallData payload) = true ->
      classify payload = Incident /\ isNonIrCall payload = false)
  /\ (valid (validateNonIrCallData payload) = true ->
      isIrCall payload = true ->
      classify payload = Incident /\ valid (validateIrCallData payload) = false).
Proof.
  split; [|split].
  - destruct (valid (validateIrCallData payload)) eqn:A; [|reflexivity].
    destruct (valid (validateNonIrCallData payload)) eqn:B; [|reflexivity].
    apply valid_incident_has_flag in A. apply valid_inquiry_has_no_flag in B. congruence.
  - intros A. apply valid_incident_has_flag in A.
    unfold classify, isIrCall, isNonIrCall. rewrite A, orb_true_r. auto.
  - intros B I. apply valid_inquiry_has_no_flag in B.
    split; [unfold classify; rewrite I; reflexivity|].
    apply incident_validation_needs_flag, B.
Qed.

Lemma validators_exclude_each_other_witness :
  classify Sample.incidentCall = Incident /\ isNonIrCall Sample.incidentCall = false.
Proof.
  apply (proj1 (proj2 (validators_exclude_each_other Sample.incidentCall))). reflexivity.
Defined.

(** X11. The re-validation inside the tasks is redundant on the Incident and
    Inquiry paths: every task queued for a call that is not Unclassified
    passes its own check, so a task can only skip its work on the
    Unclassified path. *)
Theorem queued_tasks_do_not_skip payload config callType notificationTasks task :
  buildNotificationTasks payload config = Queued callType notificationTasks ->
  classify payload <> Unclassified ->
  In task notificationTasks ->
  skipsItsWork payload task = false.
Proof.
  intros B K Hin.
  destruct (queued_after_validation payload config callType notificationTasks B) as [U|V];
    [congruence|].
  unfold validationFor in V. destruct (classify payload) eqn:C; [| |congruence].
  - destruct task; cbn [skipsItsWork]; rewrite ?V; try reflexivity.
    rewrite (incident_plan payload config C), V in B. cbn [negb] in B.
    injection B as _ <-. apply in_incident_queue in Hin as [N _]. congruence.
  - rewrite (inquiry_plan payload config C), V in B. cbn [negb] in B.
    injection B as _ <-. destruct Hin as [<-|[]]. cbn [skipsItsWork]. rewrite V. reflexivity.
Qed.

Lemma queued_tasks_do_not_skip_witness :
  skipsItsWork Sample.incidentCall TicketTask = false.
Proof.
  eassert (E : loadConfiguration Sample.envAllOn = Returns _) by (vm_compute; reflexivity).
  match type of E with
  | _ = Returns ?config =>
      apply (queued_tasks_do_not_skip Sample.incidentCall config "IR"
               [TicketTask; IncidentEmailTask; ChatTask; SmsTask] TicketTask)
  end.
  - vm_compute. reflexivity.
  - discriminate.
  - left. reflexivity.
Defined.

(** X12. What [notifications_attempted] is worth. For an Incident or Inquiry
    call the answer marks a channel as attempted exactly when a task of that
    channel was queued; for an Unclassified call it marks no channel at all,
    whatever was queued and run. *)
Theorem attempted_matches_queue
    w env request key signature payload config callType notificationTasks :
  VerifiedCall w env request key signature payload ->
  loadConfiguration env = Returns config ->
  buildNotificationTasks payload config = Queued callType notificationTasks ->
  exists attempted outcome,
    jsonBody (snd (RetellWebhookProcessor w env request))
    = ProcessedBody "Webhook processed successfully" (call_id payload) callType
        attempted outcome
    /\ total outcome = length notificationTasks
    /\ (classify payload <> Unclassified ->
        forall c, attemptedOn attempted c = true
                  <-> exists task, In task notificationTasks /\ taskChannel task = c)
    /\ (classify payload = Unclassified -> forall c, attemptedOn attempted c = false).
Proof.
  intros V L B.
  rewrite (handler_dispatch w env request key signature payload config V L), B.
  unfold processedResponse. cbn [snd jsonBody]. eexists _, _. split; [reflexivity|].
  split; [cbn; apply length_map|]. split.
  - intros K c.
    destruct (queued_after_validation payload config callType notificationTasks B) as [U|Va];
      [congruence|].
    unfold validationFor in Va. destruct (classify payload) eqn:C; [| |congruence].
    + pose proof (valid_incident_has_flag payload Va) as F.
      assert (I : isIrCall payload = true) by (unfold isIrCall; rewrite F; apply orb_true_r).
      assert (N : isNonIrCall payload = false) by (unfold isNonIrCall; rewrite F; reflexivity).
      rewrite (incident_plan payload config C), Va in B. cbn [negb] in B.
      injection B as _ <-. rewrite I, N.
      destruct c; cbn [attemptedOn attempted_jira attempted_email attempted_teams
                       attempted_sms andb orb]; rewrite ?orb_false_r; split.
      all: try (intros E;
                (exists TicketTask + exists IncidentEmailTask
                 + exists ChatTask + exists SmsTask);
                (split; [apply in_incident_queue; split; [discriminate|exact E]|reflexivity]);
                fail).
      all: intros (task & Ht & Hc); apply in_incident_queue in Ht as [Ne En];
        destruct task; try discriminate; try congruence; exact En.
    + assert (I : isIrCall payload = false).
      { unfold classify in C. destruct (isIrCall payload); [discriminate|reflexivity]. }
      assert (N : isNonIrCall payload = true).
      { unfold classify in C. rewrite I in C.
        destruct (isNonIrCall payload); [reflexivity|discriminate]. }
      rewrite (inquiry_plan payload config C), Va in B. cbn [negb] in B.
      injection B as _ <-. rewrite I, N.
      destruct c; cbn [attemptedOn attempted_jira attempted_email attempted_teams
                       attempted_sms andb orb]; rewrite ?orb_true_r; split;
        try discriminate;
        try (intros (task & [<-|[]] & Hc); discriminate).
      * intros _. exists InquiryEmailTask. split; [left|]; reflexivity.
      * reflexivity.
  - intros U c.
    assert (I : isIrCall payload = false).
    { unfold classify in U. destruct (isIrCall payload); [discriminate|reflexivity]. }
    assert (N : isNonIrCall payload = false).
    { unfold classify in U. rewrite I in U.
      destruct (isNonIrCall payload); [discriminate|reflexivity]. }
    rewrite I, N. destruct c; reflexivity.
Qed.

Lemma attempted_matches_queue_witness :
  exists attempted outcome,
    jsonBody (snd (RetellWebhookProcessor Sample.worldSilent Sample.envSms Sample.request))
    = ProcessedBody "Webhook processed successfully" "call_U"
        "UNCLASSIFIED (defaulting to IR)" attempted outcome
    /\ total outcome = 1%nat
    /\ attemptedOn attempted Sms = false.
Proof.
  assert (V : VerifiedCall Sample.worldSilent Sample.envSms Sample.request
                Sample.secret Sample.signature Sample.silentCall)
    by (repeat split; vm_compute; reflexivity).
  eassert (E : loadConfiguration Sample.envSms = Returns _) by (vm_compute; reflexivity).
  destruct (attempted_matches_queue _ _ _ _ _ _ _ "UNCLASSIFIED (defaulting to IR)"
              [SmsTask] V E) as (a & o & H1 & H2 & _ & H3).
  - vm_compute. reflexivity.
  - exists a, o. split; [exact H1|]. split; [exact H2|]. apply H3. reflexivity.
Defined.

(** ** The tasks one by one *)

Lemma flat_reader_fails w payload config task :
  analysis payload = None -> readsFlatAnalysis task = true ->
  fst (startTask w payload config task) = []
  /\ isRejected (settled (startTask w payload config task)) = true.
Proof.
  intros A R. destruct task; try discriminate; cbn [startTask].
  - unfold sendTeamsMessage. rewrite A. split; reflexivity.
  - unfold sendSms, settled. rewrite A. destruct (twilioClient w); split; reflexivity.
Qed.

Lemma count_rejected {A} (f : A -> PromiseSettledResult) (p : A -> bool) (l : list A) :
  (forall x, In x l -> p x = true -> isRejected (f x) = true) ->
  (length (List.filter p l) <= length (List.filter isRejected (map f l)))%nat.
Proof.
  induction l as [|x xs IH]; intros H; [reflexivity|].
  cbn [List.filter map].
  assert (IH' := IH (fun y Hy => H y (or_intror Hy))).
  destruct (p x) eqn:P.
  - rewrite (H x (or_introl eq_refl) P). cbn [length]. lia.
  - destruct (isRejected (f x)); cbn [length]; lia.
Qed.

(** X13. Chat and SMS read [payload.analysis] without the fallback to
    [call_analysis.custom_analysis_data] the other tasks use. For a verified
    call that carries its data only in the nested shape, every queued chat or
    SMS task rejects before it calls its channel: the answer counts at least
    that many failures, and no chat post and no SMS request is made. *)
Theorem chat_and_sms_need_flat_analysis
    w env request key signature payload config callType notificationTasks :
  VerifiedCall w env request key signature payload ->
  loadConfiguration env = Returns config ->
  buildNotificationTasks payload config = Queued callType notificationTasks ->
  analysis payload = None ->
  (forall task, In task notificationTasks -> readsFlatAnalysis task = true ->
     fst (startTask w payload config task) = []
     /\ isRejected (settled (startTask w payload config task)) = true)
  /\ (exists attempted outcome,
        jsonBody (snd (RetellWebhookProcessor w env request))
        = ProcessedBody "Webhook processed successfully" (call_id payload) callType
            attempted outcome
        /\ (length (List.filter readsFlatAnalysis notificationTasks) <= failed outcome)%nat)
  /\ (forall ev, In ev (fst (RetellWebhookProcessor w env request)) ->
        eventChannel ev <> Some Chat /\ eventChannel ev <> Some Sms).
Proof.
  intros V L B A. split; [|split].
  - intros task _ R. apply (flat_reader_fails w payload config task A R).
  - rewrite (handler_dispatch w env request key signature payload config V L), B.
    unfold processedResponse. cbn [snd jsonBody]. eexists _, _. split; [reflexivity|].
    cbn [failed statusOf].
    apply (count_rejected (fun task => settled (startTask w payload config task))).
    intros task _ R. apply (flat_reader_fails w payload config task A R).
  - intros ev Hin.
    rewrite (handler_dispatch w env request key signature payload config V L), B in Hin.
    cbn [fst] in Hin. apply in_app_iff in Hin as [Hin|Hin].
    + destruct Hin as [<-|[<-|[<-|[]]]]; split; discriminate.
    + apply in_dispatchTrace in Hin as (task & Ht & Hev).
      destruct (readsFlatAnalysis task) eqn:R.
      * rewrite (proj1 (flat_reader_fails w payload config task A R)) in Hev. destruct Hev.
      * pose proof (task_events w payload config task) as Ev.
        rewrite List.Forall_forall in Ev. specialize (Ev ev Hev).
        destruct task, ev; try discriminate; split; discriminate.
Qed.

Lemma chat_and_sms_need_flat_analysis_witness :
  exists attempted outcome,
    jsonBody (snd (RetellWebhookProcessor Cases.worldNested Sample.envAllOn Sample.request))
    = ProcessedBody "Webhook processed successfully" "call_A" "IR" attempted outcome
    /\ (2 <= failed outcome)%nat.
Proof.
  assert (V : VerifiedCall Cases.worldNested Sample.envAllOn Sample.request
                Sample.secret Sample.signature Sample.incidentCall)
    by (repeat split; vm_compute; reflexivity).
  eassert (E : loadConfiguration Sample.envAllOn = Returns _) by (vm_compute; reflexivity).
  destruct (chat_and_sms_need_flat_analysis _ _ _ _ _ _ _ "IR"
              [TicketTask; IncidentEmailTask; ChatTask; SmsTask] V E)
    as (_ & (a & o & H1 & H2) & _).
  - vm_compute. reflexivity.
  - reflexivity.
  - exists a, o. split; [exact H1|exact H2].
Defined.

(** X14. No task repeats a delivery. Whatever the collaborators answer, a
    task asks for its own delivery (ticket request, incident mail, chat post,
    SMS, inquiry mail) at most once, and at most one alert mail about a
    failed ticket request is handed to a provider, although the ticket task
    has two places that send it. *)
Theorem no_task_repeats_a_call w payload config task :
  (length (List.filter (deliveryOf task) (fst (startTask w payload config task))) <= 1)%nat
  /\ (length (List.filter isAlertSend (fst (startTask w payload config task))) <= 1)%nat.
Proof.
  split; destruct task; run_task; cbn; lia.
Qed.

(** The mail client can be asked for twice by one ticket task: the second
    alert attempt follows a first one that failed to build the client. *)
Example alert_client_built_twice :
  exists config,
    loadConfiguration Cases.envAzure = Returns config
    /\ List.filter (fun ev => match ev with NewEmailClient _ _ => true | _ => false end)
         (fst (startTask Cases.worldRefusedNoClient Cases.flatIncidentCall config TicketTask))
       = [NewEmailClient TicketFailureAlert (azureEmail_connectionString (azureEmail config));
          NewEmailClient TicketFailureAlert (azureEmail_connectionString (azureEmail config))].
Proof. eexists. split; vm_compute; reflexivity. Qed.

(** ** When every collaborator answers well *)

Lemma healthy_task w payload config task :
  healthy w -> analysis payload <> None -> skipsItsWork payload task = false ->
  snd (startTask w payload config task) = Returns tt
  /\ length (List.filter (deliveryOf task) (fst (startTask w payload config task))) = 1%nat
  /\ List.filter isAlertSend (fst (startTask w payload config task)) = [].
Proof.
  intros ((st & stText & text & J) & (st' & stText' & text' & json' & T) & C & M & K & S) A Sk.
  destruct task; cbn [skipsItsWork] in Sk; try apply negb_false_iff in Sk;
    unfold startTask, createJiraTicketViaApi, jiraTryBlock, sendEmail, sendEmailViaAzure,
      sendEmailViaSendGrid, sendTeamsMessage, sendSms, sendNonIrEmail, new_EmailClient,
      sgMail_send, emailClient_send;
    rewrite ?Sk, ?J, ?T, ?C, ?K, ?S, ?M; cbn [negb].
  - repeat split.
  - destruct (emailProvider config); rewrite ?Sk, ?C, ?M; cbn [negb]; repeat split.
  - destruct (analysis payload); [repeat split|congruence].
  - destruct (analysis payload); [repeat split|congruence].
  - destruct (emailProvider config); rewrite ?C, ?M; repeat split.
Qed.

(** X15. With every collaborator answering well, an Incident or Inquiry
    call in the flat shape is delivered in full: every queued task fulfils,
    makes its delivery call exactly once and sends no alert mail, and the
    answer reports [total = successful], [failed = 0]. *)
Theorem healthy_dispatch_succeeds
    w env request key signature payload config callType notificationTasks :
  VerifiedCall w env request key signature payload ->
  loadConfiguration env = Returns config ->
  buildNotificationTasks payload config = Queued callType notificationTasks ->
  classify payload <> Unclassified ->
  analysis payload <> None ->
  healthy w ->
  (forall task, In task notificationTasks ->
     settled (startTask w payload config task) = fulfilled
     /\ length (List.filter (deliveryOf task) (fst (startTask w payload config task))) = 1%nat
     /\ List.filter isAlertSend (fst (startTask w payload config task)) = [])
  /\ exists attempted,
       snd (RetellWebhookProcessor w env request)
       = {| status := 200;
            jsonBody :=
              ProcessedBody "Webhook processed successfully" (call_id payload) callType
                attempted
                {| total := length notificationTasks;
                   successful := length notificationTasks;
                   failed := 0 |} |}.
Proof.
  intros V L B K A H.
  assert (T : forall task, In task notificationTasks ->
            settled (startTask w payload config task) = fulfilled
            /\ length (List.filter (deliveryOf task) (fst (startTask w payload config task)))
               = 1%nat
            /\ List.filter isAlertSend (fst (startTask w payload config task)) = []).
  { intros task Hin.
    assert (Sk : skipsItsWork payload task = false).
    { destruct (skipsItsWork payload task) eqn:Sk; [|reflexivity].
      destruct (classify payload) eqn:C; [| |congruence].
      - rewrite (incident_plan payload config C) in B.
        destruct (valid (validateIrCallData payload)) eqn:Va; [|discriminate].
        cbn [negb] in B. injection B as _ <-. apply in_incident_queue in Hin as [N _].
        destruct task; cbn [skipsItsWork] in Sk; rewrite ?Va in Sk;
          try discriminate; congruence.
      - rewrite (inquiry_plan payload config C) in B.
        destruct (valid (validateNonIrCallData payload)) eqn:Va; [|discriminate].
        cbn [negb] in B. injection B as _ <-. destruct Hin as [<-|[]].
        cbn [skipsItsWork] in Sk. rewrite Va in Sk. discriminate. }
    destruct (healthy_task w payload config task H A Sk) as (R & D & Al).
    unfold settled. rewrite R. auto. }
  split; [exact T|].
  rewrite (handler_dispatch w env request key signature payload config V L), B.
  unfold processedResponse. cbn [snd]. eexists. f_equal. f_equal.
  assert (E : map (fun task => settled (startTask w payload config task)) notificationTasks
              = map (fun _ => fulfilled) notificationTasks).
  { apply map_ext_in. intros task Hin. apply (T task Hin). }
  rewrite E. unfold statusOf. clear. 
  induction notificationTasks as [|t ts IH]; [reflexivity|].
  cbn in *. injection IH as I1 I2 I3. rewrite I1, I2, I3. reflexivity.
Qed.

Lemma healthy_dispatch_succeeds_witness :
  exists attempted,
    snd (RetellWebhookProcessor Cases.worldFlat Sample.envAllOn Sample.request)
    = {| status := 200;
         jsonBody :=
           ProcessedBody "Webhook processed successfully" "call_H" "IR" attempted
             {| total := 4; successful := 4; failed := 0 |} |}.
Proof.
  assert (V : VerifiedCall Cases.worldFlat Sample.envAllOn Sample.request
                Sample.secret Sample.signature Cases.flatIncidentCall)
    by (repeat split; vm_compute; reflexivity).
  eassert (E : loadConfiguration Sample.envAllOn = Returns _) by (vm_compute; reflexivity).
  destruct (healthy_dispatch_succeeds _ _ _ _ _ _ _ "IR"
              [TicketTask; IncidentEmailTask; ChatTask; SmsTask] V E) as (_ & a & H).
  - vm_compute. reflexivity.
  - discriminate.
  - discriminate.
  - repeat split; try reflexivity.
    + eexists _, _, _. vm_compute. reflexivity.
    + eexists _, _, _, _. vm_compute. reflexivity.
  - exists a. exact H.
Defined.

(** ** Configuration *)

Lemma loadConfiguration_returns env config :
  loadConfiguration env = Returns config ->
  List.filter (envMissing env) (requiredEnvVars env) = []
  /\ emailProvider config = emailProviderOf env
  /\ forall c, channelEnabled (featureFlags config) c = envIs env (channelSwitch c) "true".
Proof.
  unfold loadConfiguration.
  destruct (List.filter (envMissing env) (requiredEnvVars env)) as [|x xs]; [|discriminate].
  cbn [length Nat.ltb Nat.leb]. intros [= <-].
  split; [reflexivity|]. split; [reflexivity|]. intros []; reflexivity.
Qed.

Lemma filter_nil_iff {A} (p : A -> bool) (l : list A) :
  List.filter p l = [] <-> forall x, In x l -> p x = false.
Proof.
  induction l as [|y ys IH]; cbn.
  - split; [intros _ x []|reflexivity].
  - destruct (p y) eqn:P; split.
    + discriminate.
    + intros H. specialize (H y (or_introl eq_refl)). congruence.
    + intros H x [<-|Hin]; [exact P|]. apply IH; assumption.
    + intros H. apply IH. intros x Hin. apply H. auto.
Qed.

Lemma envMissing_false (env : gmap string string) (v : string) :
  envMissing env v = false <-> exists s, env !! v = Some s /\ s <> "".
Proof.
  unfold envMissing, JS.truthyStr. destruct (env !! v) as [s|]; cbn.
  - rewrite negb_false_iff, negb_true_iff, String.eqb_neq. split.
    + intros H. exists s. auto.
    + intros (s' & [= <-] & H). exact H.
  - split; [discriminate|]. intros (s & H & _). discriminate.
Qed.

Lemma orDefault_present (env : gmap string string) (v s d : string) :
  env !! v = Some s -> s <> "" -> JS.orDefault (env !! v) d = s.
Proof.
  intros -> N. cbn. apply String.eqb_neq in N. rewrite N. reflexivity.
Qed.

Lemma in_requiredEnvVars env varName :
  In varName (requiredEnvVars env)
  <-> exists c, envIs env (channelSwitch c) "true" = true
                /\ In varName (channelVariables (emailProviderOf env) c).
Proof.
  split.
  - unfold requiredEnvVars. rewrite !in_app_iff. intros [H|[H|[H|H]]].
    + exists Email. cbn [channelSwitch channelVariables].
      destruct (envIs env "ENABLE_EMAIL_NOTIFICATIONS" "true"); [auto|destruct H].
    + exists Chat. cbn [channelSwitch channelVariables].
      destruct (envIs env "ENABLE_TEAMS_NOTIFICATIONS" "true"); [auto|destruct H].
    + exists Sms. cbn [channelSwitch channelVariables].
      destruct (envIs env "ENABLE_SMS_NOTIFICATIONS" "true"); [auto|destruct H].
    + exists Ticketing. cbn [channelSwitch channelVariables].
      destruct (envIs env "ENABLE_JIRA_NOTIFICATIONS" "true"); [auto|destruct H].
  - intros (c & Hon & Hin). apply (channel_variable_required env c varName Hon Hin).
Qed.

(** X16. When the configuration loads. [loadConfiguration] returns exactly
    when every variable of every switched-on channel is set and not empty (so
    always when no switch is on); the configuration it returns carries the
    switches as its flags and the provider chosen by [EMAIL_PROVIDER]. *)
Theorem loadConfiguration_succeeds_iff (env : gmap string string) :
  ((exists config, loadConfiguration env = Returns config)
   <-> forall c varName,
         envIs env (channelSwitch c) "true" = true ->
         In varName (channelVariables (emailProviderOf env) c) ->
         exists s, env !! varName = Some s /\ s <> "")
  /\ (forall config, loadConfiguration env = Returns config ->
        emailProvider config = emailProviderOf env
        /\ forall c, channelEnabled (featureFlags config) c
                     = envIs env (channelSwitch c) "true").
Proof.
  split.
  - split.
    + intros (config & L) c varName Hon Hin.
      apply loadConfiguration_returns in L as (F & _).
      apply envMissing_false. rewrite filter_nil_iff in F. apply F.
      apply in_requiredEnvVars. eauto.
    + intros H.
      assert (F : List.filter (envMissing env) (requiredEnvVars env) = []).
      { apply filter_nil_iff. intros x Hin. apply in_requiredEnvVars in Hin as (c & Hon & Hin).
        apply envMissing_false. eauto. }
      unfold loadConfiguration. rewrite F. cbn [length Nat.ltb Nat.leb]. eauto.
  - intros config L. apply loadConfiguration_returns in L as (_ & P & Fl). auto.
Qed.

(** X17. What a loaded configuration holds for a channel that is on: the
    values of that channel's variables as they stand in the environment, none
    of them empty and none replaced by a default. *)
Theorem loaded_configuration_is_complete env config c :
  loadConfiguration env = Returns config ->
  channelEnabled (featureFlags config) c = true ->
  map Some (credentials config c)
  = map (fun varName => env !! varName) (channelVariables (emailProvider config) c)
  /\ Forall (fun value => value <> "") (credentials config c).
Proof.
  intros L En.
  destruct (loadConfiguration_returns env config L) as (F & P & Fl).
  rewrite Fl in En.
  assert (R : forall varName, In varName (channelVariables (emailProviderOf env) c) ->
                exists s, env !! varName = Some s /\ s <> "").
  { intros varName Hin. apply envMissing_false.
    rewrite filter_nil_iff in F. apply F. apply in_requiredEnvVars. eauto. }
  revert L. unfold loadConfiguration. rewrite F. cbn [length Nat.ltb Nat.leb]. intros [= <-].
  clear F P Fl.
  destruct c; cbn [credentials channelVariables emailProvider] in *;
    try destruct (emailProviderOf env);
    cbn [map sendgrid azureEmail twilio jira teams_webhookUrl
         sendgrid_apiKey sendgrid_fromEmail sendgrid_toEmail
         azureEmail_connectionString azureEmail_senderEmail azureEmail_recipientEmail
         twilio_accountSid twilio_authToken twilio_fromNumber twilio_toNumber
         jira_apiUrl jira_userEmail jira_apiToken jira_projectKey];
    repeat match goal with
           | |- context [JS.orDefault (env !! ?v) ?d] =>
               let s := fresh "s" in
               let E := fresh "E" in
               let N := fresh "N" in
               destruct (R v) as (s & E & N); [cbn [In]; tauto|];
               rewrite (orDefault_present env v s d E N), ?E
           end;
    (split; [reflexivity|repeat constructor; assumption]).
Qed.

Lemma loaded_configuration_is_complete_witness :
  exists config,
    loadConfiguration Cases.envAzure = Returns config
    /\ map Some (credentials config Email)
       = map (fun varName => Cases.envAzure !! varName)
           (channelVariables (emailProvider config) Email)
    /\ Forall (fun value => value <> "") (credentials config Email).
Proof.
  eexists. split; [vm_compute; reflexivity|].
  apply loaded_configuration_is_complete; vm_compute; reflexivity.
Defined.

(** ** The inquiry mail and the email switch *)

Lemma recipientList_empty : recipientList "" = [""].
Proof. reflexivity. Qed.

(** X18. The inquiry mail does not depend on the email configuration. When
    neither [NON_IR_EMAIL_RECIPIENT] nor [IRT_EMAIL_ADDRESS] is set, a
    configuration can only load with the email switch off; a valid Inquiry
    call is then still mailed, and the one recipient handed to the provider
    is the empty address. *)
Theorem inquiry_mail_without_recipient w env request key signature payload config :
  VerifiedCall w env request key signature payload ->
  loadConfiguration env = Returns config ->
  classify payload = Inquiry ->
  valid (validateNonIrCallData payload) = true ->
  envMissing env "NON_IR_EMAIL_RECIPIENT" = true ->
  envMissing env "IRT_EMAIL_ADDRESS" = true ->
  enableEmail (featureFlags config) = false
  /\ nonIrEmail_recipientEmail config = ""
  /\ (emailProvider config = SendGrid \/ newEmailClient w = Returns tt ->
      In (EmailSend (emailProvider config) InquirySummary [""])
         (fst (RetellWebhookProcessor w env request))).
Proof.
  intros V L C Va M1 M2.
  destruct (loadConfiguration_returns env config L) as (F & P & Fl).
  assert (En : enableEmail (featureFlags config) = false).
  { destruct (enableEmail (featureFlags config)) eqn:En; [|reflexivity].
    assert (Hin : In "IRT_EMAIL_ADDRESS" (requiredEnvVars env)).
    { apply in_requiredEnvVars. exists Email. rewrite <- Fl. split; [exact En|].
      cbn [channelVariables]. destruct (emailProviderOf env); cbn [In]; tauto. }
    rewrite filter_nil_iff in F. rewrite (F _ Hin) in M2. discriminate. }
  assert (Rc : nonIrEmail_recipientEmail config = "").
  { revert L. unfold loadConfiguration. rewrite F. cbn [length Nat.ltb Nat.leb].
    intros [= <-]. cbn [nonIrEmail_recipientEmail].
    unfold envMissing in M1, M2. apply negb_true_iff in M1, M2.
    unfold JS.orElse. rewrite M1.
    unfold JS.truthyStr in M2. unfold JS.orDefault.
    destruct (env !! "IRT_EMAIL_ADDRESS") as [s|]; [|reflexivity].
    apply negb_false_iff in M2. rewrite M2. reflexivity. }
  split; [exact En|]. split; [exact Rc|].
  intros H.
  rewrite (handler_dispatch w env request key signature payload config V L).
  rewrite (inquiry_plan payload config C), Va. cbn [negb fst].
  apply in_app_iff. right. unfold dispatchTrace. cbn [map concat startTask].
  unfold sendNonIrEmail. rewrite Va, Rc, recipientList_empty. cbn [negb].
  destruct (emailProvider config).
  - unfold sgMail_send, bind, emit, throw, ret.
    destruct (mailSend w InquirySummary); cbn; auto.
  - destruct H as [H|H]; [discriminate|].
    unfold new_EmailClient, emailClient_send, liftOutcome, bind, emit, throw, ret. rewrite H.
    destruct (mailSend w InquirySummary) as [e|st]; cbn; auto.
    destruct (String.eqb st Succeeded); cbn; auto.
Qed.

Lemma inquiry_mail_without_recipient_witness :
  In (EmailSend SendGrid InquirySummary [""])
     (fst (RetellWebhookProcessor Sample.worldInquiry Sample.envAllOff Sample.request)).
Proof.
  assert (V : VerifiedCall Sample.worldInquiry Sample.envAllOff Sample.request
                Sample.secret Sample.signature Sample.inquiryCall)
    by (repeat split; vm_compute; reflexivity).
  eassert (E : loadConfiguration Sample.envAllOff = Returns _) by (vm_compute; reflexivity).
  destruct (inquiry_mail_without_recipient _ _ _ _ _ _ _ V E) as (_ & _ & H);
    try (vm_compute; reflexivity).
  apply H. left. reflexivity.
Defined.

(** ** Events that cannot be read *)

(** X19. A verified body that cannot be used fails the request without
    side effect. When the body does not parse, the handler's [catch] answers
    500 with the parser's message ([Unknown error occurred] for a thrown
    value that is no [Error]); when the [call_analyzed] event carries no call
    object, it answers 500 with [success: false]. In both cases the
    configuration is not consulted and no channel is called. *)
Theorem unreadable_events_fail_request w env request key signature :
  whenTruthy (env !! "RETELL_API_KEY") = Some key ->
  whenTruthy (headers request !! "x-retell-signature") = Some signature ->
  Retell_verify w (body request) key signature = true ->
  (forall e, JSON_parse w (body request) = Throws e ->
     RetellWebhookProcessor w env request
     = (gateTrace request key signature,
        {| status := 500; jsonBody := ErrorBody (unexpectedMessage e) |}))
  /\ (JSON_parse w (body request) = Returns {| event := "call_analyzed"; call := None |} ->
      fst (RetellWebhookProcessor w env request) = gateTrace request key signature
      /\ status (snd (RetellWebhookProcessor w env request)) = 500
      /\ success (jsonBody (snd (RetellWebhookProcessor w env request))) = false).
Proof.
  intros H1 H2 H3.
  destruct (handler_parsed w env request key signature H1 H2 H3) as (rest & response & E & H).
  split.
  - intros e P. rewrite P in H. destruct H as [-> ->]. rewrite E, app_nil_r. reflexivity.
  - intros P. rewrite P in H. cbn in H. destruct H as (-> & S & F).
    rewrite E, app_nil_r. auto.
Qed.

Lemma unreadable_events_fail_request_witness :
  RetellWebhookProcessor Cases.worldBadJson Sample.envAllOn Sample.request
  = (gateTrace Sample.request Sample.secret Sample.signature,
     {| status := 500;
        jsonBody := ErrorBody "Unexpected token } in JSON at position 1" |}).
Proof.
  apply (proj1 (unreadable_events_fail_request Cases.worldBadJson Sample.envAllOn
                  Sample.request Sample.secret Sample.signature
                  ltac:(vm_compute; reflexivity) ltac:(vm_compute; reflexivity)
                  ltac:(vm_compute; reflexivity))
           (Error "Unexpected token } in JSON at position 1")).
  reflexivity.
Defined.

(** ** The fields of a ticket *)

Lemma getString_present v d :
  isMissing v = false -> exists x, v = Some x /\ getString v d = JS.toString x.
Proof.
  destruct v as [[s|n]|]; cbn [getString]; intros M.
  - destruct (String.eqb_spec s "") as [->|_]; [discriminate|]. eauto.
  - eauto.
  - discriminate.
Qed.

Lemma isMissing_rendered x :
  isMissing (Some x) = false -> isMissing (Some (JS.Str (JS.toString x))) = false.
Proof.
  destruct x as [s|n]; [auto|].
  unfold isMissing. cbn [JS.truthy JS.toString]. intros M.
  apply orb_false_iff in M as [M1 M3]. apply orb_false_iff in M1 as [_ M2].
  rewrite M2, M3.
  destruct (String.eqb_spec (JS.stringOfNumber n) "") as [E|_]; [|reflexivity].
  destruct (stringOfNumber_nonempty n E).
Qed.

Lemma valid_incident_contact payload :
  valid (validateIrCallData payload) = true ->
  isMissing (ofStr (caller_name (analysisOf payload))) = false
  /\ isMissing (ofStr (company_name (analysisOf payload))) = false
  /\ isMissing (caller_phone_number (analysisOf payload)) = false.
Proof.
  unfold validateIrCallData, pushIf.
  destruct (flagIsTrue (analysisOf payload)); cbn [negb app];
    destruct (isMissing (ofStr (caller_name _))),
      (isMissing (ofStr (company_name _))),
      (isMissing (caller_phone_number _)); cbn; try discriminate; auto.
Qed.

Lemma blank_description text :
  Policy.whitespaceOnly text = true ->
  docTexts (convertTextToAtlassianDocumentFormat text) = ["No description provided"].
Proof.
  intros W. unfold convertTextToAtlassianDocumentFormat.
  assert (F : List.filter (fun line => negb (String.eqb (JS.trim line) ""))
                (splitOn newline text) = []).
  { apply filter_nil_iff. intros line Hin.
    pose proof (whitespaceOnly_pieces newline text W) as P.
    rewrite List.Forall_forall in P. rewrite trim_eqb_empty, (P line Hin). reflexivity. }
  rewrite F. reflexivity.
Qed.

(** X20. A ticket carries the caller's own contact data. For a call that
    passes Incident validation (the only calls a ticket is requested for),
    the company, name and phone fields of the ticket are the call's values
    as given, a numeric phone number as [String] prints it: its decimal
    numeral when it is a safe integer. None of the defaults [Not provided] or
    [Unknown Company] is used and none of the three fields would itself be
    judged missing. A description that is absent or blank gives the one
    paragraph [No description provided]. *)
Theorem ticket_fields_of_valid_call (payload : RetellCallObject) :
  valid (validateIrCallData payload) = true ->
  let a := analysisOf payload in
  let f := jiraFields payload in
  company_name a = Some (customfield_10106 f)
  /\ summaryCompany f = customfield_10106 f
  /\ caller_name a = Some (customfield_10109 f)
  /\ (exists x, caller_phone_number a = Some x /\ customfield_10111 f = JS.toString x)
  /\ (forall n, caller_phone_number a = Some (JS.Num n) ->
        Z.abs n <= JS.MAX_SAFE_INTEGER ->
        customfield_10111 f = JS.decimal n)
  /\ Forall (fun value => isMissing (Some (JS.Str value)) = false)
       [customfield_10106 f; customfield_10109 f; customfield_10111 f]
  /\ (Policy.nonEmptyText (IR_call_description a) = false ->
      docTexts (fields_description f) = ["No description provided"]).
Proof.
  intros V. cbv zeta.
  destruct (valid_incident_contact payload V) as (Mn & Mc & Mp).
  unfold jiraFields.
  cbn [summaryCompany customfield_10106 customfield_10109 customfield_10111
       fields_description].
  destruct (getString_present _ "Unknown Company" Mc) as (xc' & Ec' & Gc').
  destruct (getString_present _ getStringDefault Mc) as (xc & Ec & Gc).
  destruct (getString_present _ getStringDefault Mn) as (xn & En & Gn).
  destruct (getString_present _ getStringDefault Mp) as (xp & Ep & Gp).
  rewrite Gc', Gc, Gn, Gp.
  assert (xc' = xc) by congruence. subst xc'.
  split; [|split; [reflexivity|split; [|split; [|split; [|split]]]]].
  - destruct (company_name (analysisOf payload)) as [s|]; [|discriminate].
    injection Ec as <-. reflexivity.
  - destruct (caller_name (analysisOf payload)) as [s|]; [|discriminate].
    injection En as <-. reflexivity.
  - exists xp. split; [exact Ep|reflexivity].
  - intros n Hn Safe. rewrite Hn in Ep. injection Ep as <-.
    apply (stringOfNumber_safe n Safe).
  - rewrite Ec in Mc. rewrite En in Mn. rewrite Ep in Mp.
    repeat constructor; apply isMissing_rendered; assumption.
  - intros D. destruct (IR_call_description (analysisOf payload)) as [s|]; cbn [ofStr option_map getString].
    + cbn [Policy.nonEmptyText] in D. apply negb_false_iff in D.
      destruct (String.eqb_spec s "") as [->|_]; [reflexivity|].
      apply blank_description, D.
    + reflexivity.
Qed.

Lemma ticket_fields_of_valid_call_witness :
  customfield_10111 (jiraFields Cases.numericPhoneCall) = "5551234567"
  /\ docTexts (fields_description (jiraFields Cases.numericPhoneCall))
     = ["No description provided"].
Proof.
  destruct (ticket_fields_of_valid_call Cases.numericPhoneCall ltac:(vm_compute; reflexivity))
    as (_ & _ & _ & _ & Hp & _ & Hd).
  split.
  - rewrite (Hp 5551234567 eq_refl ltac:(vm_compute; discriminate)). reflexivity.
  - apply Hd. reflexivity.
Defined.
